(** * Textured model parser: OBJ mesh decoder and PPM texture loader

    A shallow embedding of [OBJMesh.cpp] and [TextureLoader.cpp]
    (Assignment08_TexturedModelParser/part1/src).  The repository holds two
    revisions of each file.  The later revision of the mesh decoder (the one
    whose [ParseVertexIndices] returns a triple and which has [LoadTextures],
    the entry point called from [main.cpp]) is embedded in full; the pieces
    of the earlier revision that differ are in [Module Earlier].  Both
    revisions of [TextureLoader::ReadImageData] are embedded: [Flipping]
    (two buffers, reversing pass) and [Direct] (one buffer).  Of the
    drawing side, the data that reaches OpenGL is embedded: the vertex
    buffer of [OBJMesh::SetupBuffers] and, from [main.cpp],
    [LoadShaderAsString], [generatePlane], the buffer of
    [GeneratePlaneBufferData] and the attribute pointers of
    [VertexSpecification].

    Conventions.
    - [std::string] is [string]; a [char] or [unsigned char] is an [ascii].
    - [int] is a [Z] in [INT_MIN, INT_MAX]; signed overflow is undefined.
    - [size_t] and [unsigned int] are [Z] reduced modulo 2^64 and 2^32.
    - A C++ call returns ([Ret]), leaves by an exception nobody catches
      ([Throws]), has undefined behaviour ([Undefined]: an unchecked read
      outside a [std::vector]) or never returns ([Loops]).
    - What the code writes to [std::cout] and [std::cerr] is a list of
      events, oldest first. *)

From Stdlib Require Import ZArith String Ascii List Bool Lia.
From stdpp Require Import base list.
Import ListNotations.

Local Open Scope string_scope.
Local Open Scope list_scope.
Local Open Scope Z_scope.

(** ** Outcomes of a call *)

Inductive exn : Type :=
| invalid_argument      (* std::stoi: no conversion could be performed *)
| out_of_range          (* std::stoi: value outside int; substr: pos > size *)
| bad_alloc.            (* new T[n] that cannot be had: std::bad_alloc or a
                           class derived from it *)

Inductive outcome (A : Type) : Type :=
| Ret (a : A)
| Throws (e : exn)
| Undefined
| Loops.

Arguments Ret {A} a.
Arguments Throws {A} e.
Arguments Undefined {A}.
Arguments Loops {A}.

#[global] Instance outcome_ret : MRet outcome := fun A a => Ret a.

#[global] Instance outcome_bind : MBind outcome := fun A B k m =>
  match m with
  | Ret a => k a
  | Throws e => Throws e
  | Undefined => Undefined
  | Loops => Loops
  end.

Definition returns {A : Type} (m : outcome A) : bool :=
  match m with Ret _ => true | _ => false end.

(** ** Machine integers *)

Definition INT_MIN : Z := - 2 ^ 31.
Definition INT_MAX : Z := 2 ^ 31 - 1.

Definition in_int (z : Z) : bool := (INT_MIN <=? z) && (z <=? INT_MAX).

(** A signed [int] result: representable or undefined. *)
Definition int_result (z : Z) : outcome Z :=
  if in_int z then Ret z else Undefined.

Definition size_t_modulus : Z := 2 ^ 64.

(** Conversion to [size_t], also of a negative [int]. *)
Definition to_size_t (z : Z) : Z := z mod size_t_modulus.

(** [std::string::npos], that is [(size_t)-1]. *)
Definition npos : Z := size_t_modulus - 1.

(** [static_cast<unsigned char>(value)] *)
Definition to_uchar (z : Z) : ascii := ascii_of_N (Z.to_N (z mod 256)).

(** ** Characters and [std::string] *)

Definition char_code (c : ascii) : Z := Z.of_N (N_of_ascii c).

(** [isspace] in the "C" locale: space, \t, \n, \v, \f, \r. *)
Definition isspace (c : ascii) : bool :=
  (char_code c =? 32) || ((9 <=? char_code c) && (char_code c <=? 13)).

Definition isdigit (c : ascii) : bool :=
  (48 <=? char_code c) && (char_code c <=? 57).

Definition digit_value (c : ascii) : Z := char_code c - 48.

Definition size (s : string) : Z := Z.of_nat (String.length s).

Definition empty (s : string) : bool :=
  match s with EmptyString => true | _ => false end.

(** [s.find(c, pos)]: scanning from offset [i], the first index not below
    [pos] that holds [c]; [npos] when there is none. *)
Fixpoint find_at (c : ascii) (pos i : Z) (s : string) : Z :=
  match s with
  | EmptyString => npos
  | String a r =>
      if (pos <=? i) && Ascii.eqb a c then i else find_at c pos (i + 1) r
  end.

Definition find (s : string) (c : ascii) (pos : Z) : Z := find_at c pos 0 s.

(** [s.substr(pos, count)]: throws when [pos > size()], otherwise the
    characters [pos, pos + min(count, size() - pos))]. *)
Definition substr (s : string) (pos count : Z) : outcome string :=
  if size s <? pos then Throws out_of_range
  else Ret (substring (Z.to_nat pos) (Z.to_nat (Z.min count (size s - pos))) s).

(** [s.find_last_of("/\\")] *)
Fixpoint find_last_sep_at (i : Z) (s : string) (last : Z) : Z :=
  match s with
  | EmptyString => last
  | String a r =>
      find_last_sep_at (i + 1) r
        (if Ascii.eqb a "/" || Ascii.eqb a "\" then i else last)
  end.

Definition find_last_of_sep (s : string) : Z := find_last_sep_at 0 s npos.

Fixpoint skip_ws (s : string) : string :=
  match s with
  | String a r => if isspace a then skip_ws r else s
  | EmptyString => EmptyString
  end.

(** The longest run of decimal digits at the front of [s], accumulated onto
    [acc]; [seen] records whether a digit was read. *)
Fixpoint read_digits (acc : Z) (seen : bool) (s : string) : Z * bool * string :=
  match s with
  | String a r =>
      if isdigit a then read_digits (10 * acc + digit_value a) true r
      else (acc, seen, s)
  | EmptyString => (acc, seen, EmptyString)
  end.

Definition read_sign (s : string) : bool * string :=
  match s with
  | String "-" r => (true, r)
  | String "+" r => (false, r)
  | _ => (false, s)
  end.

(** [std::stoi(s)] (base 10, through [strtol]): leading white space, an
    optional sign, then digits; trailing characters are ignored. *)
Definition stoi (s : string) : outcome Z :=
  let '(neg, s1) := read_sign (skip_ws s) in
  let '(v, seen, _) := read_digits 0 false s1 in
  if negb seen then Throws invalid_argument
  else
    let z := if neg then - v else v in
    if in_int z then Ret z else Throws out_of_range.

(** ** Input streams

    [std::ifstream] and [std::istringstream]: the characters of the source,
    how many were consumed, and the state flags. *)

Record istream : Type := mk_istream {
  content : string;
  offset : nat;
  eofbit : bool;
  failbit : bool;
  badbit : bool
}.

Definition open_stream (s : string) : istream := mk_istream s 0 false false false.

Fixpoint drop_chars (n : nat) (s : string) : string :=
  match n, s with
  | O, _ => s
  | S n', String _ r => drop_chars n' r
  | S _, EmptyString => EmptyString
  end.

Definition pending (i : istream) : string := drop_chars (offset i) (content i).

Definition good (i : istream) : bool := negb (eofbit i || failbit i || badbit i).

(** [fail()], also what [operator bool] and [operator!] test. *)
Definition fail (i : istream) : bool := failbit i || badbit i.

Definition set_fail (i : istream) : istream :=
  mk_istream (content i) (offset i) (eofbit i) true (badbit i).

Definition set_eof (i : istream) : istream :=
  mk_istream (content i) (offset i) true (failbit i) (badbit i).

Definition set_bad (i : istream) : istream :=
  mk_istream (content i) (offset i) (eofbit i) (failbit i) true.

Definition clear_eof (i : istream) : istream :=
  mk_istream (content i) (offset i) false (failbit i) (badbit i).

(** Move the read position so that [rest], a suffix of the source, is what
    remains. *)
Definition advance_to (i : istream) (rest : string) : istream :=
  mk_istream (content i) (String.length (content i) - String.length rest)%nat
    (eofbit i) (failbit i) (badbit i).

(** The sentry of a formatted input function ([skipws] set): a stream that is
    not good fails; white space is discarded; running out of characters
    sets [eofbit] and [failbit]. *)
Definition sentry (i : istream) : bool * istream :=
  if good i then
    let rest := skip_ws (pending i) in
    let i1 := advance_to i rest in
    if empty rest then (false, set_fail (set_eof i1)) else (true, i1)
  else (false, set_fail i).

(** The sentry of an unformatted input function: no white space is skipped. *)
Definition sentry_noskipws (i : istream) : bool * istream :=
  if good i then (true, i) else (false, set_fail i).

Fixpoint read_word (s : string) : string * string :=
  match s with
  | String a r =>
      if isspace a then (EmptyString, s)
      else let '(w, rest) := read_word r in (String a w, rest)
  | EmptyString => (EmptyString, EmptyString)
  end.

(** [is >> str] for a [std::string]: [str] is left alone when the sentry
    fails. *)
Definition get_string (i : istream) (str : string) : string * istream :=
  let '(ok, i1) := sentry i in
  if ok then
    let '(w, rest) := read_word (pending i1) in
    let i2 := advance_to i1 rest in
    (w, if empty rest then set_eof i2 else i2)
  else (str, i1).

(** [is >> n] for an [int]: what is stored in the target, if anything.  The
    target is left alone ([None]) when the sentry fails; it gets 0 when no
    digit is found and the nearest bound on overflow, both with [failbit]. *)
Definition extract_int (i : istream) : option Z * istream :=
  let '(ok, i1) := sentry i in
  if ok then
    let '(neg, s1) := read_sign (pending i1) in
    let '(v, seen, rest) := read_digits 0 false s1 in
    let i2 := advance_to i1 rest in
    let i3 := if empty rest then set_eof i2 else i2 in
    if negb seen then (Some 0, set_fail i3)
    else
      let z := if neg then - v else v in
      if z <? INT_MIN then (Some INT_MIN, set_fail i3)
      else if INT_MAX <? z then (Some INT_MAX, set_fail i3)
      else (Some z, i3)
  else (None, i1).

(** [is >> n] on a variable that holds [n]. *)
Definition get_int (i : istream) (n : Z) : Z * istream :=
  let '(stored, i1) := extract_int i in (default n stored, i1).

(** [is.get(c)]: [c] is left alone when nothing is read. *)
Definition get_char (i : istream) (c : ascii) : ascii * istream :=
  let '(ok, i1) := sentry_noskipws i in
  if ok then
    match pending i1 with
    | String a rest => (a, advance_to i1 rest)
    | EmptyString => (c, set_fail (set_eof i1))
    end
  else (c, i1).

(** [is.unget()] (C++11): clears [eofbit], then steps back one character;
    [badbit] when there is none to step back over. *)
Definition unget (i : istream) : istream :=
  let '(ok, i1) := sentry_noskipws (clear_eof i) in
  if ok then
    match offset i1 with
    | O => set_bad i1
    | S k => mk_istream (content i1) k (eofbit i1) (failbit i1) (badbit i1)
    end
  else i1.

(** [std::getline] until the stream fails: the lines of a file.  A last
    line without a newline counts; a newline at the very end opens no
    further line. *)
Fixpoint getlines_from (cur : string) (s : string) : list string :=
  match s with
  | EmptyString => if empty cur then [] else [cur]
  | String a r =>
      if Ascii.eqb a "010" then cur :: getlines_from EmptyString r
      else getlines_from (cur ++ String a EmptyString)%string r
  end.

Definition getlines (s : string) : list string := getlines_from EmptyString s.

(** [v[i]] on a [std::vector]: the index is converted to [size_type]; the
    access is not checked. *)
Definition at_unchecked {A : Type} (v : list A) (i : Z) : outcome A :=
  let k := to_size_t i in
  if k <? Z.of_nat (length v) then
    match v !! Z.to_nat k with
    | Some a => Ret a
    | None => Undefined
    end
  else Undefined.

(** The files the program can open: [None] for a path that cannot be. *)
Definition filesystem : Type := string -> option string.

(** ** Floating point

    The decoders store, copy and print [float]s; they compute with them only
    in [1.0f - t] (earlier revision) and through [glm::normalize].  The
    arithmetic and the text-to-float conversion of the C++ library are taken
    as given. *)

Class Floating : Type := {
  float : Type;
  (** the literals [0.7f] and [1.0f] *)
  f_0_7 : float;
  f_1_0 : float;
  (** [a - b] *)
  f_sub : float -> float -> float;
  (** [std::num_get] for [float] on the characters after the white space:
      the value stored, whether the conversion succeeded, and what is left
      of the input.  A failed conversion stores a value all the same. *)
  num_get_float : string -> float * bool * string;
  (** [glm::normalize] on the components of a [glm::vec3] *)
  glm_normalize : float * float * float -> float * float * float
}.

(** What the code writes to [std::cout] and [std::cerr]. *)
Inductive event : Type :=
| cerr_failed_open (filename : string)
| cout_loading_obj (filename : string)
| cout_loaded_obj (vertexCount normalCount faceCount triangles : Z)
| cerr_invalid_texcoord (vtIdx : Z)
| cout_attempt_mtl (filename : string)
| cerr_failed_open_mtl (filename : string)
| cout_opened_mtl
| cout_found_material (name : string)
| cout_found_texture (path : string)
| cerr_failed_texture (path : string)
| cout_loaded_texture (textureID : Z)
| cout_attempt_ppm (filepath : string)
| cerr_failed_open_ppm (filepath : string)
| cout_opened_ppm
| cout_ppm_format (magicNumber : string)
| cerr_invalid_ppm_format
| cout_dimensions (width height : Z)
| cout_max_color (maxColorValue : Z)
| cerr_only_8bit
| cout_allocated
| cout_reading_binary
| cout_reading_ascii
| cerr_read_error
| cout_read_ppm (width height : Z)
| cerr_failed_texture_data
| cerr_gl_error (err : Z)
| cout_created_texture (textureID : Z)
| cout_test (n : Z).

Section Mesh.

Context {F : Floating}.

Definition vec3 : Type := float * float * float.
Definition vec2 : Type := float * float.

Record Vertex : Type := mk_Vertex {
  x : float; y : float; z : float;
  r : float; g : float; b : float;
  nx : float; ny : float; nz : float;
  s : float; t : float
}.

Record Triangle : Type := mk_Triangle {
  vertices : Vertex * Vertex * Vertex
}.

Record Material : Type := mk_Material {
  name : string;
  diffuseTexture : string
}.

Record OBJMesh : Type := mk_OBJMesh {
  m_triangles : list Triangle;
  positions : list vec3;
  normals : list vec3;
  texCoords : list vec2;
  m_material : Material;
  m_textureID : Z;
  m_pendingTexturePath : string
}.

(** [is >> x] for a [float]: [x] is left alone when the sentry fails. *)
Definition get_float (i : istream) (x : float) : float * istream :=
  let '(ok, i1) := sentry i in
  if ok then
    let '(v, converted, rest) := num_get_float (pending i1) in
    let i2 := advance_to i1 rest in
    let i3 := if empty rest then set_eof i2 else i2 in
    (v, if converted then i3 else set_fail i3)
  else (x, i1).

(** [iss >> x >> y >> z] and [iss >> s >> t] on uninitialised locals. *)
Definition get_float3 (iss : istream) (junk : nat -> float) : vec3 :=
  let '(x, iss) := get_float iss (junk 0%nat) in
  let '(y, iss) := get_float iss (junk 1%nat) in
  let '(z, iss) := get_float iss (junk 2%nat) in
  (x, y, z).

Definition get_float2 (iss : istream) (junk : nat -> float) : vec2 :=
  let '(s, iss) := get_float iss (junk 0%nat) in
  let '(t, iss) := get_float iss (junk 1%nat) in
  (s, t).

(** [iss >> vertex1 >> vertex2 >> vertex3] on three empty strings. *)
Definition get_string3 (iss : istream) : string * string * string :=
  let '(vertex1, iss) := get_string iss EmptyString in
  let '(vertex2, iss) := get_string iss EmptyString in
  let '(vertex3, iss) := get_string iss EmptyString in
  (vertex1, vertex2, vertex3).

(** *** [OBJMesh::ParseVertexIndices] (later revision) *)

Definition ParseVertexIndices (this : OBJMesh) (vertexStr : string)
  : outcome (Z * Z * Z * list event) :=
  let slash1 := find vertexStr "/" 0 in
  let slash2 := find vertexStr "/" (to_size_t (slash1 + 1)) in
  if slash1 =? npos then
    v ← stoi vertexStr;
    vIdx ← int_result (v - 1);
    mret (vIdx, 0, 0, [])
  else
    vStr ← substr vertexStr 0 slash1;
    vtStr ← substr vertexStr (to_size_t (slash1 + 1))
                             (to_size_t (slash2 - slash1 - 1));
    vnStr ← substr vertexStr (to_size_t (slash2 + 1)) npos;
    vIdx ← (v ← stoi vStr; int_result (v - 1));
    vtIdx ← (if empty vtStr then mret 0
             else v ← stoi vtStr; int_result (v - 1));
    vnIdx ← (if empty vnStr then mret 0
             else v ← stoi vnStr; int_result (v - 1));
    (* Ensure indices are valid *)
    if Z.of_nat (length (texCoords this)) <=? to_size_t vtIdx then
      mret (vIdx, 0, vnIdx, [cerr_invalid_texcoord vtIdx])
    else
      mret (vIdx, vtIdx, vnIdx, []).

(** [directory] of a path: up to and including the last separator. *)
Definition directory_of (filename : string) : outcome string :=
  let lastSlash := find_last_of_sep filename in
  if lastSlash =? npos then mret EmptyString
  else substr filename 0 (to_size_t (lastSlash + 1)).

(** *** [OBJMesh::LoadMTL] (later revision) *)

Definition LoadMTL_line (filename : string) (line : string)
    (st : OBJMesh * list event) : outcome (OBJMesh * list event) :=
  let '(this, out) := st in
  let iss := open_stream line in
  let '(token, iss) := get_string iss EmptyString in
  if String.eqb token "newmtl" then
    let '(nm, iss) := get_string iss (name (m_material this)) in
    let this := mk_OBJMesh (m_triangles this) (positions this) (normals this)
                  (texCoords this)
                  (mk_Material nm (diffuseTexture (m_material this)))
                  (m_textureID this) (m_pendingTexturePath this) in
    mret (this, out ++ [cout_found_material nm])
  else if String.eqb token "map_Kd" then
    let '(tex, iss) := get_string iss (diffuseTexture (m_material this)) in
    directory ← directory_of filename;
    let path := (directory ++ tex)%string in
    let this := mk_OBJMesh (m_triangles this) (positions this) (normals this)
                  (texCoords this)
                  (mk_Material (name (m_material this)) tex)
                  (m_textureID this) path in
    mret (this, out ++ [cout_found_texture path])
  else mret (this, out).

Fixpoint LoadMTL_lines (filename : string) (lines : list string)
    (st : OBJMesh * list event) : outcome (OBJMesh * list event) :=
  match lines with
  | [] => mret st
  | line :: rest =>
      st' ← LoadMTL_line filename line st;
      LoadMTL_lines filename rest st'
  end.

Definition LoadMTL (fs : filesystem) (filename : string)
    (st : OBJMesh * list event) : outcome (bool * (OBJMesh * list event)) :=
  let '(this, out) := st in
  let out := out ++ [cout_attempt_mtl filename] in
  match fs filename with
  | None => mret (false, (this, out ++ [cerr_failed_open_mtl filename]))
  | Some text =>
      st' ← LoadMTL_lines filename (getlines text) (this, out ++ [cout_opened_mtl]);
      mret (true, st')
  end.

(** *** [OBJMesh::LoadOBJ] (later revision) *)

(** The object together with the locals of [LoadOBJ] that live across the
    lines, and the output so far. *)
Record loop_state : Type := mk_loop_state {
  this : OBJMesh;
  mtlFile : string;
  vertexCount : Z;
  normalCount : Z;
  faceCount : Z;
  out : list event
}.

Definition with_positions (m : OBJMesh) (p : list vec3) : OBJMesh :=
  mk_OBJMesh (m_triangles m) p (normals m) (texCoords m)
    (m_material m) (m_textureID m) (m_pendingTexturePath m).

Definition with_normals (m : OBJMesh) (n : list vec3) : OBJMesh :=
  mk_OBJMesh (m_triangles m) (positions m) n (texCoords m)
    (m_material m) (m_textureID m) (m_pendingTexturePath m).

Definition with_texCoords (m : OBJMesh) (tc : list vec2) : OBJMesh :=
  mk_OBJMesh (m_triangles m) (positions m) (normals m) tc
    (m_material m) (m_textureID m) (m_pendingTexturePath m).

Definition with_triangles (m : OBJMesh) (ts : list Triangle) : OBJMesh :=
  mk_OBJMesh ts (positions m) (normals m) (texCoords m)
    (m_material m) (m_textureID m) (m_pendingTexturePath m).

(** One corner of a face: the three pool reads and the [Vertex] built from
    them, with the fixed colour. *)
Definition corner (m : OBJMesh) (v vt vn : Z) : outcome Vertex :=
  p ← at_unchecked (positions m) v;
  n ← at_unchecked (normals m) vn;
  tc ← at_unchecked (texCoords m) vt;
  mret (mk_Vertex (p.1.1) (p.1.2) (p.2) f_0_7 f_0_7 f_0_7
                  (n.1.1) (n.1.2) (n.2) (tc.1) (tc.2)).

(** The body of the [while (std::getline(file, line))] loop.  [junk] gives
    the contents of the uninitialised [float] locals of this iteration. *)
Definition LoadOBJ_line (fs : filesystem) (filename : string)
    (junk : nat -> float) (line : string) (st : loop_state)
  : outcome loop_state :=
  let iss := open_stream line in
  let '(type, iss) := get_string iss EmptyString in
  if String.eqb type "mtllib" then
    let '(mtl, iss) := get_string iss (mtlFile st) in
    directory ← directory_of filename;
    '(_, (m, o)) ← LoadMTL fs (directory ++ mtl)%string (this st, out st);
    mret (mk_loop_state m mtl (vertexCount st) (normalCount st)
            (faceCount st) o)
  else if String.eqb type "v" then
    let '(x, y, z) := get_float3 iss junk in
    mret (mk_loop_state
            (with_positions (this st) (positions (this st) ++ [(x, y, z)]))
            (mtlFile st) (vertexCount st + 1) (normalCount st)
            (faceCount st) (out st))
  else if String.eqb type "vn" then
    let '(nx, ny, nz) := get_float3 iss junk in
    mret (mk_loop_state
            (with_normals (this st)
               (normals (this st) ++ [glm_normalize (nx, ny, nz)]))
            (mtlFile st) (vertexCount st) (normalCount st + 1)
            (faceCount st) (out st))
  else if String.eqb type "vt" then
    let '(s, t) := get_float2 iss junk in
    mret (mk_loop_state
            (with_texCoords (this st) (texCoords (this st) ++ [(s, t)]))
            (mtlFile st) (vertexCount st) (normalCount st)
            (faceCount st) (out st))
  else if String.eqb type "f" then
    let '(vertex1, vertex2, vertex3) := get_string3 iss in
    '(v1, vt1, vn1, d1) ← ParseVertexIndices (this st) vertex1;
    '(v2, vt2, vn2, d2) ← ParseVertexIndices (this st) vertex2;
    '(v3, vt3, vn3, d3) ← ParseVertexIndices (this st) vertex3;
    c0 ← corner (this st) v1 vt1 vn1;
    c1 ← corner (this st) v2 vt2 vn2;
    c2 ← corner (this st) v3 vt3 vn3;
    mret (mk_loop_state
            (with_triangles (this st)
               (m_triangles (this st) ++ [mk_Triangle (c0, c1, c2)]))
            (mtlFile st) (vertexCount st) (normalCount st)
            (faceCount st + 1) (out st ++ d1 ++ d2 ++ d3))
  else mret st.

Fixpoint LoadOBJ_lines (fs : filesystem) (filename : string)
    (junk : nat -> nat -> float) (lineno : nat) (lines : list string)
    (st : loop_state) : outcome loop_state :=
  match lines with
  | [] => mret st
  | line :: rest =>
      st' ← LoadOBJ_line fs filename (junk lineno) line st;
      LoadOBJ_lines fs filename junk (S lineno) rest st'
  end.

(** [positions.clear(); normals.clear(); texCoords.clear();
    m_triangles.clear();] *)
Definition clear_pools (m : OBJMesh) : OBJMesh :=
  mk_OBJMesh [] [] [] [] (m_material m) (m_textureID m)
    (m_pendingTexturePath m).

Definition LoadOBJ (fs : filesystem) (junk : nat -> nat -> float)
    (m : OBJMesh) (filename : string) : outcome (bool * OBJMesh * list event) :=
  match fs filename with
  | None => mret (false, m, [cerr_failed_open filename])
  | Some text =>
      let st := mk_loop_state (clear_pools m) EmptyString 0 0 0
                  [cout_loading_obj filename] in
      st' ← LoadOBJ_lines fs filename junk 0 (getlines text) st;
      mret (true, this st',
            out st' ++ [cout_loaded_obj (vertexCount st') (normalCount st')
                          (faceCount st')
                          (Z.of_nat (length (m_triangles (this st'))))])
  end.

(** [OBJMesh::GetTriangleCount] *)
Definition GetTriangleCount (m : OBJMesh) : Z :=
  Z.of_nat (length (m_triangles m)).

(** What a decode leaves in the pools and the triangle list. *)
Definition pools (m : OBJMesh)
  : list Triangle * list vec3 * list vec3 * list vec2 :=
  (m_triangles m, positions m, normals m, texCoords m).

(** The part of a call's outcome the collaborators consume: the returned
    flag, the triangle list and the pools. *)
Definition decoded (r : outcome (bool * OBJMesh * list event))
  : outcome (bool * (list Triangle * list vec3 * list vec3 * list vec2)) :=
  '(ok, m, _) ← r; mret (ok, pools m).

End Mesh.

(** ** [TextureLoader]

    A cell of an [unsigned char] array: [None] while its content is
    indeterminate (never written, or written from an indeterminate value). *)

Abbreviation cell := (option ascii).
Abbreviation buffer := (list (option ascii)).

(** [new unsigned char[n]] for an [int] expression [n].  A negative [n]
    is converted to a [size_t] no allocation can satisfy: built with g++ the
    program throws [std::bad_alloc] (the standard names the derived
    [std::bad_array_new_length]). *)
Definition new_uchar_array (n : Z) : outcome buffer :=
  if n <? 0 then Throws bad_alloc
  else Ret (replicate (Z.to_nat n) None).

(** [a[i]] on a raw array, reading and writing; outside the array the
    behaviour is undefined. *)
Definition read_cell (a : buffer) (i : Z) : outcome cell :=
  if (0 <=? i) && (i <? Z.of_nat (length a)) then
    match a !! Z.to_nat i with Some c => Ret c | None => Undefined end
  else Undefined.

Definition write_cell (a : buffer) (i : Z) (c : cell) : outcome buffer :=
  if (0 <=? i) && (i <? Z.of_nat (length a)) then Ret (<[Z.to_nat i := c]> a)
  else Undefined.

Definition to_uint (z : Z) : Z := z mod 2 ^ 32.

(** The contents of the locals that [ReadImageData] declares without an
    initialiser. *)
Record ppm_junk : Type := mk_ppm_junk {
  junk_c : ascii;
  junk_maxColorValue : Z
}.

Definition is_blank (c : ascii) : bool :=
  Ascii.eqb c " " || Ascii.eqb c "010" || Ascii.eqb c "013".

(** [while (file.get(c) && (c == ' ' || c == '\n' || c == '\r'));]
    Every round that goes on has consumed a character, so [fuel] rounds
    suffice when [fuel] is the number of characters left. *)
Fixpoint skip_blanks (fuel : nat) (file : istream) (c : ascii) : ascii * istream :=
  let '(c1, file1) := get_char file c in
  if fail file1 then (c1, file1)
  else if is_blank c1 then
    match fuel with
    | O => (c1, file1)
    | S k => skip_blanks k file1 c1
    end
  else (c1, file1).

(** [while (file.get(c) && c != '\n');] *)
Fixpoint skip_line (fuel : nat) (file : istream) (c : ascii) : ascii * istream :=
  let '(c1, file1) := get_char file c in
  if fail file1 then (c1, file1)
  else if negb (Ascii.eqb c1 "010") then
    match fuel with
    | O => (c1, file1)
    | S k => skip_line k file1 c1
    end
  else (c1, file1).

Definition chars_left (file : istream) : nat := String.length (pending file).

(** [while (c == '#') { skip the line; skip blanks }].  Once the stream has
    failed no [get] changes [c] or the stream any more: with [c == '#'] the
    loop goes round for ever. *)
Fixpoint skip_comments (fuel : nat) (file : istream) (c : ascii)
  : outcome (ascii * istream) :=
  if Ascii.eqb c "#" then
    if fail file then Loops
    else
      match fuel with
      | O => Loops
      | S k =>
          let '(c1, file1) := skip_line (chars_left file) file c in
          let '(c2, file2) := skip_blanks (chars_left file1) file1 c1 in
          skip_comments k file2 c2
      end
  else Ret (c, file).

(** What is known when the pixel buffer is about to be allocated. *)
Record header : Type := mk_header {
  isBinary : bool;
  width : Z;
  height : Z;
  file : istream;
  log : list event
}.

(** [ReadImageData] up to the allocation.  [inl] is an early [return]:
    [width], [height] as they then are (the caller's [data] is not
    touched). *)
Definition read_header (fs : filesystem) (u : ppm_junk) (filepath : string)
    (width0 height0 : Z) : outcome (Z * Z * list event + header) :=
  match fs filepath with
  | None => mret (inl (width0, height0, [cerr_failed_open_ppm filepath]))
  | Some bytes =>
      let file := open_stream bytes in
      let out := [cout_opened_ppm] in
      let '(magicNumber, file) := get_string file EmptyString in
      let out := out ++ [cout_ppm_format magicNumber] in
      if negb (String.eqb magicNumber "P3") && negb (String.eqb magicNumber "P6")
      then mret (inl (width0, height0, out ++ [cerr_invalid_ppm_format]))
      else
        let isBinary := String.eqb magicNumber "P6" in
        (* Skip comments and whitespace *)
        let '(c, file) := skip_blanks (chars_left file) file (junk_c u) in
        '(c, file) ← skip_comments (S (chars_left file)) file c;
        let file := unget file in
        (* Read dimensions *)
        let '(width, file) := get_int file width0 in
        let '(height, file) := get_int file height0 in
        (* Read max color value *)
        let '(maxColorValue, file) := get_int file (junk_maxColorValue u) in
        let out := out ++ [cout_dimensions width height;
                           cout_max_color maxColorValue] in
        if 255 <? maxColorValue
        then mret (inl (width, height, out ++ [cerr_only_8bit]))
        else
          (* Skip single whitespace character after maxval *)
          let file := if isBinary then snd (get_char file "000"%char) else file in
          mret (inr (mk_header isBinary width height file out))
  end.

(** [width * height * 3] in [int] arithmetic. *)
Definition sample_count (width height : Z) : outcome Z :=
  wh ← int_result (width * height);
  int_result (wh * 3).

Definition chars_of (s : string) : list ascii := list_ascii_of_string s.

(** [file.read(buf, n)]: the first [min n available] cells are written; a
    short read sets [eofbit] and [failbit]. *)
Definition read_bytes (file : istream) (buf : buffer) (n : Z) : buffer * istream :=
  let '(ok, file1) := sentry_noskipws file in
  if ok then
    let got := take (Z.to_nat n) (chars_of (pending file1)) in
    let file2 := mk_istream (content file1) (offset file1 + length got)%nat
                   (eofbit file1) (failbit file1) (badbit file1) in
    (map Some got ++ drop (length got) buf,
     if Z.of_nat (length got) =? n then file2 else set_fail (set_eof file2))
  else (buf, file1).

(** [for (int i = 0; i < n; ++i) { int value; file >> value;
    buf[i] = static_cast<unsigned char>(value); }], [todo] rounds from
    index [i]. *)
Fixpoint read_ascii (todo : nat) (i : Z) (file : istream) (buf : buffer)
  : outcome (buffer * istream) :=
  match todo with
  | O => mret (buf, file)
  | S k =>
      let '(value, file1) := extract_int file in
      buf1 ← write_cell buf i (to_uchar <$> value);
      read_ascii k (i + 1) file1 buf1
  end.

Definition read_samples (h : header) (n : Z) (buf : buffer)
  : outcome (buffer * istream * list event) :=
  if isBinary h then
    let '(buf1, file1) := read_bytes (file h) buf n in
    mret (buf1, file1, [cout_reading_binary])
  else
    '(buf1, file1) ← read_ascii (Z.to_nat n) 0 (file h) buf;
    mret (buf1, file1, [cout_reading_ascii]).

(** The earlier revision: samples are read into [copyData] and copied to
    [data] in a second pass. *)
Module Flipping.

(** [for (int i = 0; i < n; i += 3) { data[pos] = copyData[i + 2];
    data[pos - 1] = copyData[i + 1]; data[pos - 2] = copyData[i];
    pos -= 3; }] with [unsigned int pos], [rounds] rounds from [i]. *)
Fixpoint flip_pass (rounds : nat) (i pos : Z) (copyData data : buffer)
  : outcome buffer :=
  match rounds with
  | O => mret data
  | S k =>
      c2 ← read_cell copyData (i + 2);
      data ← write_cell data pos c2;                    (* Blue *)
      c1 ← read_cell copyData (i + 1);
      data ← write_cell data (to_uint (pos - 1)) c1;    (* Green *)
      c0 ← read_cell copyData i;
      data ← write_cell data (to_uint (pos - 2)) c0;    (* Red *)
      flip_pass k (i + 3) (to_uint (pos - 3)) copyData data
  end.

(** The number of rounds of a loop [for (i = 0; i < n; i += 3)]. *)
Definition rounds_of (n : Z) : nat := Z.to_nat ((n + 2) / 3).

Definition ReadImageData (fs : filesystem) (u : ppm_junk) (filepath : string)
    (width0 height0 : Z) (data0 : option buffer)
  : outcome (Z * Z * option buffer * list event) :=
  hd ← read_header fs u filepath width0 height0;
  match hd with
  | inl (w, h, out) => mret (w, h, data0, out)
  | inr hd =>
      (* Allocate memory for temporary image data *)
      n ← sample_count (width hd) (height hd);
      copyData ← new_uchar_array n;
      '(copyData, file, out1) ← read_samples hd n copyData;
      (* Allocate memory for flipped image data *)
      data ← new_uchar_array n;
      (* Flip the image vertically and swap RGB to BGR *)
      data ← flip_pass (rounds_of n) 0 (to_uint (n - 1)) copyData data;
      let out := log hd ++ [cout_allocated] ++ out1 in
      if fail file then
        mret (width hd, height hd, None,
              out ++ [cerr_read_error; cout_read_ppm (width hd) (height hd)])
      else
        mret (width hd, height hd, Some data,
              out ++ [cout_read_ppm (width hd) (height hd)])
  end.

End Flipping.

(** The later revision: samples are read straight into [data]. *)
Module Direct.

Definition ReadImageData (fs : filesystem) (u : ppm_junk) (filepath : string)
    (width0 height0 : Z) (data0 : option buffer)
  : outcome (Z * Z * option buffer * list event) :=
  hd ← read_header fs u filepath width0 height0;
  match hd with
  | inl (w, h, out) => mret (w, h, data0, out)
  | inr hd =>
      (* Allocate memory for the image data *)
      n ← sample_count (width hd) (height hd);
      data ← new_uchar_array n;
      '(data, file, out1) ← read_samples hd n data;
      let out := log hd ++ [cout_allocated] ++ out1 in
      if fail file then
        mret (width hd, height hd, None, out ++ [cerr_read_error])
      else
        mret (width hd, height hd, Some data, out)
  end.

End Direct.

(** ** OpenGL

    The calls [LoadPPM] makes, on an OpenGL context whose state is not
    modelled further. *)

Inductive GLenum : Type :=
| GL_TEXTURE_2D | GL_TEXTURE_WRAP_S | GL_TEXTURE_WRAP_T
| GL_TEXTURE_MIN_FILTER | GL_TEXTURE_MAG_FILTER
| GL_REPEAT | GL_LINEAR | GL_LINEAR_MIPMAP_LINEAR
| GL_RGB | GL_UNSIGNED_BYTE.

Class OpenGL : Type := {
  context : Type;
  glGenTextures : context -> Z * context;
  glBindTexture : GLenum -> Z -> context -> context;
  glTexParameteri : GLenum -> GLenum -> GLenum -> context -> context;
  glTexImage2D : GLenum -> Z -> Z -> buffer -> context -> context;
  glGenerateMipmap : GLenum -> context -> context;
  glGetError : context -> Z * context;
  glDeleteTextures : Z -> context -> context
}.

Definition GL_NO_ERROR : Z := 0.

Section Textures.

Context {GL : OpenGL}.

(** [LoadPPM]'s own uninitialised [width] and [height], and those of the
    [ReadImageData] it calls. *)
Record load_junk : Type := mk_load_junk {
  junk_width : Z;
  junk_height : Z;
  junk_read : ppm_junk
}.

(** [TextureLoader::LoadPPM], earlier revision. *)
Definition Flipping_LoadPPM (fs : filesystem) (u : load_junk)
    (filepath : string) (gl : context) : outcome (Z * context * list event) :=
  '(width, height, data, out) ←
    Flipping.ReadImageData fs (junk_read u) filepath
      (junk_width u) (junk_height u) None;
  let out := [cout_attempt_ppm filepath] ++ out in
  match data with
  | None => mret (0, gl, out ++ [cerr_failed_texture_data])
  | Some data =>
      let '(textureID, gl) := glGenTextures gl in
      let gl := glBindTexture GL_TEXTURE_2D textureID gl in
      let gl := glTexParameteri GL_TEXTURE_2D GL_TEXTURE_WRAP_S GL_REPEAT gl in
      let gl := glTexParameteri GL_TEXTURE_2D GL_TEXTURE_WRAP_T GL_REPEAT gl in
      let gl := glTexParameteri GL_TEXTURE_2D GL_TEXTURE_MIN_FILTER GL_LINEAR gl in
      let gl := glTexParameteri GL_TEXTURE_2D GL_TEXTURE_MAG_FILTER GL_LINEAR gl in
      let gl := glTexImage2D GL_TEXTURE_2D width height data gl in
      let '(err, gl) := glGetError gl in
      if negb (err =? GL_NO_ERROR) then
        mret (0, glDeleteTextures textureID gl, out ++ [cerr_gl_error err])
      else
        mret (textureID, glBindTexture GL_TEXTURE_2D 0 gl, out)
  end.

(** [TextureLoader::LoadPPM], later revision. *)
Definition Direct_LoadPPM (fs : filesystem) (u : load_junk)
    (filepath : string) (gl : context) : outcome (Z * context * list event) :=
  '(width, height, data, out) ←
    Direct.ReadImageData fs (junk_read u) filepath
      (junk_width u) (junk_height u) None;
  let out := [cout_attempt_ppm filepath] ++ out in
  match data with
  | None => mret (0, gl, out ++ [cerr_failed_texture_data])
  | Some data =>
      let out := out ++ [cout_read_ppm width height] in
      let '(textureID, gl) := glGenTextures gl in
      let gl := glBindTexture GL_TEXTURE_2D textureID gl in
      let gl := glTexParameteri GL_TEXTURE_2D GL_TEXTURE_WRAP_S GL_REPEAT gl in
      let gl := glTexParameteri GL_TEXTURE_2D GL_TEXTURE_WRAP_T GL_REPEAT gl in
      let gl := glTexParameteri GL_TEXTURE_2D GL_TEXTURE_MIN_FILTER
                  GL_LINEAR_MIPMAP_LINEAR gl in
      let gl := glTexParameteri GL_TEXTURE_2D GL_TEXTURE_MAG_FILTER GL_LINEAR gl in
      let gl := glTexImage2D GL_TEXTURE_2D width height data gl in
      let gl := glGenerateMipmap GL_TEXTURE_2D gl in
      let out := out ++ [cout_test 1; cout_test 2; cout_test 1; cout_test 2] in
      let '(err, gl) := glGetError gl in
      if negb (err =? GL_NO_ERROR) then
        mret (0, gl, out ++ [cerr_gl_error err])
      else
        mret (textureID, gl, out ++ [cout_created_texture textureID])
  end.

Context {F : Floating}.

Definition with_textureID (m : OBJMesh) (id : Z) : OBJMesh :=
  mk_OBJMesh (m_triangles m) (positions m) (normals m) (texCoords m)
    (m_material m) id (m_pendingTexturePath m).

Definition with_pendingTexturePath (m : OBJMesh) (path : string) : OBJMesh :=
  mk_OBJMesh (m_triangles m) (positions m) (normals m) (texCoords m)
    (m_material m) (m_textureID m) path.

(** [OBJMesh::LoadTextures], for whichever [TextureLoader::LoadPPM] the
    program is linked with. *)
Definition LoadTextures
    (LoadPPM : string -> context -> outcome (Z * context * list event))
    (m : OBJMesh) (gl : context)
  : outcome (bool * OBJMesh * context * list event) :=
  if negb (empty (m_pendingTexturePath m)) then
    '(id, gl, out) ← LoadPPM (m_pendingTexturePath m) gl;
    let m := with_textureID m id in
    if id =? 0 then
      mret (false, m, gl, out ++ [cerr_failed_texture (m_pendingTexturePath m)])
    else
      mret (true, with_pendingTexturePath m EmptyString, gl,
            out ++ [cout_loaded_texture id])
  else mret (true, m, gl, []).

(** [n] calls of [LoadTextures] in a row; the results of the last one. *)
Fixpoint LoadTextures_again
    (LoadPPM : string -> context -> outcome (Z * context * list event))
    (n : nat) (m : OBJMesh) (gl : context)
  : outcome (bool * OBJMesh * context * list event) :=
  match n with
  | O => LoadTextures LoadPPM m gl
  | S k =>
      '(_, m1, gl1, _) ← LoadTextures LoadPPM m gl;
      LoadTextures_again LoadPPM k m1 gl1
  end.

End Textures.

(** ** The earlier revision of the mesh decoder, where it differs *)

Module Earlier.

Section Mesh.

Context {F : Floating}.

(** [OBJMesh::ParseVertexIndices]: position and normal index only. *)
Definition ParseVertexIndices (vertexStr : string) : outcome (Z * Z) :=
  let slash1 := find vertexStr "/" 0 in
  let slash2 := find vertexStr "/" (to_size_t (slash1 + 1)) in
  if slash1 =? npos then
    (* Only vertex position index *)
    v ← stoi vertexStr;
    vIdx ← int_result (v - 1);
    mret (vIdx, 0)
  else
    (* Extract vertex/texture/normal indices *)
    vStr ← substr vertexStr 0 slash1;
    vtStr ← substr vertexStr (to_size_t (slash1 + 1))
                             (to_size_t (slash2 - slash1 - 1));
    vnStr ← substr vertexStr (to_size_t (slash2 + 1)) npos;
    vIdx ← (v ← stoi vStr; int_result (v - 1));
    vtIdx ← (if empty vtStr then mret 0
             else v ← stoi vtStr; int_result (v - 1));
    vnIdx ← (if empty vnStr then mret 0
             else v ← stoi vnStr; int_result (v - 1));
    mret (vIdx, vnIdx).

(** The [vt] branch of [LoadOBJ]: [texCoords.push_back(glm::vec2(s,
    1.0f - t)); normalCount++;] *)
Definition LoadOBJ_vt (junk : nat -> float) (iss : istream) (st : loop_state)
  : loop_state :=
  let '(s, t) := get_float2 iss junk in
  mk_loop_state
    (with_texCoords (this st) (texCoords (this st) ++ [(s, f_sub f_1_0 t)]))
    (mtlFile st) (vertexCount st) (normalCount st + 1)
    (faceCount st) (out st).

End Mesh.

End Earlier.

(** ** A symbolic instance

    For running the decoders on concrete files: a [float] is the text it
    was converted from, or the expression that computed it.  The conversion
    accepts an optional sign, digits, and an optional fraction; it knows no
    exponent and no range, so it stands for [std::num_get] on such texts
    only. *)

Module Symbolic.

Inductive sfloat : Type :=
| of_text (lit : string)
| stored_on_failure
| junk_local (line slot : nat)
| lit_0_7
| lit_1_0
| sub (a b : sfloat)
| normalized (axis : nat) (vx vy vz : sfloat).

Fixpoint span_digits (s : string) : string * string :=
  match s with
  | String a r =>
      if isdigit a then let '(d, rest) := span_digits r in (String a d, rest)
      else (EmptyString, s)
  | EmptyString => (EmptyString, EmptyString)
  end.

Definition num_get (s : string) : sfloat * bool * string :=
  let '(sign, s1) :=
    match s with
    | String "-" r => ("-", r)
    | String "+" r => ("+", r)
    | _ => (EmptyString, s)
    end in
  let '(ip, s2) := span_digits s1 in
  let '(dot, fp, s3) :=
    match s2 with
    | String "." r => let '(d, rest) := span_digits r in (".", d, rest)
    | _ => (EmptyString, EmptyString, s2)
    end in
  if empty ip && empty fp then (stored_on_failure, false, s3)
  else (of_text (sign ++ ip ++ dot ++ fp)%string, true, s3).

Definition floating : Floating := {|
  float := sfloat;
  f_0_7 := lit_0_7;
  f_1_0 := lit_1_0;
  f_sub := sub;
  num_get_float := num_get;
  glm_normalize := fun '(vx, vy, vz) =>
    (normalized 0 vx vy vz, normalized 1 vx vy vz, normalized 2 vx vy vz)
|}.

#[local] Existing Instance floating.

Definition junk : nat -> nat -> float := junk_local.

(** A context that counts the textures it has generated and reports no
    error. *)
Definition counting_gl : OpenGL := {|
  context := Z;
  glGenTextures := fun n => (n + 1, n + 1);
  glBindTexture := fun _ _ n => n;
  glTexParameteri := fun _ _ _ n => n;
  glTexImage2D := fun _ _ _ _ n => n;
  glGenerateMipmap := fun _ n => n;
  glGetError := fun n => (GL_NO_ERROR, n);
  glDeleteTextures := fun _ n => n
|}.

Definition empty_mesh : OBJMesh :=
  mk_OBJMesh [] [] [] [] (mk_Material EmptyString EmptyString) 0 EmptyString.

(** A newline-terminated line. *)
Definition ln (s : string) : string := (s ++ String "010" EmptyString)%string.

(** Pools of one position, one normal and one texture coordinate; the same
    without the texture coordinate; pools of three, three and three with
    a single normal. *)
Definition origin : vec3 := (of_text "0", of_text "0", of_text "0").
Definition up : vec3 := (of_text "0", of_text "0", of_text "1").
Definition corner00 : vec2 := (of_text "0", of_text "0").

Definition one_of_each : OBJMesh :=
  mk_OBJMesh [] [origin] [up] [corner00]
    (mk_Material EmptyString EmptyString) 0 EmptyString.

Definition no_texcoords : OBJMesh :=
  mk_OBJMesh [] [origin] [up] []
    (mk_Material EmptyString EmptyString) 0 EmptyString.

Definition three_positions_one_normal : OBJMesh :=
  mk_OBJMesh [] [origin; origin; origin] [up] [corner00; corner00; corner00]
    (mk_Material EmptyString EmptyString) 0 EmptyString.

Definition two_texcoords : OBJMesh :=
  mk_OBJMesh [] [] [] [corner00; corner00]
    (mk_Material EmptyString EmptyString) 0 EmptyString.

Definition pending_texture : OBJMesh :=
  mk_OBJMesh [] [] [] [] (mk_Material "skin" "t.ppm") 0 "t.ppm".

Definition at_line (m : OBJMesh) : loop_state :=
  mk_loop_state m EmptyString 0 0 0 [].

(** The twelve samples of a 2 x 2 image, and the files of the examples. *)
Definition samples : string := "abcdefghijkl".

Definition files : filesystem := fun path =>
  if String.eqb path "bad.obj" then Some (ln "v 1.0 abc 3.0")
  else if String.eqb path "oob.obj" then
    Some (ln "v 0 0 0" ++ ln "vn 0 0 1" ++ ln "vt 0 0"
          ++ ln "f 1/1/1 2/1/1 1/1/1")%string
  else if String.eqb path "notex.obj" then
    Some (ln "v 0 0 0" ++ ln "vn 0 0 1" ++ ln "f 1/1/1 1/1/1 1/1/1")%string
  else if String.eqb path "pairs.obj" then
    Some (ln "v 0 0 0" ++ ln "v 1 0 0" ++ ln "v 0 1 0" ++ ln "vn 0 0 1"
          ++ ln "vt 0 0" ++ ln "vt 1 0" ++ ln "vt 0 1"
          ++ ln "f 1/1 2/2 3/3")%string
  else if String.eqb path "tri.obj" then
    Some (ln "mtllib tri.mtl" ++ ln "v 0 0 0" ++ ln "v 1 0 0" ++ ln "v 0 1 0"
          ++ ln "vn 0 0 1" ++ ln "vt 0 0"
          ++ ln "f 1/1/1 2/1/1 3/1/1")%string
  else if String.eqb path "tri.mtl" then
    Some (ln "newmtl skin" ++ ln "map_Kd t.ppm")%string
  else if String.eqb path "t.ppm" then
    Some (ln "P6" ++ ln "# 2 x 2" ++ ln "2 2" ++ ln "255" ++ samples)%string
  else if String.eqb path "short.ppm" then
    Some (ln "P6" ++ ln "2 2" ++ ln "255" ++ "abcdefghijk")%string
  else None.

Definition no_junk : ppm_junk := mk_ppm_junk "000" 0.

Definition stack : load_junk := mk_load_junk 0 0 no_junk.

End Symbolic.

(** [c] occurs in [s]. *)
Fixpoint has_char (c : ascii) (s : string) : bool :=
  match s with
  | EmptyString => false
  | String a r => Ascii.eqb a c || has_char c r
  end.

(** A pool of fewer than 2^63 elements, as every [std::vector] is. *)
Definition fits {A : Type} (v : list A) : Prop := Z.of_nat (length v) < 2 ^ 63.

(** The first token of a line and the stream after it, as [LoadOBJ] reads
    them. *)
Definition line_type (line : string) : string :=
  fst (get_string (open_stream line) EmptyString).

Definition after_type (line : string) : istream :=
  snd (get_string (open_stream line) EmptyString).

Definition count_type (type : string) (lines : list string) : nat :=
  length (filter (fun l => String.eqb (line_type l) type = true) lines).

(** Some corner names a position or a normal its pool does not hold. *)
Definition unresolved {F : Floating} (m : OBJMesh) (corners : list (Z * Z)) : Prop :=
  Exists (fun '(v, vn) =>
            ~ (0 <= v < Z.of_nat (length (positions m)))
            \/ ~ (0 <= vn < Z.of_nat (length (normals m)))) corners.

(** Two outcomes of the loop that end alike and leave the same pools and
    triangles. *)
Definition agree {F : Floating} (r1 r2 : outcome loop_state) : Prop :=
  match r1, r2 with
  | Ret a, Ret b => pools (this a) = pools (this b)
  | Throws e1, Throws e2 => e1 = e2
  | Undefined, Undefined => True
  | Loops, Loops => True
  | _, _ => False
  end.

(** Every cell of the buffer holds a sample. *)
Definition filled (buf : buffer) : Prop := Forall is_Some buf.

(** ** Vocabulary of the properties of the mesh decoder *)

(** The three corners of a triangle. *)
Definition corners {F : Floating} (tri : Triangle) : list Vertex :=
  let '(a, b, c) := vertices tri in [a; b; c].

(** A vertex carries the placeholder colour. *)
Definition placeholder_colour {F : Floating} (v : Vertex) : Prop :=
  r v = f_0_7 /\ g v = f_0_7 /\ b v = f_0_7.

(** The attributes of a vertex are entries of the pools of [m]. *)
Definition from_pools {F : Floating} (m : OBJMesh) (v : Vertex) : Prop :=
  (x v, y v, z v) ∈ positions m
  /\ (nx v, ny v, nz v) ∈ normals m
  /\ (s v, t v) ∈ texCoords m.

(** [1] when the line is of the given type. *)
Definition is_type (type line : string) : nat :=
  if String.eqb (line_type line) type then 1%nat else 0%nat.

(** Every corner of every triangle has the placeholder colour and
    attributes taken from the pools. *)
Definition well_made {F : Floating} (m : OBJMesh) : Prop :=
  Forall (fun tri =>
            Forall (fun v => placeholder_colour v /\ from_pools m v)
              (corners tri))
    (m_triangles m).

(** A path separator occurs in [s]. *)
Definition has_sep (s : string) : bool := has_char "/" s || has_char "\" s.

Definition is_sep (c : ascii) : bool := Ascii.eqb c "/" || Ascii.eqb c "\".

(** ** [main.cpp]: reading a shader *)

Definition newline : ascii := "010".

(** [LoadShaderAsString]: the lines of the file, each followed by a
    newline; the empty string when the file cannot be opened. *)
Definition LoadShaderAsString (fs : filesystem) (filename : string) : string :=
  match fs filename with
  | Some text =>
      fold_left (fun result line =>
                   (result ++ (line ++ String newline EmptyString))%string)
        (getlines text) EmptyString
  | None => EmptyString
  end.

(** The lines, each followed by a newline, one after the other. *)
Fixpoint join_lines (lines : list string) : string :=
  match lines with
  | [] => EmptyString
  | line :: rest => (line ++ String newline (join_lines rest))%string
  end.

(** Whether the text ends at the start of a line; [start] says whether it
    begins at one. *)
Fixpoint ends_at_line_start (start : bool) (s : string) : bool :=
  match s with
  | EmptyString => start
  | String a r => ends_at_line_start (Ascii.eqb a newline) r
  end.

(** ** Well-formed image files *)

(** Every character of [s] satisfies [p]; the first character of [s]
    does. *)
Fixpoint all_chars (p : ascii -> bool) (s : string) : bool :=
  match s with
  | EmptyString => true
  | String a r => p a && all_chars p r
  end.

Definition starts_with (p : ascii -> bool) (s : string) : bool :=
  match s with
  | EmptyString => false
  | String a _ => p a
  end.

(** The number a string of decimal digits denotes. *)
Fixpoint decimal_onto (acc : Z) (ds : string) : Z :=
  match ds with
  | EmptyString => acc
  | String a r => decimal_onto (10 * acc + digit_value a) r
  end.

Definition decimal (ds : string) : Z := decimal_onto 0 ds.

(** A non-empty string of decimal digits. *)
Definition digits (ds : string) : Prop :=
  all_chars isdigit ds = true /\ ds <> EmptyString.

(** The stream has not failed, [s] is what is left to read, and [eof]
    tells whether the end was hit. *)
Definition stream_at (i : istream) (s : string) (eof : bool) : Prop :=
  pending i = s /\ failbit i = false /\ badbit i = false /\ eofbit i = eof.

(** Comment lines as they may follow the magic number: [#], the text of
    the comment, a newline, and blanks before what comes next. *)
Fixpoint comment_lines (cs : list (string * string)) : string :=
  match cs with
  | [] => EmptyString
  | (body, bl) :: rest =>
      String "#" (body ++ String newline (bl ++ comment_lines rest))
  end.

Definition comment_ok (c : string * string) : Prop :=
  has_char newline (fst c) = false /\ all_chars is_blank (snd c) = true.

(** [r] is what is left of [s] after some characters. *)
Definition suffix (r s : string) : Prop := exists k, r = drop_chars k s.

(** The text of a header: magic number, blanks, comment lines, and the
    three numbers. *)
Definition header_text (magic bl0 : string) (cs : list (string * string))
    (W ws1 H ws2 M : string) : string :=
  (magic ++ (bl0 ++ (comment_lines cs
     ++ (W ++ (ws1 ++ (H ++ (ws2 ++ M)))))))%string.

(** The conditions on its parts. *)
Record header_ok (magic bl0 : string) (cs : list (string * string))
    (W ws1 H ws2 M : string) : Prop := mk_header_ok {
  ok_magic : magic = "P3" \/ magic = "P6";
  ok_bl0 : all_chars is_blank bl0 = true /\ bl0 <> EmptyString;
  ok_comments : Forall comment_ok cs;
  ok_W : digits W /\ decimal W <= INT_MAX;
  ok_ws1 : all_chars isspace ws1 = true /\ ws1 <> EmptyString;
  ok_H : digits H /\ decimal H <= INT_MAX;
  ok_ws2 : all_chars isspace ws2 = true /\ ws2 <> EmptyString;
  ok_M : digits M /\ decimal M <= INT_MAX
}.

(** A decimal number with or without a minus sign, and its value. *)
Definition signed (neg : bool) (ds : string) : string :=
  if neg then String "-" ds else ds.

Definition signed_value (neg : bool) (ds : string) : Z :=
  if neg then - decimal ds else decimal ds.

(** The text of a header whose width and height may have a minus sign. *)
Definition signed_header_text (magic bl0 : string) (cs : list (string * string))
    (negW : bool) (W ws1 : string) (negH : bool) (H ws2 M : string) : string :=
  (magic ++ (bl0 ++ (comment_lines cs
     ++ (signed negW W ++ (ws1 ++ (signed negH H ++ (ws2 ++ M)))))))%string.

(** The last character of [s], or [d] when [s] is empty. *)
Fixpoint last_char (d : ascii) (s : string) : ascii :=
  match s with
  | EmptyString => d
  | String a r => last_char a r
  end.

(** The samples of an ASCII image: each one white space and then decimal
    digits. *)
Fixpoint sample_text (ss : list (string * string)) : string :=
  match ss with
  | [] => EmptyString
  | (ws, ds) :: rest => (ws ++ ds ++ sample_text rest)%string
  end.

Definition sample_ok (s : string * string) : Prop :=
  (all_chars isspace (fst s) = true /\ fst s <> EmptyString)
  /\ digits (snd s) /\ decimal (snd s) <= INT_MAX.

(** The cell a sample is stored in: its value converted to
    [unsigned char]. *)
Definition sample_cell (s : string * string) : cell :=
  Some (to_uchar (decimal (snd s))).

(** ** The two revisions of the image decoder *)

(** The pixels of a buffer of [3 * n] samples, and the buffer with its
    pixels in the opposite order: the image turned by 180 degrees. *)
Fixpoint triples {A : Type} (l : list A) : list (list A) :=
  match l with
  | a :: b :: c :: rest => [a; b; c] :: triples rest
  | _ => []
  end.

Definition reverse_pixels {A : Type} (l : list A) : list A :=
  concat (reverse (triples l)).

(** Two outcomes of [ReadImageData] that differ only in the order of the
    pixels and in what was printed. *)
Definition turned (r1 r2 : outcome (Z * Z * option buffer * list event)) : Prop :=
  match r1, r2 with
  | Ret (w1, h1, d1, _), Ret (w2, h2, d2, _) =>
      w2 = w1 /\ h2 = h1 /\ d2 = reverse_pixels <$> d1
  | Throws e1, Throws e2 => e1 = e2
  | Undefined, Undefined => True
  | Loops, Loops => True
  | _, _ => False
  end.

(** The magic number [ReadImageData] reads from a file, if the file can be
    opened. *)
Definition ppm_magic (fs : filesystem) (filepath : string) : option string :=
  match fs filepath with
  | Some bytes => Some (fst (get_string (open_stream bytes) EmptyString))
  | None => None
  end.

(** ** Vertex buffers ([SetupBuffers], [main.cpp])  *)

(** [sizeof(GL_FLOAT)]: [GL_FLOAT] is an integer constant, and an [int]
    has four bytes, as a [GLfloat] has. *)
Definition sizeof_GL_FLOAT : Z := 4.

(** One call of [glVertexAttribPointer(index, size, GL_FLOAT, GL_FALSE,
    stride, pointer)], [stride] and [pointer] in bytes. *)
Record attribute : Type := mk_attribute {
  attribute_index : Z;
  attribute_size : Z;
  attribute_stride : Z;
  attribute_pointer : Z
}.

(** The four calls, the same in [OBJMesh::SetupBuffers] and, for the
    floor, in [VertexSpecification]. *)
Definition vertex_attributes : list attribute :=
  [ (* Position *)
    mk_attribute 0 3 (sizeof_GL_FLOAT * 11) 0;
    (* Color *)
    mk_attribute 1 3 (sizeof_GL_FLOAT * 11) (sizeof_GL_FLOAT * 3);
    (* Normal *)
    mk_attribute 2 3 (sizeof_GL_FLOAT * 11) (sizeof_GL_FLOAT * 6);
    (* Texture coordinates *)
    mk_attribute 3 2 (sizeof_GL_FLOAT * 11) (sizeof_GL_FLOAT * 9) ].

(** What OpenGL reads for an attribute of vertex [k] from a buffer of
    floats of four bytes: [attribute_size] floats from byte
    [pointer + k * stride]; nothing that can be relied on once that runs
    past the end of the buffer. *)
Definition fetch {A : Type} (a : attribute) (data : list A) (k : Z)
  : option (list A) :=
  let first := (attribute_pointer a + k * attribute_stride a) / 4 in
  if first + attribute_size a <=? Z.of_nat (length data) then
    Some (take (Z.to_nat (attribute_size a)) (drop (Z.to_nat first) data))
  else None.

Section Buffers.

Context {F : Floating}.

(** The eleven [push_back]s of [SetupBuffers] for one vertex. *)
Definition push_vertex (vertexData : list float) (vertex : Vertex) : list float :=
  let vertexData := vertexData ++ [x vertex] in
  let vertexData := vertexData ++ [y vertex] in
  let vertexData := vertexData ++ [z vertex] in
  let vertexData := vertexData ++ [r vertex] in
  let vertexData := vertexData ++ [g vertex] in
  let vertexData := vertexData ++ [b vertex] in
  let vertexData := vertexData ++ [nx vertex] in
  let vertexData := vertexData ++ [ny vertex] in
  let vertexData := vertexData ++ [nz vertex] in
  let vertexData := vertexData ++ [s vertex] in
  vertexData ++ [t vertex].

(** [vertexData] as [SetupBuffers] hands it to [glBufferData]. *)
Definition SetupBuffers_vertexData (m : OBJMesh) : list float :=
  foldl (fun vertexData triangle => foldl push_vertex vertexData (corners triangle))
    [] (m_triangles m).

(** [gModelTriangles = gMesh.GetTriangleCount() * 3], the count
    [glDrawArrays] is given for the model. *)
Definition gModelTriangles (m : OBJMesh) : Z := to_size_t (GetTriangleCount m * 3).

(** The nine [push_back]s of [GeneratePlaneBufferData] for one vertex. *)
Definition push_floor_vertex (vertexDataFloor : list float) (vertex : Vertex)
  : list float :=
  let vertexDataFloor := vertexDataFloor ++ [x vertex] in
  let vertexDataFloor := vertexDataFloor ++ [y vertex] in
  let vertexDataFloor := vertexDataFloor ++ [z vertex] in
  let vertexDataFloor := vertexDataFloor ++ [r vertex] in
  let vertexDataFloor := vertexDataFloor ++ [g vertex] in
  let vertexDataFloor := vertexDataFloor ++ [b vertex] in
  let vertexDataFloor := vertexDataFloor ++ [nx vertex] in
  let vertexDataFloor := vertexDataFloor ++ [ny vertex] in
  vertexDataFloor ++ [nz vertex].

(** [vertexDataFloor] and [gFloorTriangles] as [GeneratePlaneBufferData]
    computes them from the triangles of the plane. *)
Definition vertexDataFloor (mesh : list Triangle) : list float :=
  foldl (fun data triangle => foldl push_floor_vertex data (corners triangle))
    [] mesh.

Definition gFloorTriangles (mesh : list Triangle) : Z :=
  Z.of_nat (length (vertexDataFloor mesh)) / 9.

(** The vertices of a triangle list in the order they are drawn. *)
Definition drawn (mesh : list Triangle) : list Vertex := mesh ≫= corners.

(** The floats of a vertex in the model's buffer and in the floor's. *)
Definition vertex_floats (v : Vertex) : list float :=
  [x v; y v; z v; r v; g v; b v; nx v; ny v; nz v; s v; t v].

Definition floor_floats (v : Vertex) : list float :=
  [x v; y v; z v; r v; g v; b v; nx v; ny v; nz v].

End Buffers.

(** ** The floor ([generatePlane], [main.cpp])

    The arithmetic [generatePlane] does on [float]s, taken as given like
    that of [Floating]. *)
Class PlaneArithmetic (F : Floating) : Type := {
  (** the literals [0.0f], [-1.0f], [0.68f] and [0.85f] *)
  f_0_0 : float;
  f_minus_1_0 : float;
  f_0_68 : float;
  f_0_85 : float;
  (** [a + b], [a * b], [a / b] *)
  f_add : float -> float -> float;
  f_mul : float -> float -> float;
  f_div : float -> float -> float;
  (** the conversion of a [size_t] to [float] *)
  f_of_size_t : Z -> float
}.

(** A loop whose body appends to [result]. *)
Fixpoint for_each {A B : Type} (body : A -> list B -> outcome (list B))
    (l : list A) (result : list B) : outcome (list B) :=
  match l with
  | [] => mret result
  | a :: rest => result ← body a result; for_each body rest result
  end.

Section Plane.

Context {F : Floating} {P : PlaneArithmetic F}.

(** The vertex the first pair of loops makes for row [i] and column [j]. *)
Definition plane_vertex (resolution i j : Z) : Vertex :=
  let start := f_minus_1_0 in
  let end_ := f_1_0 in
  let step := f_div (f_sub end_ start) (f_of_size_t resolution) in
  let x := f_add start (f_mul (f_of_size_t j) step) in
  let y := f_0_0 in
  let z := f_add start (f_mul (f_of_size_t i) step) in
  let r := f_0_68 in
  let g := f_0_85 in
  let b := f_1_0 in
  let nx := f_0_0 in
  let ny := f_1_0 in
  let nz := f_0_0 in
  mk_Vertex x y z r g b nx ny nz
    (f_div (f_of_size_t j) (f_of_size_t resolution))
    (f_div (f_of_size_t i) (f_of_size_t resolution)).

(** [for (i = 0; i <= resolution; ++i) for (j = 0; j <= resolution; ++j)
    vertices.push_back(...)]. *)
Definition plane_vertices (resolution : Z) : list Vertex :=
  i ← seqZ 0 (resolution + 1);
  j ← seqZ 0 (resolution + 1);
  [plane_vertex resolution i j].

(** The body of the second pair of loops: two triangles from unchecked
    reads of [vertices], the indices computed in [size_t]. *)
Definition plane_quad (resolution : Z) (vertices : list Vertex) (i j : Z)
    (result : list Triangle) : outcome (list Triangle) :=
  let row1 := to_size_t (i * to_size_t (resolution + 1)) in
  let row2 := to_size_t (to_size_t (i + 1) * to_size_t (resolution + 1)) in
  a0 ← at_unchecked vertices (to_size_t (row1 + j));
  a1 ← at_unchecked vertices (to_size_t (row2 + j));
  a2 ← at_unchecked vertices (to_size_t (to_size_t (row1 + j) + 1));
  let triangle1 := mk_Triangle (a0, a1, a2) in
  b0 ← at_unchecked vertices (to_size_t (to_size_t (row1 + j) + 1));
  b1 ← at_unchecked vertices (to_size_t (row2 + j));
  b2 ← at_unchecked vertices (to_size_t (to_size_t (row2 + j) + 1));
  let triangle2 := mk_Triangle (b0, b1, b2) in
  mret (result ++ [triangle1] ++ [triangle2]).

(** [generatePlane(resolution)], for a resolution whose vectors fit in
    memory. *)
Definition generatePlane (resolution : Z) : outcome (list Triangle) :=
  let vertices := plane_vertices resolution in
  for_each (fun i result =>
              for_each (plane_quad resolution vertices i)
                (seqZ 0 resolution) result)
    (seqZ 0 resolution) [].

(** The two triangles of the cell in row [i] and column [j]. *)
Definition cell_triangles (resolution i j : Z) : list Triangle :=
  [ mk_Triangle (plane_vertex resolution i j,
                 plane_vertex resolution (i + 1) j,
                 plane_vertex resolution i (j + 1));
    mk_Triangle (plane_vertex resolution i (j + 1),
                 plane_vertex resolution (i + 1) j,
                 plane_vertex resolution (i + 1) (j + 1)) ].

End Plane.

(** ** Symbolic floats with arithmetic, and more files

    For running [generatePlane]: the symbolic floats of [Symbolic], and
    the expressions [generatePlane] computes with. *)

Module SymbolicPlane.

Inductive term : Type :=
| symbolic (f : Symbolic.sfloat)
| literal (text : string)
| of_size_t (n : Z)
| plus (a b : term)
| minus (a b : term)
| times (a b : term)
| over (a b : term)
| normalized (axis : nat) (vx vy vz : term).

Definition plane_floating : Floating := {|
  float := term;
  f_0_7 := symbolic Symbolic.lit_0_7;
  f_1_0 := symbolic Symbolic.lit_1_0;
  f_sub := minus;
  num_get_float := fun s =>
    let '(v, ok, rest) := Symbolic.num_get s in (symbolic v, ok, rest);
  glm_normalize := fun '(vx, vy, vz) =>
    (normalized 0 vx vy vz, normalized 1 vx vy vz, normalized 2 vx vy vz)
|}.

Definition plane_arithmetic : PlaneArithmetic plane_floating :=
  Build_PlaneArithmetic plane_floating
    (literal "0.0f") (literal "-1.0f") (literal "0.68f") (literal "0.85f")
    plus times over of_size_t.

End SymbolicPlane.

Module Samples.

Import Symbolic.
#[local] Existing Instance Symbolic.floating.

(** What a call of [LoadOBJ] returned. *)
Definition mesh_of (r : outcome (bool * OBJMesh * list event)) : OBJMesh :=
  match r with
  | Ret (_, m, _) => m
  | _ => empty_mesh
  end.

Definition log_of (r : outcome (bool * OBJMesh * list event)) : list event :=
  match r with
  | Ret (_, _, log) => log
  | _ => []
  end.

Definition tri_text : string :=
  (ln "mtllib tri.mtl" ++ ln "v 0 0 0" ++ ln "v 1 0 0" ++ ln "v 0 1 0"
   ++ ln "vn 0 0 1" ++ ln "vt 0 0" ++ ln "f 1/1/1 2/1/1 3/1/1")%string.

(** The mesh [tri.obj] decodes to, its triangle and the first corner. *)
Definition tri_mesh : OBJMesh := mesh_of (LoadOBJ files junk empty_mesh "tri.obj").

Definition tri_corner : Vertex :=
  mk_Vertex (of_text "0") (of_text "0") (of_text "0") lit_0_7 lit_0_7 lit_0_7
    (normalized 0 (of_text "0") (of_text "0") (of_text "1"))
    (normalized 1 (of_text "0") (of_text "0") (of_text "1"))
    (normalized 2 (of_text "0") (of_text "0") (of_text "1"))
    (of_text "0") (of_text "0").

Definition tri_triangle : Triangle :=
  mk_Triangle
    (tri_corner,
     mk_Vertex (of_text "1") (of_text "0") (of_text "0") lit_0_7 lit_0_7 lit_0_7
       (normalized 0 (of_text "0") (of_text "0") (of_text "1"))
       (normalized 1 (of_text "0") (of_text "0") (of_text "1"))
       (normalized 2 (of_text "0") (of_text "0") (of_text "1"))
       (of_text "0") (of_text "0"),
     mk_Vertex (of_text "0") (of_text "1") (of_text "0") lit_0_7 lit_0_7 lit_0_7
       (normalized 0 (of_text "0") (of_text "0") (of_text "1"))
       (normalized 1 (of_text "0") (of_text "0") (of_text "1"))
       (normalized 2 (of_text "0") (of_text "0") (of_text "1"))
       (of_text "0") (of_text "0")).

(** The files of [Symbolic] without the material file. *)
Definition without_material : filesystem := fun path =>
  if String.eqb path "tri.mtl" then None else files path.

(** Image files: sixteen bits deep, ending inside a comment, ASCII,
    with a negative width, and too large. *)
Definition images : filesystem := fun path =>
  if String.eqb path "deep.ppm" then
    Some (ln "P6" ++ ln "2 2" ++ ln "65535" ++ samples)%string
  else if String.eqb path "comment.ppm" then
    Some (ln "P6" ++ "# made with #")%string
  else if String.eqb path "ascii.ppm" then
    Some (ln "P3" ++ ln "# one pixel" ++ ln "1 1" ++ ln "255" ++ ln "255 0 300")%string
  else if String.eqb path "negative.ppm" then
    Some (ln "P3" ++ ln "-1 1" ++ ln "255")%string
  else if String.eqb path "huge.ppm" then
    Some (ln "P6" ++ ln "50000 50000" ++ ln "255")%string
  else None.

(** A mesh that has texture 7 and waits for a file that is not there. *)
Definition waiting_mesh : OBJMesh :=
  mk_OBJMesh [] [] [] [] (mk_Material "skin" "missing.ppm") 7 "missing.ppm".

(** Uninitialised locals that all hold [0]. *)
Definition zero_locals : nat -> nat -> float := fun _ _ => of_text "0".

End Samples.

(** ** Vocabulary of the properties of the lines *)

(** The pair a [vt] line holds: what [>>] stores for [s] and then for [t],
    nothing done to either.  And the pairs of the [vt] lines of a file, in
    the order of the lines. *)
Definition texcoord_of_line {F : Floating} (junk : nat -> float)
    (line : string) : vec2 :=
  let '(s, iss1) := get_float (after_type line) (junk 0%nat) in
  let '(t, _) := get_float iss1 (junk 1%nat) in
  (s, t).

Fixpoint texcoords_of {F : Floating} (junk : nat -> nat -> float)
    (lineno : nat) (lines : list string) : list vec2 :=
  match lines with
  | [] => []
  | line :: rest =>
      (if String.eqb (line_type line) "vt"
       then [texcoord_of_line (junk lineno) line] else [])
      ++ texcoords_of junk (S lineno) rest
  end.

(** Each of the next [n] extractions of a [float] finds characters to
    convert, so none of them leaves its target as it was. *)
Fixpoint fields_present {F : Floating} (n : nat) (iss : istream) : bool :=
  match n with
  | O => true
  | S k => fst (sentry iss) && fields_present k (snd (get_float iss f_1_0))
  end.

(** A line none of whose extractions leaves a local unset: a [v] or [vn]
    line with three fields, a [vt] line with two, any other line. *)
Definition complete_line {F : Floating} (line : string) : bool :=
  if String.eqb (line_type line) "v" || String.eqb (line_type line) "vn"
  then fields_present 3 (after_type line)
  else if String.eqb (line_type line) "vt"
  then fields_present 2 (after_type line)
  else true.

(** * Properties *)

(** ** Strings *)

Lemma size_nonneg s : 0 <= size s.
Proof. unfold size; lia. Qed.

Lemma size_String a s : size (String a s) = 1 + size s.
Proof. unfold size; simpl; lia. Qed.

Lemma size_append a b : size (a ++ b)%string = size a + size b.
Proof.
  induction a as [|x a IH]; simpl.
  - unfold size; simpl; lia.
  - rewrite !size_String, IH; lia.
Qed.

Lemma find_at_absent c pos i s :
  has_char c s = false -> find_at c pos i s = npos.
Proof.
  revert i; induction s as [|a s IH]; intros i H; simpl in *; [reflexivity|].
  apply orb_false_elim in H as [Ha Hs].
  rewrite Ha, andb_false_r. now apply IH.
Qed.

Lemma find_at_below c pos i a r :
  i + size a <= pos ->
  find_at c pos i (a ++ r)%string = find_at c pos (i + size a) r.
Proof.
  revert i; induction a as [|x a IH]; intros i H; simpl.
  - unfold size; simpl. now rewrite Z.add_0_r.
  - rewrite size_String in *.
    pose proof (size_nonneg a).
    replace (pos <=? i) with false by (symmetry; apply Z.leb_gt; lia).
    simpl. rewrite IH by lia. f_equal; lia.
Qed.

Lemma find_at_first c pos i a r :
  has_char c a = false -> pos <= i + size a ->
  find_at c pos i (a ++ String c r)%string = i + size a.
Proof.
  revert i; induction a as [|x a IH]; intros i Ha Hp; simpl in *.
  - unfold size in *; simpl in *.
    rewrite Ascii.eqb_refl, andb_true_r.
    replace (pos <=? i) with true by (symmetry; apply Z.leb_le; lia). lia.
  - apply orb_false_elim in Ha as [Hx Ha].
    rewrite Hx, andb_false_r, size_String in *.
    rewrite IH by (trivial; lia). lia.
Qed.

Lemma substring_whole s : substring 0 (String.length s) s = s.
Proof. induction s; simpl; congruence. Qed.

Lemma substring_prefix a r : substring 0 (String.length a) (a ++ r)%string = a.
Proof.
  induction a as [|x a IH]; simpl.
  - now destruct r.
  - now rewrite IH.
Qed.

Lemma substring_suffix a r n :
  substring (String.length a) n (a ++ r)%string = substring 0 n r.
Proof. induction a; simpl; trivial. Qed.

Lemma substring_after a c r n :
  substring (S (String.length a)) n (a ++ String c r)%string = substring 0 n r.
Proof. induction a; simpl; trivial. Qed.

Lemma skip_ws_slash a r :
  skip_ws (a ++ String "/" r)%string = (skip_ws a ++ String "/" r)%string.
Proof.
  induction a as [|x a IH]; simpl; [reflexivity|].
  destruct (isspace x); [exact IH | reflexivity].
Qed.

Lemma read_sign_slash s r :
  read_sign (s ++ String "/" r)%string
  = (fst (read_sign s), (snd (read_sign s) ++ String "/" r)%string).
Proof.
  destruct s as [|x s]; [reflexivity|].
  simpl. destruct x as [[] [] [] [] [] [] [] []]; reflexivity.
Qed.

Lemma read_digits_slash acc seen s r :
  read_digits acc seen (s ++ String "/" r)%string
  = let '(v, sn, rest) := read_digits acc seen s in
    (v, sn, (rest ++ String "/" r)%string).
Proof.
  revert acc seen; induction s as [|x s IH]; intros acc seen; simpl.
  - reflexivity.
  - destruct (isdigit x); [apply IH | reflexivity].
Qed.

Lemma stoi_slash a r : stoi (a ++ String "/" r)%string = stoi a.
Proof.
  unfold stoi. rewrite skip_ws_slash, read_sign_slash.
  destruct (read_sign (skip_ws a)) as [neg s1]; simpl.
  rewrite read_digits_slash.
  destruct (read_digits 0 false s1) as [[v sn] rest]. reflexivity.
Qed.

(** ** The face token [v/vt] *)

Section ParseVertexIndicesFacts.

Context {F : Floating}.

Lemma to_size_t_small z : 0 <= z < size_t_modulus -> to_size_t z = z.
Proof. intros H; unfold to_size_t; now apply Z.mod_small. Qed.

Lemma npos_succ_wraps : to_size_t (npos + 1) = 0.
Proof. reflexivity. Qed.

Lemma substr_whole s : size s <= npos -> substr s 0 npos = Ret s.
Proof.
  intros Hs. unfold substr. pose proof (size_nonneg s).
  replace (size s <? 0) with false by (symmetry; apply Z.ltb_ge; lia).
  rewrite Z.sub_0_r, Z.min_r by lia.
  unfold size. rewrite Nat2Z.id. f_equal. apply substring_whole.
Qed.

Lemma stoi_in_int s v : stoi s = Ret v -> in_int v = true.
Proof.
  unfold stoi. destruct (read_sign (skip_ws s)) as [neg s1].
  destruct (read_digits 0 false s1) as [[d seen] rest].
  destruct (negb seen); [discriminate|].
  destruct (in_int (if neg then - d else d)) eqn:E; [|discriminate].
  intros [= <-]. exact E.
Qed.

(** C1.  What the code does with a token [v/vt]: the second [find] gives
    [npos], the third [substr] starts at [npos + 1], which is 0, so the
    normal slot is read from the whole token and yields the position
    index [v - 1], not 0. *)
Theorem ParseVertexIndices_v_vt (m : OBJMesh) (a b : string) (v w : Z) :
  has_char "/" a = false ->
  has_char "/" b = false ->
  size (a ++ String "/" b)%string < npos ->
  stoi a = Ret v -> in_int (v - 1) = true ->
  stoi b = Ret w -> in_int (w - 1) = true ->
  ParseVertexIndices m (a ++ String "/" b)%string
  = if Z.of_nat (length (texCoords m)) <=? to_size_t (w - 1)
    then Ret (v - 1, 0, v - 1, [cerr_invalid_texcoord (w - 1)])
    else Ret (v - 1, w - 1, v - 1, []).
Proof.
  intros Ha Hb Hsz Hv Hv1 Hw Hw1.
  pose proof (size_nonneg a) as Hna. pose proof (size_nonneg b) as Hnb.
  rewrite size_append, size_String in Hsz.
  assert (Hnpos : npos = size_t_modulus - 1) by reflexivity.
  assert (Hmod : size_t_modulus = 2 ^ 64) by reflexivity.
  unfold ParseVertexIndices.
  assert (H1 : find (a ++ String "/" b)%string "/" 0 = size a).
  { unfold find. rewrite find_at_first; trivial; lia. }
  rewrite H1.
  rewrite (to_size_t_small (size a + 1)) by lia.
  assert (H2 : find (a ++ String "/" b)%string "/" (size a + 1) = npos).
  { unfold find.
    change (a ++ String "/" b)%string with (a ++ (String "/" EmptyString ++ b))%string.
    rewrite find_at_below by lia. simpl.
    replace (size a + 1 <=? 0 + size a) with false by (symmetry; apply Z.leb_gt; lia).
    simpl. now apply find_at_absent. }
  rewrite H2.
  replace (size a =? npos) with false by (symmetry; apply Z.eqb_neq; lia).
  rewrite npos_succ_wraps, substr_whole
    by (rewrite size_append, size_String; lia).
  assert (S1 : substr (a ++ String "/" b)%string 0 (size a) = Ret a).
  { unfold substr. rewrite size_append, size_String.
    replace (size a + (1 + size b) <? 0) with false by (symmetry; apply Z.ltb_ge; lia).
    rewrite Z.min_l by lia. unfold size. rewrite Nat2Z.id.
    change (Z.to_nat 0) with 0%nat. now rewrite substring_prefix. }
  rewrite S1.
  assert (S2 : substr (a ++ String "/" b)%string (size a + 1)
                 (to_size_t (npos - size a - 1)) = Ret b).
  { unfold substr. rewrite size_append, size_String.
    replace (size a + (1 + size b) <? size a + 1) with false
      by (symmetry; apply Z.ltb_ge; lia).
    rewrite to_size_t_small by lia.
    rewrite Z.min_r by lia.
    replace (size a + (1 + size b) - (size a + 1)) with (size b) by lia.
    replace (Z.to_nat (size a + 1)) with (S (String.length a))
      by (unfold size; lia).
    rewrite substring_after. unfold size. rewrite Nat2Z.id.
    now rewrite substring_whole. }
  rewrite S2.
  cbn [mbind outcome_bind mret outcome_ret].
  assert (I1 : int_result (v - 1) = Ret (v - 1))
    by (unfold int_result; now rewrite Hv1).
  assert (I2 : int_result (w - 1) = Ret (w - 1))
    by (unfold int_result; now rewrite Hw1).
  assert (E1 : empty b = false) by (destruct b; [discriminate Hw | reflexivity]).
  assert (E2 : empty (a ++ String "/" b)%string = false) by now destruct a.
  rewrite E1, E2, stoi_slash, Hv, Hw.
  cbn [mbind outcome_bind]. rewrite I1, I2. cbn [mbind outcome_bind].
  destruct (Z.of_nat (length (texCoords m)) <=? to_size_t (w - 1)); reflexivity.
Qed.
End ParseVertexIndicesFacts.

(** ** The other forms of a face token *)

Section OtherForms.

Context {F : Floating}.

(** The token [v]: position only, the other two indices are 0. *)
Lemma ParseVertexIndices_v (m : OBJMesh) (a : string) (v : Z) :
  has_char "/" a = false ->
  stoi a = Ret v -> in_int (v - 1) = true ->
  ParseVertexIndices m a = Ret (v - 1, 0, 0, []).
Proof.
  intros Ha Hv Hv1. unfold ParseVertexIndices, find.
  rewrite !find_at_absent by exact Ha. rewrite Z.eqb_refl, Hv.
  cbn [mbind outcome_bind]. unfold int_result. now rewrite Hv1.
Qed.

(** The tokens [v/vt/vn] and [v//vn]: each slot is read from its own
    segment, an empty one gives 0, and the texture-coordinate index is
    checked against the pool. *)
Lemma ParseVertexIndices_three (m : OBJMesh) (a b c : string) :
  has_char "/" a = false ->
  has_char "/" b = false ->
  size (a ++ String "/" (b ++ String "/" c))%string < npos ->
  ParseVertexIndices m (a ++ String "/" (b ++ String "/" c))%string
  = (vIdx ← (v ← stoi a; int_result (v - 1));
     vtIdx ← (if empty b then mret 0 else v ← stoi b; int_result (v - 1));
     vnIdx ← (if empty c then mret 0 else v ← stoi c; int_result (v - 1));
     if Z.of_nat (length (texCoords m)) <=? to_size_t vtIdx
     then mret (vIdx, 0, vnIdx, [cerr_invalid_texcoord vtIdx])
     else mret (vIdx, vtIdx, vnIdx, [])).
Proof.
  intros Ha Hb Hsz.
  pose proof (size_nonneg a) as Hna. pose proof (size_nonneg b) as Hnb.
  pose proof (size_nonneg c) as Hnc.
  rewrite size_append, size_String, size_append, size_String in Hsz.
  assert (Hnpos : npos = size_t_modulus - 1) by reflexivity.
  assert (Hmod : size_t_modulus = 2 ^ 64) by reflexivity.
  set (tok := (a ++ String "/" (b ++ String "/" c))%string).
  assert (Hsize : size tok = size a + (1 + (size b + (1 + size c)))).
  { unfold tok. now rewrite size_append, size_String, size_append, size_String. }
  unfold ParseVertexIndices.
  assert (H1 : find tok "/" 0 = size a).
  { unfold find, tok. rewrite find_at_first; trivial; lia. }
  rewrite H1, (to_size_t_small (size a + 1)) by lia.
  assert (H2 : find tok "/" (size a + 1) = size a + 1 + size b).
  { unfold find, tok.
    change (a ++ String "/" (b ++ String "/" c))%string
      with (a ++ (String "/" EmptyString ++ (b ++ String "/" c)))%string.
    rewrite find_at_below by lia. simpl.
    replace (size a + 1 <=? 0 + size a) with false
      by (symmetry; apply Z.leb_gt; lia).
    simpl. rewrite find_at_first; trivial; lia. }
  rewrite H2.
  replace (size a =? npos) with false by (symmetry; apply Z.eqb_neq; lia).
  replace (size a + 1 + size b - size a - 1) with (size b) by lia.
  rewrite (to_size_t_small (size b)), (to_size_t_small (size a + 1 + size b + 1))
    by lia.
  assert (S1 : substr tok 0 (size a) = Ret a).
  { unfold substr. rewrite Hsize.
    replace (_ <? 0) with false by (symmetry; apply Z.ltb_ge; lia).
    rewrite Z.min_l by lia. unfold size, tok. rewrite Nat2Z.id.
    change (Z.to_nat 0) with 0%nat. now rewrite substring_prefix. }
  assert (S2 : substr tok (size a + 1) (size b) = Ret b).
  { unfold substr. rewrite Hsize.
    replace (_ <? size a + 1) with false by (symmetry; apply Z.ltb_ge; lia).
    rewrite Z.min_l by lia.
    replace (Z.to_nat (size a + 1)) with (S (String.length a))
      by (unfold size; lia).
    unfold tok. rewrite substring_after. unfold size. rewrite Nat2Z.id.
    now rewrite substring_prefix. }
  assert (S3 : substr tok (size a + 1 + size b + 1) npos = Ret c).
  { unfold substr. rewrite Hsize.
    replace (_ <? size a + 1 + size b + 1) with false
      by (symmetry; apply Z.ltb_ge; lia).
    rewrite Z.min_r by lia.
    replace (size a + (1 + (size b + (1 + size c))) - (size a + 1 + size b + 1))
      with (size c) by lia.
    replace (Z.to_nat (size a + 1 + size b + 1))
      with (S (String.length a) + S (String.length b))%nat
      by (unfold size; lia).
    unfold tok. clear. f_equal.
    induction a as [|x a IH]; simpl.
    - rewrite substring_after. unfold size. rewrite Nat2Z.id.
      apply substring_whole.
    - exact IH. }
  now rewrite S1, S2, S3.
Qed.

(** The token [v//vn]: the texture-coordinate slot is empty and its index
    is 0. *)
Lemma ParseVertexIndices_v_vn (m : OBJMesh) (a c : string) (v w : Z) :
  has_char "/" a = false ->
  size (a ++ String "/" (String "/" c))%string < npos ->
  stoi a = Ret v -> in_int (v - 1) = true ->
  stoi c = Ret w -> in_int (w - 1) = true ->
  ParseVertexIndices m (a ++ String "/" (String "/" c))%string
  = Ret (v - 1, 0, w - 1,
         if Z.of_nat (length (texCoords m)) <=? 0
         then [cerr_invalid_texcoord 0] else []).
Proof.
  intros Ha Hsz Hv Hv1 Hw Hw1.
  pose proof (ParseVertexIndices_three m a EmptyString c Ha eq_refl Hsz) as H3.
  cbn [append] in H3. rewrite H3. clear H3.
  rewrite Hv, Hw. cbn [mbind outcome_bind empty mret outcome_ret].
  unfold int_result. rewrite Hv1. cbn [mbind outcome_bind].
  destruct c as [|x c]; [discriminate Hw|]. cbn [empty mbind outcome_bind].
  rewrite Hw1. change (to_size_t 0) with 0.
  now destruct (_ <=? 0).
Qed.

End OtherForms.

(** ** Outcomes *)

Lemma bind_ret_inv {A B : Type} (m : outcome A) (k : A -> outcome B) (b : B) :
  m ≫= k = Ret b -> exists a, m = Ret a /\ k a = Ret b.
Proof. destruct m; try discriminate. intros H. eauto. Qed.

Lemma mret_inv {A : Type} (a b : A) : mret a = Ret b -> a = b.
Proof. now intros [= ->]. Qed.

Lemma int_result_ret z r : int_result z = Ret r -> r = z /\ in_int z = true.
Proof. unfold int_result. destruct (in_int z); [intros [= <-]; auto | discriminate]. Qed.

Lemma in_int_bounds z : in_int z = true <-> - 2 ^ 31 <= z <= 2 ^ 31 - 1.
Proof.
  unfold in_int, INT_MIN, INT_MAX. rewrite andb_true_iff, !Z.leb_le. tauto.
Qed.

Lemma to_size_t_negative z :
  - 2 ^ 31 <= z < 0 -> to_size_t z = 2 ^ 64 + z.
Proof.
  intros H. unfold to_size_t, size_t_modulus.
  symmetry. apply Z.mod_unique with (q := -1); lia.
Qed.

Lemma to_size_t_nonneg z : 0 <= z <= 2 ^ 31 - 1 -> to_size_t z = z.
Proof. intros H. apply to_size_t_small. unfold size_t_modulus. lia. Qed.

Lemma at_unchecked_inside {A : Type} (v : list A) (i : Z) :
  0 <= i < Z.of_nat (length v) -> in_int i = true ->
  exists a, at_unchecked v i = Ret a /\ v !! Z.to_nat i = Some a.
Proof.
  intros Hi Hint. apply in_int_bounds in Hint.
  unfold at_unchecked. rewrite to_size_t_nonneg by lia.
  replace (i <? Z.of_nat (length v)) with true by (symmetry; apply Z.ltb_lt; lia).
  destruct (v !! Z.to_nat i) as [a|] eqn:E; [eauto|].
  apply lookup_ge_None in E. lia.
Qed.

Lemma at_unchecked_outside {A : Type} (v : list A) (i : Z) :
  fits v -> in_int i = true -> ~ (0 <= i < Z.of_nat (length v)) ->
  at_unchecked v i = Undefined.
Proof.
  unfold fits. intros Hv Hint Hi. apply in_int_bounds in Hint.
  unfold at_unchecked.
  destruct (Z_lt_le_dec i 0) as [Hneg|Hpos].
  - rewrite to_size_t_negative by lia.
    now replace (2 ^ 64 + i <? Z.of_nat (length v)) with false
      by (symmetry; apply Z.ltb_ge; lia).
  - rewrite to_size_t_nonneg by lia.
    now replace (i <? Z.of_nat (length v)) with false
      by (symmetry; apply Z.ltb_ge; lia).
Qed.

Lemma at_unchecked_cases {A : Type} (v : list A) (i : Z) :
  (exists a, at_unchecked v i = Ret a) \/ at_unchecked v i = Undefined.
Proof.
  unfold at_unchecked.
  destruct (_ <? _); [|now right].
  destruct (v !! _); [left; eauto | now right].
Qed.

Lemma at_unchecked_nil {A : Type} (i : Z) : at_unchecked (@nil A) i = Undefined.
Proof.
  unfold at_unchecked. simpl. now destruct (_ <? _).
Qed.

Section Faces.

Context {F : Floating}.

(** The index of a slot that may be empty. *)
Lemma slot_in_int (str : string) (r : Z) :
  (if empty str then mret 0 else stoi str ≫= λ v, int_result (v - 1)) = Ret r ->
  in_int r = true.
Proof.
  destruct (empty str).
  - now intros [= <-].
  - intros H. apply bind_ret_inv in H as (v & _ & H).
    now apply int_result_ret in H as [-> ?].
Qed.

Lemma ParseVertexIndices_in_int m tok v vt vn d :
  ParseVertexIndices m tok = Ret (v, vt, vn, d) ->
  in_int v = true /\ in_int vt = true /\ in_int vn = true.
Proof.
  unfold ParseVertexIndices. intros H.
  destruct (find tok "/" 0 =? npos).
  - apply bind_ret_inv in H as (x & _ & H).
    apply bind_ret_inv in H as (vIdx & Hv & H).
    apply mret_inv in H. injection H as <- <- <- <-.
    apply int_result_ret in Hv as [-> ?]. now repeat split.
  - apply bind_ret_inv in H as (vStr & _ & H).
    apply bind_ret_inv in H as (vtStr & _ & H).
    apply bind_ret_inv in H as (vnStr & _ & H).
    apply bind_ret_inv in H as (vIdx & Hv & H).
    apply bind_ret_inv in H as (vtIdx & Hvt & H).
    apply bind_ret_inv in H as (vnIdx & Hvn & H).
    apply bind_ret_inv in Hv as (x & _ & Hv).
    apply int_result_ret in Hv as [-> Hv].
    apply slot_in_int in Hvt, Hvn.
    destruct (_ <=? _); apply mret_inv in H; injection H as <- <- <- <-; auto.
Qed.

(** The check on the texture-coordinate index: an index the pool does not
    hold is replaced by 0, with a warning that names it. *)
Lemma ParseVertexIndices_clamp m tok v vt vn d :
  fits (texCoords m) ->
  ParseVertexIndices m tok = Ret (v, vt, vn, d) ->
  (d = [] /\ (0 <= vt < Z.of_nat (length (texCoords m))
              \/ vt = 0 /\ find tok "/" 0 = npos))
  \/ (exists i, ~ (0 <= i < Z.of_nat (length (texCoords m)))
                /\ vt = 0 /\ d = [cerr_invalid_texcoord i]).
Proof.
  unfold fits, ParseVertexIndices. intros Hfit H.
  destruct (find tok "/" 0 =? npos) eqn:Hs.
  - apply bind_ret_inv in H as (x & _ & H).
    apply bind_ret_inv in H as (vIdx & _ & H).
    apply mret_inv in H. injection H as <- <- <- <-.
    apply Z.eqb_eq in Hs. auto.
  - apply bind_ret_inv in H as (vStr & _ & H).
    apply bind_ret_inv in H as (vtStr & _ & H).
    apply bind_ret_inv in H as (vnStr & _ & H).
    apply bind_ret_inv in H as (vIdx & _ & H).
    apply bind_ret_inv in H as (vtIdx & Hvt & H).
    apply bind_ret_inv in H as (vnIdx & _ & H).
    apply slot_in_int, in_int_bounds in Hvt.
    destruct (_ <=? _) eqn:Hc; apply mret_inv in H; injection H as <- <- <- <-.
    + right. exists vtIdx. split; [|auto].
      apply Z.leb_le in Hc. intros Hin.
      rewrite to_size_t_nonneg in Hc by lia. lia.
    + left. split; [reflexivity|]. left.
      apply Z.leb_gt in Hc.
      destruct (Z_lt_le_dec vtIdx 0) as [Hneg|Hpos].
      * rewrite to_size_t_negative in Hc by lia. lia.
      * rewrite to_size_t_nonneg in Hc by lia. lia.
Qed.

Lemma corner_cases m v vt vn :
  (exists c, corner m v vt vn = Ret c) \/ corner m v vt vn = Undefined.
Proof.
  unfold corner.
  destruct (at_unchecked_cases (positions m) v) as [[p ->]| ->]; [|now right].
  destruct (at_unchecked_cases (normals m) vn) as [[n ->]| ->]; [|now right].
  destruct (at_unchecked_cases (texCoords m) vt) as [[tc ->]| ->]; [|now right].
  left. eexists. reflexivity.
Qed.

Lemma corner_outside m v vt vn :
  fits (positions m) -> fits (normals m) ->
  in_int v = true -> in_int vn = true ->
  ~ (0 <= v < Z.of_nat (length (positions m)))
  \/ ~ (0 <= vn < Z.of_nat (length (normals m))) ->
  corner m v vt vn = Undefined.
Proof.
  intros Hp Hn Hv Hvn [Ho|Ho]; unfold corner.
  - rewrite (at_unchecked_outside (positions m) v Hp Hv Ho). reflexivity.
  - destruct (at_unchecked_cases (positions m) v) as [[p ->]| ->]; [|reflexivity].
    rewrite (at_unchecked_outside (normals m) vn Hn Hvn Ho). reflexivity.
Qed.

Lemma corner_no_texcoords m v vt vn :
  texCoords m = [] -> corner m v vt vn = Undefined.
Proof.
  intros Ht. unfold corner. rewrite Ht, at_unchecked_nil.
  destruct (at_unchecked_cases (positions m) v) as [[p ->]| ->]; [|reflexivity].
  destruct (at_unchecked_cases (normals m) vn) as [[n ->]| ->]; reflexivity.
Qed.

Lemma corner_inside m v vt vn :
  in_int v = true -> in_int vt = true -> in_int vn = true ->
  0 <= v < Z.of_nat (length (positions m)) ->
  0 <= vn < Z.of_nat (length (normals m)) ->
  0 <= vt < Z.of_nat (length (texCoords m)) ->
  exists c, corner m v vt vn = Ret c.
Proof.
  intros Hv Hvt Hvn Ip In It. unfold corner.
  destruct (at_unchecked_inside (positions m) v Ip Hv) as [p [-> _]].
  destruct (at_unchecked_inside (normals m) vn In Hvn) as [n [-> _]].
  destruct (at_unchecked_inside (texCoords m) vt It Hvt) as [tc [-> _]].
  eexists. reflexivity.
Qed.

End Faces.

(** ** The lines of a mesh file *)

Section Lines.

Context {F : Floating}.
Variables (fs : filesystem) (filename : string).

Lemma line_split line :
  get_string (open_stream line) EmptyString = (line_type line, after_type line).
Proof. unfold line_type, after_type. now destruct (get_string _ _). Qed.

Lemma v_line junk line st :
  line_type line = "v" ->
  LoadOBJ_line fs filename junk line st
  = Ret (mk_loop_state
           (with_positions (this st)
              (positions (this st) ++ [get_float3 (after_type line) junk]))
           (mtlFile st) (vertexCount st + 1) (normalCount st) (faceCount st)
           (out st)).
Proof.
  intros Ht. unfold LoadOBJ_line. rewrite line_split, Ht. simpl.
  now destruct (get_float3 _ _) as [[x y] z].
Qed.

Lemma vn_line junk line st :
  line_type line = "vn" ->
  LoadOBJ_line fs filename junk line st
  = Ret (mk_loop_state
           (with_normals (this st)
              (normals (this st)
               ++ [glm_normalize (get_float3 (after_type line) junk)]))
           (mtlFile st) (vertexCount st) (normalCount st + 1) (faceCount st)
           (out st)).
Proof.
  intros Ht. unfold LoadOBJ_line. rewrite line_split, Ht. simpl.
  now destruct (get_float3 _ _) as [[x y] z].
Qed.

Lemma vt_line junk line st :
  line_type line = "vt" ->
  LoadOBJ_line fs filename junk line st
  = Ret (mk_loop_state
           (with_texCoords (this st)
              (texCoords (this st) ++ [get_float2 (after_type line) junk]))
           (mtlFile st) (vertexCount st) (normalCount st) (faceCount st)
           (out st)).
Proof.
  intros Ht. unfold LoadOBJ_line. rewrite line_split, Ht. simpl.
  now destruct (get_float2 _ _) as [x y].
Qed.

Lemma f_line junk line st :
  line_type line = "f" ->
  LoadOBJ_line fs filename junk line st
  = let '(vertex1, vertex2, vertex3) := get_string3 (after_type line) in
    '(v1, vt1, vn1, d1) ← ParseVertexIndices (this st) vertex1;
    '(v2, vt2, vn2, d2) ← ParseVertexIndices (this st) vertex2;
    '(v3, vt3, vn3, d3) ← ParseVertexIndices (this st) vertex3;
    c0 ← corner (this st) v1 vt1 vn1;
    c1 ← corner (this st) v2 vt2 vn2;
    c2 ← corner (this st) v3 vt3 vn3;
    mret (mk_loop_state
            (with_triangles (this st)
               (m_triangles (this st) ++ [mk_Triangle (c0, c1, c2)]))
            (mtlFile st) (vertexCount st) (normalCount st)
            (faceCount st + 1) (out st ++ d1 ++ d2 ++ d3)).
Proof.
  intros Ht. unfold LoadOBJ_line. rewrite line_split, Ht. reflexivity.
Qed.

Lemma other_line junk line st :
  line_type line <> "mtllib" -> line_type line <> "v" ->
  line_type line <> "vn" -> line_type line <> "vt" ->
  line_type line <> "f" ->
  LoadOBJ_line fs filename junk line st = Ret st.
Proof.
  intros H1 H2 H3 H4 H5. unfold LoadOBJ_line. rewrite line_split.
  apply String.eqb_neq in H1, H2, H3, H4, H5.
  now rewrite H1, H2, H3, H4, H5.
Qed.

(** C4.  What the code does with a face whose position or normal index is
    outside its pool: the three tokens parse, no bound is checked, and the
    read outside the vector is undefined; no failure is reported. *)
Theorem face_unresolved_is_undefined junk line st t1 t2 t3
    v1 vt1 vn1 d1 v2 vt2 vn2 d2 v3 vt3 vn3 d3 :
  line_type line = "f" ->
  get_string3 (after_type line) = (t1, t2, t3) ->
  ParseVertexIndices (this st) t1 = Ret (v1, vt1, vn1, d1) ->
  ParseVertexIndices (this st) t2 = Ret (v2, vt2, vn2, d2) ->
  ParseVertexIndices (this st) t3 = Ret (v3, vt3, vn3, d3) ->
  fits (positions (this st)) -> fits (normals (this st)) ->
  unresolved (this st) [(v1, vn1); (v2, vn2); (v3, vn3)] ->
  LoadOBJ_line fs filename junk line st = Undefined.
Proof.
  intros Ht Htok P1 P2 P3 Fp Fn Hu.
  rewrite (f_line junk line st Ht), Htok, P1, P2, P3.
  cbn [mbind outcome_bind].
  apply ParseVertexIndices_in_int in P1 as (I1 & _ & J1).
  apply ParseVertexIndices_in_int in P2 as (I2 & _ & J2).
  apply ParseVertexIndices_in_int in P3 as (I3 & _ & J3).
  unfold unresolved in Hu. rewrite !Exists_cons, Exists_nil in Hu.
  destruct (corner_cases (this st) v1 vt1 vn1) as [[c1 E1]|E1];
    rewrite E1; [|reflexivity].
  destruct (corner_cases (this st) v2 vt2 vn2) as [[c2 E2]|E2];
    rewrite E2; [|reflexivity].
  destruct (corner_cases (this st) v3 vt3 vn3) as [[c3 E3]|E3];
    rewrite E3; [|reflexivity].
  exfalso. destruct Hu as [Hu|[Hu|[Hu|[]]]].
  - rewrite (corner_outside _ v1 vt1 vn1 Fp Fn I1 J1 Hu) in E1. discriminate.
  - rewrite (corner_outside _ v2 vt2 vn2 Fp Fn I2 J2 Hu) in E2. discriminate.
  - rewrite (corner_outside _ v3 vt3 vn3 Fp Fn I3 J3 Hu) in E3. discriminate.
Qed.

(** C5.  What the code does with a face while the texture-coordinate pool
    is empty: every index is replaced by 0, which the pool does not hold
    either, so no face line returns. *)
Theorem face_without_texcoords_never_returns junk line st :
  line_type line = "f" ->
  texCoords (this st) = [] ->
  returns (LoadOBJ_line fs filename junk line st) = false.
Proof.
  intros Ht He. rewrite (f_line junk line st Ht).
  destruct (get_string3 _) as [[t1 t2] t3].
  destruct (ParseVertexIndices (this st) t1) as [[[[v1 vt1] vn1] d1]| | |];
    try reflexivity.
  destruct (ParseVertexIndices (this st) t2) as [[[[v2 vt2] vn2] d2]| | |];
    try reflexivity.
  destruct (ParseVertexIndices (this st) t3) as [[[[v3 vt3] vn3] d3]| | |];
    try reflexivity.
  cbn [mbind outcome_bind].
  now rewrite (corner_no_texcoords _ v1 vt1 vn1 He).
Qed.

(** X30.  With a texture coordinate in the pool, a face whose positions
    and normals resolve is decoded whatever its texture-coordinate indices:
    an index outside the pool is replaced by 0 and reported. *)
Lemma face_texcoord_tolerated junk line st t1 t2 t3
    v1 vt1 vn1 d1 v2 vt2 vn2 d2 v3 vt3 vn3 d3 :
  line_type line = "f" ->
  get_string3 (after_type line) = (t1, t2, t3) ->
  ParseVertexIndices (this st) t1 = Ret (v1, vt1, vn1, d1) ->
  ParseVertexIndices (this st) t2 = Ret (v2, vt2, vn2, d2) ->
  ParseVertexIndices (this st) t3 = Ret (v3, vt3, vn3, d3) ->
  fits (texCoords (this st)) -> texCoords (this st) <> [] ->
  ~ unresolved (this st) [(v1, vn1); (v2, vn2); (v3, vn3)] ->
  exists c0 c1 c2,
    LoadOBJ_line fs filename junk line st
    = Ret (mk_loop_state
             (with_triangles (this st)
                (m_triangles (this st) ++ [mk_Triangle (c0, c1, c2)]))
             (mtlFile st) (vertexCount st) (normalCount st)
             (faceCount st + 1) (out st ++ d1 ++ d2 ++ d3)).
Proof.
  intros Ht Htok P1 P2 P3 Ft Hne Hr.
  rewrite (f_line junk line st Ht), Htok, P1, P2, P3.
  cbn [mbind outcome_bind].
  assert (Hlen : 0 < Z.of_nat (length (texCoords (this st))))
    by (destruct (texCoords (this st)); [congruence | simpl; lia]).
  unfold unresolved in Hr. rewrite !Exists_cons, Exists_nil in Hr.
  assert (Hin : forall t v vt vn d,
             ParseVertexIndices (this st) t = Ret (v, vt, vn, d) ->
             0 <= v < Z.of_nat (length (positions (this st))) ->
             0 <= vn < Z.of_nat (length (normals (this st))) ->
             exists c, corner (this st) v vt vn = Ret c).
  { intros t v vt vn d P Hv Hvn.
    pose proof (ParseVertexIndices_in_int _ _ _ _ _ _ P) as (I & J & K).
    apply corner_inside; trivial.
    destruct (ParseVertexIndices_clamp _ _ _ _ _ _ Ft P)
      as [[_ [?|[-> _]]]|(i & _ & -> & _)]; lia. }
  destruct (Hin _ _ _ _ _ P1) as [c0 ->]; [lia..|].
  destruct (Hin _ _ _ _ _ P2) as [c1 ->]; [lia..|].
  destruct (Hin _ _ _ _ _ P3) as [c2 ->]; [lia..|].
  now exists c0, c1, c2.
Qed.

(** *** The material file leaves the pools alone *)

Lemma directory_of_ret path : exists d, directory_of path = Ret d.
Proof.
  unfold directory_of, substr. destruct (_ =? npos); [now exists EmptyString|].
  pose proof (size_nonneg path).
  replace (size path <? 0) with false by (symmetry; apply Z.ltb_ge; lia).
  eauto.
Qed.

Lemma LoadMTL_line_pools path line m o :
  exists m' o', LoadMTL_line path line (m, o) = Ret (m', o')
                /\ pools m' = pools m.
Proof.
  unfold LoadMTL_line.
  destruct (get_string (open_stream line) EmptyString) as [token iss].
  destruct (String.eqb token "newmtl").
  - destruct (get_string iss _) as [nm iss']. eexists _, _. split; reflexivity.
  - destruct (String.eqb token "map_Kd").
    + destruct (get_string iss _) as [tex iss'].
      destruct (directory_of_ret path) as [d ->].
      eexists _, _. split; reflexivity.
    + eexists _, _. split; reflexivity.
Qed.

Lemma LoadMTL_lines_pools path lines m o :
  exists m' o', LoadMTL_lines path lines (m, o) = Ret (m', o')
                /\ pools m' = pools m.
Proof.
  revert m o. induction lines as [|line rest IH]; intros m o;
    cbn [LoadMTL_lines].
  - eexists _, _. split; reflexivity.
  - destruct (LoadMTL_line_pools path line m o) as (m1 & o1 & -> & H1).
    destruct (IH m1 o1) as (m2 & o2 & H2 & H3).
    exists m2, o2. split; [exact H2 | congruence].
Qed.

Lemma LoadMTL_pools path m o :
  exists ok m' o', LoadMTL fs path (m, o) = Ret (ok, (m', o'))
                   /\ pools m' = pools m.
Proof.
  unfold LoadMTL. destruct (fs path) as [text|].
  - destruct (LoadMTL_lines_pools path (getlines text) m
                (o ++ [cout_attempt_mtl path] ++ [cout_opened_mtl]))
      as (m' & o' & H & Hp).
    rewrite <- app_assoc. rewrite H. eexists _, _, _. split; [reflexivity | exact Hp].
  - eexists _, _, _. split; reflexivity.
Qed.

(** *** One entry per [v] line *)

Lemma LoadOBJ_line_positions junk line st st' :
  LoadOBJ_line fs filename junk line st = Ret st' ->
  length (positions (this st'))
  = (length (positions (this st))
     + if String.eqb (line_type line) "v" then 1 else 0)%nat.
Proof.
  unfold LoadOBJ_line. rewrite line_split.
  destruct (String.eqb (line_type line) "mtllib") eqn:E1.
  { apply String.eqb_eq in E1. rewrite E1.
    destruct (get_string _ _) as [mtl iss].
    destruct (directory_of_ret filename) as [d ->]. cbn [mbind outcome_bind].
    destruct (LoadMTL_pools (d ++ mtl)%string (this st) (out st))
      as (ok & m' & o' & -> & Hp).
    intros [= <-]. simpl. injection Hp as _ -> _ _. lia. }
  destruct (String.eqb (line_type line) "v") eqn:E2.
  { destruct (get_float3 _ _) as [[x y] z]. intros [= <-]. simpl.
    rewrite length_app. simpl. lia. }
  destruct (String.eqb (line_type line) "vn") eqn:E3.
  { destruct (get_float3 _ _) as [[x y] z]. intros [= <-]. simpl. lia. }
  destruct (String.eqb (line_type line) "vt") eqn:E4.
  { destruct (get_float2 _ _) as [x y]. intros [= <-]. simpl. lia. }
  destruct (String.eqb (line_type line) "f") eqn:E5.
  { destruct (get_string3 _) as [[t1 t2] t3]. intros H.
    apply bind_ret_inv in H as ([[[v1 vt1] vn1] d1] & _ & H).
    apply bind_ret_inv in H as ([[[v2 vt2] vn2] d2] & _ & H).
    apply bind_ret_inv in H as ([[[v3 vt3] vn3] d3] & _ & H).
    apply bind_ret_inv in H as (c0 & _ & H).
    apply bind_ret_inv in H as (c1 & _ & H).
    apply bind_ret_inv in H as (c2 & _ & H).
    apply mret_inv in H. subst st'. simpl. lia. }
  intros [= <-]. lia.
Qed.

Lemma LoadOBJ_lines_positions junk lineno lines st st' :
  LoadOBJ_lines fs filename junk lineno lines st = Ret st' ->
  length (positions (this st'))
  = (length (positions (this st)) + count_type "v" lines)%nat.
Proof.
  revert lineno st.
  induction lines as [|line rest IH]; intros lineno st; cbn [LoadOBJ_lines].
  - intros [= <-]. unfold count_type. simpl. lia.
  - intros H. apply bind_ret_inv in H as (st1 & H1 & H).
    apply LoadOBJ_line_positions in H1. apply IH in H.
    rewrite H, H1. unfold count_type. rewrite filter_cons.
    destruct (String.eqb (line_type line) "v") eqn:E.
    + rewrite decide_True by reflexivity. simpl. lia.
    + rewrite decide_False by discriminate. lia.
Qed.

(** *** The decode does not depend on what the object held *)

Lemma ParseVertexIndices_pools m1 m2 tok :
  pools m1 = pools m2 -> ParseVertexIndices m1 tok = ParseVertexIndices m2 tok.
Proof. intros [= _ _ _ Ht]. unfold ParseVertexIndices. now rewrite Ht. Qed.

Lemma corner_pools m1 m2 v vt vn :
  pools m1 = pools m2 -> corner m1 v vt vn = corner m2 v vt vn.
Proof. intros [= _ Hp Hn Ht]. unfold corner. now rewrite Hp, Hn, Ht. Qed.

Lemma LoadOBJ_line_agree junk line st1 st2 :
  pools (this st1) = pools (this st2) ->
  agree (LoadOBJ_line fs filename junk line st1)
        (LoadOBJ_line fs filename junk line st2).
Proof.
  intros Hp. pose proof Hp as [= Htr Hpo Hno Htc].
  unfold LoadOBJ_line. rewrite line_split.
  destruct (String.eqb (line_type line) "mtllib").
  { destruct (get_string _ (mtlFile st1)) as [mtl1 iss1].
    destruct (get_string _ (mtlFile st2)) as [mtl2 iss2].
    destruct (directory_of_ret filename) as [d ->]. cbn [mbind outcome_bind].
    destruct (LoadMTL_pools (d ++ mtl1)%string (this st1) (out st1))
      as (ok1 & m1 & o1 & -> & Hp1).
    destruct (LoadMTL_pools (d ++ mtl2)%string (this st2) (out st2))
      as (ok2 & m2 & o2 & -> & Hp2).
    simpl. congruence. }
  destruct (String.eqb (line_type line) "v").
  { destruct (get_float3 _ _) as [[x y] z]. simpl. unfold pools. simpl.
    congruence. }
  destruct (String.eqb (line_type line) "vn").
  { destruct (get_float3 _ _) as [[x y] z]. simpl. unfold pools. simpl.
    congruence. }
  destruct (String.eqb (line_type line) "vt").
  { destruct (get_float2 _ _) as [x y]. simpl. unfold pools. simpl.
    congruence. }
  destruct (String.eqb (line_type line) "f"); [|exact Hp].
  destruct (get_string3 _) as [[t1 t2] t3].
  rewrite !(ParseVertexIndices_pools (this st1) (this st2)) by exact Hp.
  destruct (ParseVertexIndices (this st2) t1) as [[[[v1 vt1] vn1] d1]| | |];
    simpl; trivial.
  destruct (ParseVertexIndices (this st2) t2) as [[[[v2 vt2] vn2] d2]| | |];
    simpl; trivial.
  destruct (ParseVertexIndices (this st2) t3) as [[[[v3 vt3] vn3] d3]| | |];
    simpl; trivial.
  rewrite !(corner_pools (this st1) (this st2)) by exact Hp.
  destruct (corner (this st2) v1 vt1 vn1); simpl; trivial.
  destruct (corner (this st2) v2 vt2 vn2); simpl; trivial.
  destruct (corner (this st2) v3 vt3 vn3); simpl; trivial.
  unfold pools. simpl. congruence.
Qed.

Lemma LoadOBJ_lines_agree junk lineno lines st1 st2 :
  pools (this st1) = pools (this st2) ->
  agree (LoadOBJ_lines fs filename junk lineno lines st1)
        (LoadOBJ_lines fs filename junk lineno lines st2).
Proof.
  revert lineno st1 st2.
  induction lines as [|line rest IH]; intros lineno st1 st2 Hp;
    cbn [LoadOBJ_lines].
  - exact Hp.
  - pose proof (LoadOBJ_line_agree (junk lineno) line st1 st2 Hp) as Ha.
    destruct (LoadOBJ_line fs filename (junk lineno) line st1) as [a| | |],
             (LoadOBJ_line fs filename (junk lineno) line st2) as [b| | |];
      simpl in *; try contradiction; trivial.
    now apply IH.
Qed.

End Lines.

(** ** Streams: a failure stays *)

Lemma fail_set_fail i : fail (set_fail i) = true.
Proof. reflexivity. Qed.

Lemma good_not_fail i : good i = true -> fail i = false.
Proof.
  unfold good, fail. destruct (eofbit i), (failbit i), (badbit i); simpl; congruence.
Qed.

Lemma fail_not_good i : fail i = true -> good i = false.
Proof.
  unfold good, fail. destruct (eofbit i), (failbit i), (badbit i); simpl; congruence.
Qed.

Lemma sentry_false i i1 : sentry i = (false, i1) -> fail i1 = true.
Proof.
  unfold sentry. destruct (good i); [|now intros [= <-]].
  destruct (empty _); intros [= <-]. reflexivity.
Qed.

Lemma extract_int_untouched file file1 :
  extract_int file = (None, file1) -> fail file1 = true.
Proof.
  unfold extract_int. destruct (sentry file) as [[] i1] eqn:Es.
  - destruct (read_sign _) as [neg s1].
    destruct (read_digits 0 false s1) as [[v seen] rest].
    destruct (negb seen); [discriminate|].
    destruct (_ <? INT_MIN); [discriminate|].
    destruct (INT_MAX <? _); discriminate.
  - intros [= <-]. eapply sentry_false, Es.
Qed.

Lemma extract_int_fail file :
  fail file = true -> fail (snd (extract_int file)) = true.
Proof.
  intros Hf. unfold extract_int, sentry. now rewrite (fail_not_good _ Hf).
Qed.

(** ** The fuel of the comment-skipping loops is enough *)

Lemma drop_chars_length n s :
  String.length (drop_chars n s) = (String.length s - n)%nat.
Proof.
  revert s; induction n as [|n IH]; intros s; simpl; [lia|].
  destruct s as [|a s]; simpl; [reflexivity | apply IH].
Qed.

Lemma drop_chars_all n s :
  (String.length s <= n)%nat -> drop_chars n s = EmptyString.
Proof.
  revert s; induction n as [|n IH]; intros s H; simpl.
  - destruct s; [reflexivity | simpl in H; lia].
  - destruct s as [|a s]; [reflexivity | apply IH; simpl in H; lia].
Qed.

Lemma drop_chars_next n s a rest :
  drop_chars n s = String a rest -> drop_chars (S n) s = rest.
Proof.
  revert s; induction n as [|n IH]; intros s H; simpl in *.
  - now subst s.
  - destruct s as [|b s]; [discriminate | now apply IH].
Qed.

(** After a character has been taken, what remains is the tail. *)
Lemma pending_after_char i a rest :
  pending i = String a rest -> pending (advance_to i rest) = rest.
Proof.
  unfold pending, advance_to. simpl. intros H.
  pose proof (drop_chars_length (offset i) (content i)) as Hl.
  rewrite H in Hl. simpl in Hl.
  replace (String.length (content i) - String.length rest)%nat
    with (S (offset i)) by lia.
  now apply (drop_chars_next _ _ a).
Qed.

Lemma get_char_failed file c :
  fail file = true -> get_char file c = (c, set_fail file).
Proof.
  intros Hf. unfold get_char, sentry_noskipws.
  now rewrite (fail_not_good _ Hf).
Qed.

(** A [get] that succeeds leaves one character fewer. *)
Lemma get_char_progress file c c1 file1 :
  get_char file c = (c1, file1) -> fail file1 = false ->
  S (chars_left file1) = chars_left file.
Proof.
  unfold get_char, sentry_noskipws. destruct (good file).
  - destruct (pending file) as [|a rest] eqn:Hp.
    + intros [= <- <-]. discriminate.
    + intros [= <- <-] _. unfold chars_left.
      rewrite (pending_after_char _ _ _ Hp), Hp. reflexivity.
  - intros [= <- <-]. discriminate.
Qed.

Lemma get_char_at_end file c :
  chars_left file = 0%nat -> fail (snd (get_char file c)) = true.
Proof.
  unfold chars_left, get_char, sentry_noskipws. intros H.
  destruct (good file); [|reflexivity].
  destruct (pending file); [reflexivity | discriminate].
Qed.

Lemma skip_blanks_step fuel file c :
  skip_blanks fuel file c
  = let '(c1, file1) := get_char file c in
    if fail file1 then (c1, file1)
    else if is_blank c1 then
      match fuel with
      | O => (c1, file1)
      | S k => skip_blanks k file1 c1
      end
    else (c1, file1).
Proof. destruct fuel; reflexivity. Qed.

Lemma skip_line_step fuel file c :
  skip_line fuel file c
  = let '(c1, file1) := get_char file c in
    if fail file1 then (c1, file1)
    else if negb (Ascii.eqb c1 "010") then
      match fuel with
      | O => (c1, file1)
      | S k => skip_line k file1 c1
      end
    else (c1, file1).
Proof. destruct fuel; reflexivity. Qed.

(** With as many rounds as characters left, no loop stops for want of
    rounds: more rounds give the same result. *)
Lemma skip_blanks_fuel fuel1 : forall fuel2 file c,
  (chars_left file <= fuel1)%nat -> (chars_left file <= fuel2)%nat ->
  skip_blanks fuel1 file c = skip_blanks fuel2 file c.
Proof.
  induction fuel1 as [|k IH]; intros fuel2 file c H1 H2;
    rewrite (skip_blanks_step _ file c), (skip_blanks_step fuel2 file c);
    destruct (get_char file c) as [c1 file1] eqn:Eg;
    destruct (fail file1) eqn:Ef; trivial;
    destruct (is_blank c1); trivial;
    pose proof (get_char_progress _ _ _ _ Eg Ef) as Hp.
  - lia.
  - destruct fuel2 as [|k2]; [lia|]. apply IH; lia.
Qed.

Lemma skip_line_fuel fuel1 : forall fuel2 file c,
  (chars_left file <= fuel1)%nat -> (chars_left file <= fuel2)%nat ->
  skip_line fuel1 file c = skip_line fuel2 file c.
Proof.
  induction fuel1 as [|k IH]; intros fuel2 file c H1 H2;
    rewrite (skip_line_step _ file c), (skip_line_step fuel2 file c);
    destruct (get_char file c) as [c1 file1] eqn:Eg;
    destruct (fail file1) eqn:Ef; trivial;
    destruct (negb _); trivial;
    pose proof (get_char_progress _ _ _ _ Eg Ef) as Hp.
  - lia.
  - destruct fuel2 as [|k2]; [lia|]. apply IH; lia.
Qed.

(** Either loop ends with the stream failed or with fewer characters
    left. *)
Lemma skip_blanks_progress fuel : forall file c c1 file1,
  skip_blanks fuel file c = (c1, file1) ->
  fail file1 = true \/ (chars_left file1 < chars_left file)%nat.
Proof.
  induction fuel as [|k IH]; intros file c c1 file1;
    rewrite skip_blanks_step;
    destruct (get_char file c) as [c' file'] eqn:Eg;
    destruct (fail file') eqn:Ef.
  - intros [= <- <-]. now left.
  - pose proof (get_char_progress _ _ _ _ Eg Ef).
    destruct (is_blank c'); intros [= <- <-]; right; lia.
  - intros [= <- <-]. now left.
  - pose proof (get_char_progress _ _ _ _ Eg Ef).
    destruct (is_blank c').
    + intros H'. apply IH in H' as [?|?]; [now left | right; lia].
    + intros [= <- <-]. right. lia.
Qed.

Lemma skip_line_progress fuel : forall file c c1 file1,
  skip_line fuel file c = (c1, file1) ->
  fail file1 = true \/ (chars_left file1 < chars_left file)%nat.
Proof.
  induction fuel as [|k IH]; intros file c c1 file1;
    rewrite skip_line_step;
    destruct (get_char file c) as [c' file'] eqn:Eg;
    destruct (fail file') eqn:Ef.
  - intros [= <- <-]. now left.
  - pose proof (get_char_progress _ _ _ _ Eg Ef).
    destruct (negb _); intros [= <- <-]; right; lia.
  - intros [= <- <-]. now left.
  - pose proof (get_char_progress _ _ _ _ Eg Ef).
    destruct (negb _).
    + intros H'. apply IH in H' as [?|?]; [now left | right; lia].
    + intros [= <- <-]. right. lia.
Qed.

Lemma skip_blanks_failed fuel file c :
  fail file = true -> fail (snd (skip_blanks fuel file c)) = true.
Proof.
  intros Hf. rewrite skip_blanks_step, (get_char_failed _ _ Hf).
  now rewrite fail_set_fail.
Qed.

Lemma skip_comments_failed fuel1 fuel2 file c :
  fail file = true ->
  skip_comments fuel1 file c = skip_comments fuel2 file c.
Proof.
  intros Hf. destruct fuel1, fuel2; simpl; rewrite Hf; reflexivity.
Qed.

(** The rounds [read_header] allows the outer loop are enough: [Loops] is
    only ever the loop that cannot end. *)
Lemma skip_comments_fuel fuel1 : forall fuel2 file c,
  (chars_left file < fuel1)%nat -> (chars_left file < fuel2)%nat ->
  skip_comments fuel1 file c = skip_comments fuel2 file c.
Proof.
  induction fuel1 as [|k IH]; intros fuel2 file c H1 H2; [lia|].
  destruct fuel2 as [|k2]; [lia|]. cbn [skip_comments].
  destruct (Ascii.eqb c "#"); [|reflexivity].
  destruct (fail file) eqn:Ef; [reflexivity|].
  destruct (skip_line (chars_left file) file c) as [c1 file1] eqn:E1.
  destruct (skip_blanks (chars_left file1) file1 c1) as [c2 file2] eqn:E2.
  destruct (fail file2) eqn:Ef2; [now apply skip_comments_failed|].
  pose proof E2 as E2'.
  apply skip_line_progress in E1. apply skip_blanks_progress in E2.
  destruct E2 as [E2|E2]; [congruence|].
  destruct E1 as [E1|E1].
  - (* a stream that failed in the line stays failed over the blanks *)
    pose proof (skip_blanks_failed (chars_left file1) file1 c1 E1) as Hs.
    rewrite E2' in Hs. simpl in Hs. congruence.
  - apply IH; lia.
Qed.

(** ** Reading the samples *)

Lemma read_bytes_spec file buf n buf' file' :
  Z.of_nat (length buf) = n ->
  read_bytes file buf n = (buf', file') ->
  length buf' = length buf /\ (fail file' = false -> filled buf').
Proof.
  intros Hn. unfold read_bytes, sentry_noskipws.
  destruct (good file) eqn:Hg.
  - remember (take (Z.to_nat n) (chars_of (pending file))) as got eqn:Egot.
    assert (Hgot : (length got <= length buf)%nat).
    { subst got. rewrite length_take. lia. }
    clear Egot. intros [= <- <-]. split.
    + rewrite length_app, length_map, length_drop. lia.
    + destruct (Z.of_nat (length got) =? n) eqn:E; [|discriminate].
      intros _. apply Z.eqb_eq in E.
      rewrite drop_ge by lia. rewrite app_nil_r.
      unfold filled. apply Forall_map, Forall_true. intros c. now exists c.
  - intros [= <- <-]. split; [reflexivity | discriminate].
Qed.

Lemma write_cell_inside (a : buffer) (i : nat) (c : cell) :
  (i < length a)%nat -> write_cell a (Z.of_nat i) c = Ret (<[i := c]> a).
Proof.
  intros Hi. unfold write_cell.
  replace (0 <=? Z.of_nat i) with true by (symmetry; apply Z.leb_le; lia).
  replace (Z.of_nat i <? Z.of_nat (length a)) with true
    by (symmetry; apply Z.ltb_lt; lia).
  simpl. now rewrite Nat2Z.id.
Qed.

Lemma read_cell_inside (a : buffer) (i : nat) :
  (i < length a)%nat ->
  exists c, read_cell a (Z.of_nat i) = Ret c /\ a !! i = Some c.
Proof.
  intros Hi. unfold read_cell.
  replace (0 <=? Z.of_nat i) with true by (symmetry; apply Z.leb_le; lia).
  replace (Z.of_nat i <? Z.of_nat (length a)) with true
    by (symmetry; apply Z.ltb_lt; lia).
  simpl. rewrite Nat2Z.id.
  destruct (a !! i) as [c|] eqn:E; [eauto|].
  apply lookup_ge_None in E. lia.
Qed.

(** The ASCII loop fills the cells [i, i + todo); if the stream has not
    failed by the end, each of them holds a sample. *)
Lemma read_ascii_spec todo : forall (i : nat) file buf,
  (i + todo <= length buf)%nat ->
  exists buf' file',
    read_ascii todo (Z.of_nat i) file buf = Ret (buf', file')
    /\ length buf' = length buf
    /\ (forall j, (j < i)%nat -> buf' !! j = buf !! j)
    /\ (fail file = true -> fail file' = true)
    /\ (fail file' = false ->
        forall j, (i <= j < i + todo)%nat -> exists c, buf' !! j = Some (Some c)).
Proof.
  induction todo as [|k IH]; intros i file buf Hlen; cbn [read_ascii].
  - exists buf, file. repeat split; trivial. intros _ j Hj. lia.
  - destruct (extract_int file) as [value file1] eqn:Ex.
    rewrite write_cell_inside by lia. cbn [mbind outcome_bind].
    replace (Z.of_nat i + 1) with (Z.of_nat (S i)) by lia.
    destruct (IH (S i) file1 (<[i := to_uchar <$> value]> buf))
      as (buf' & file' & -> & Hl & Hlow & Hsticky & Hfill).
    { rewrite length_insert. lia. }
    exists buf', file'. rewrite length_insert in Hl.
    split; [reflexivity|]. split; [exact Hl|]. split; [|split].
    + intros j Hj. rewrite Hlow by lia. apply list_lookup_insert_ne. lia.
    + intros Hf. apply Hsticky.
      pose proof (extract_int_fail file Hf) as H. now rewrite Ex in H.
    + intros Hok j Hj.
      destruct (decide (j = i)) as [->|Hne].
      * rewrite Hlow by lia. rewrite list_lookup_insert_eq by lia.
        destruct value as [z|]; [simpl; eauto|].
        apply extract_int_untouched in Ex.
        rewrite (Hsticky Ex) in Hok. discriminate.
      * apply (Hfill Hok). lia.
Qed.

Lemma read_samples_spec hd n buf :
  0 <= n -> Z.of_nat (length buf) = n ->
  exists buf' file' o,
    read_samples hd n buf = Ret (buf', file', o)
    /\ length buf' = length buf
    /\ (fail file' = false -> filled buf').
Proof.
  intros Hn Hlen. unfold read_samples. destruct (isBinary hd).
  - destruct (read_bytes (file hd) buf n) as [buf' file'] eqn:E.
    apply read_bytes_spec in E as [Hl Hf]; [|exact Hlen].
    exists buf', file', [cout_reading_binary]. auto.
  - destruct (read_ascii_spec (Z.to_nat n) 0 (file hd) buf)
      as (buf' & file' & E & Hl & _ & _ & Hfill); [lia|].
    change (Z.of_nat 0) with 0 in E. rewrite E.
    exists buf', file', [cout_reading_ascii].
    split; [reflexivity|]. split; [exact Hl|].
    intros Hok. unfold filled. apply Forall_lookup. intros j c Hj.
    destruct (Hfill Hok j) as [c' Hc].
    { apply lookup_lt_Some in Hj. lia. }
    rewrite Hc in Hj. injection Hj as <-. now exists c'.
Qed.

(** ** The reversing pass *)

Lemma to_uint_small z : 0 <= z < 2 ^ 32 -> to_uint z = z.
Proof. intros H. unfold to_uint. now apply Z.mod_small. Qed.

(** [rounds] rounds from input offset [base]: the triples of the input are
    written from the back of the first [3 * rounds] cells of the output
    to its front, each in the order it had; the cells behind are kept. *)
Lemma flip_pass_spec rounds : forall (base : nat) (copyData data : buffer),
  length copyData = (base + 3 * rounds)%nat ->
  (3 * rounds <= length data)%nat ->
  Z.of_nat (3 * rounds) < 2 ^ 32 ->
  exists out,
    Flipping.flip_pass rounds (Z.of_nat base)
      (to_uint (Z.of_nat (3 * rounds) - 1)) copyData data = Ret out
    /\ length out = length data
    /\ (forall k j, (k < rounds)%nat -> (j < 3)%nat ->
          out !! (3 * (rounds - 1 - k) + j)%nat
          = copyData !! (base + 3 * k + j)%nat)
    /\ (forall idx, (3 * rounds <= idx)%nat -> out !! idx = data !! idx).
Proof.
  induction rounds as [|r IH]; intros base copyData data Hc Hd Hr;
    cbn [Flipping.flip_pass].
  - exists data. repeat split; trivial. intros k j Hk. lia.
  - rewrite (to_uint_small (Z.of_nat (3 * S r) - 1)) by lia.
    replace (Z.of_nat base + 2) with (Z.of_nat (base + 2)) by lia.
    replace (Z.of_nat base + 1) with (Z.of_nat (base + 1)) by lia.
    destruct (read_cell_inside copyData (base + 2)) as (c2 & -> & E2); [lia|].
    cbn [mbind outcome_bind].
    replace (Z.of_nat (3 * S r) - 1) with (Z.of_nat (3 * r + 2)) by lia.
    rewrite write_cell_inside by lia. cbn [mbind outcome_bind].
    destruct (read_cell_inside copyData (base + 1)) as (c1 & -> & E1); [lia|].
    cbn [mbind outcome_bind].
    rewrite (to_uint_small (Z.of_nat (3 * r + 2) - 1)) by lia.
    replace (Z.of_nat (3 * r + 2) - 1) with (Z.of_nat (3 * r + 1)) by lia.
    rewrite write_cell_inside by (rewrite length_insert; lia).
    cbn [mbind outcome_bind].
    destruct (read_cell_inside copyData base) as (c0 & -> & E0); [lia|].
    cbn [mbind outcome_bind].
    rewrite (to_uint_small (Z.of_nat (3 * r + 2) - 2)) by lia.
    replace (Z.of_nat (3 * r + 2) - 2) with (Z.of_nat (3 * r)) by lia.
    rewrite write_cell_inside by (rewrite !length_insert; lia).
    cbn [mbind outcome_bind].
    replace (Z.of_nat (3 * r + 2) - 3) with (Z.of_nat (3 * r) - 1) by lia.
    replace (Z.of_nat base + 3) with (Z.of_nat (base + 3)) by lia.
    destruct (IH (base + 3)%nat copyData
                (<[(3 * r)%nat := c0]>
                   (<[(3 * r + 1)%nat := c1]> (<[(3 * r + 2)%nat := c2]> data))))
      as (out & -> & Hl & Hfront & Hback).
    { lia. } { rewrite !length_insert. lia. } { lia. }
    rewrite !length_insert in Hl.
    exists out. split; [reflexivity|]. split; [exact Hl|]. split.
    + intros k j Hk Hj. destruct k as [|k'].
      * replace (3 * (S r - 1 - 0) + j)%nat with (3 * r + j)%nat by lia.
        rewrite Hback by lia.
        destruct j as [|[|[|j]]]; [| | |lia].
        -- replace (base + 3 * 0 + 0)%nat with base by lia.
           replace (3 * r + 0)%nat with (3 * r)%nat by lia. rewrite E0.
           apply list_lookup_insert_eq. rewrite !length_insert. lia.
        -- replace (base + 3 * 0 + 1)%nat with (base + 1)%nat by lia.
           rewrite list_lookup_insert_ne by lia. rewrite E1.
           apply list_lookup_insert_eq. rewrite !length_insert. lia.
        -- replace (base + 3 * 0 + 2)%nat with (base + 2)%nat by lia.
           rewrite !list_lookup_insert_ne by lia. rewrite E2.
           apply list_lookup_insert_eq. lia.
      * replace (3 * (S r - 1 - S k') + j)%nat with (3 * (r - 1 - k') + j)%nat
          by lia.
        rewrite Hfront by lia. f_equal. lia.
    + intros idx Hidx. rewrite Hback by lia.
      now rewrite !list_lookup_insert_ne by lia.
Qed.

Lemma rounds_of_triple (k : nat) : Flipping.rounds_of (Z.of_nat (3 * k)) = k.
Proof.
  unfold Flipping.rounds_of.
  replace ((Z.of_nat (3 * k) + 2) / 3) with (Z.of_nat k); [lia|].
  apply Z.div_unique with (r := 2); lia.
Qed.

(** The pass on whole buffers of [3 * pixels] cells. *)
Lemma flip_pass_whole (pixels : nat) (copyData data : buffer) :
  length copyData = (3 * pixels)%nat ->
  length data = (3 * pixels)%nat ->
  Z.of_nat (3 * pixels) <= INT_MAX ->
  exists out,
    Flipping.flip_pass (Flipping.rounds_of (Z.of_nat (3 * pixels))) 0
      (to_uint (Z.of_nat (3 * pixels) - 1)) copyData data = Ret out
    /\ length out = (3 * pixels)%nat
    /\ (forall k j, (k < pixels)%nat -> (j < 3)%nat ->
          out !! (3 * (pixels - 1 - k) + j)%nat = copyData !! (3 * k + j)%nat).
Proof.
  intros Hc Hd Hn. rewrite rounds_of_triple.
  destruct (flip_pass_spec pixels 0 copyData data) as (out & E & Hl & Hf & _).
  { lia. } { lia. } { unfold INT_MAX in Hn. lia. }
  exists out. split; [exact E|]. split; [congruence|]. exact Hf.
Qed.

Lemma flip_pass_filled (pixels : nat) (copyData data out : buffer) :
  length copyData = (3 * pixels)%nat ->
  length out = (3 * pixels)%nat ->
  (forall k j, (k < pixels)%nat -> (j < 3)%nat ->
     out !! (3 * (pixels - 1 - k) + j)%nat = copyData !! (3 * k + j)%nat) ->
  filled copyData -> filled out.
Proof.
  intros Hc Ho Hidx Hfill. unfold filled in *.
  apply Forall_lookup. intros i c Hi.
  pose proof (lookup_lt_Some _ _ _ Hi) as Hlt.
  pose proof (Nat.div_mod_eq i 3) as Hdm.
  pose proof (Nat.mod_upper_bound i 3) as Hm.
  assert (Hq : (i / 3 < pixels)%nat) by lia.
  specialize (Hidx (pixels - 1 - i / 3)%nat (i mod 3)%nat).
  replace (3 * (pixels - 1 - (pixels - 1 - i / 3)) + i mod 3)%nat with i in Hidx
    by lia.
  rewrite Hidx in Hi by lia.
  eapply Forall_lookup in Hfill; eauto.
Qed.

(** ** [ReadImageData] after the header *)

Lemma sample_count_ret w h n :
  sample_count w h = Ret n -> n = 3 * w * h /\ n = w * h * 3.
Proof.
  unfold sample_count. intros H.
  apply bind_ret_inv in H as (wh & Hwh & H).
  apply int_result_ret in Hwh as [-> _].
  apply int_result_ret in H as [-> _]. lia.
Qed.

Lemma sample_count_int w h n : sample_count w h = Ret n -> n <= INT_MAX.
Proof.
  unfold sample_count. intros H.
  apply bind_ret_inv in H as (wh & _ & H).
  apply int_result_ret in H as [-> H]. apply in_int_bounds in H.
  unfold INT_MAX. lia.
Qed.

Lemma new_uchar_array_ret n :
  0 <= n -> new_uchar_array n = Ret (replicate (Z.to_nat n) None).
Proof.
  intros Hn. unfold new_uchar_array.
  now replace (n <? 0) with false by (symmetry; apply Z.ltb_ge; lia).
Qed.

Lemma new_uchar_array_inv n buf : new_uchar_array n = Ret buf -> 0 <= n.
Proof.
  unfold new_uchar_array. destruct (n <? 0) eqn:E; [discriminate|].
  intros _. now apply Z.ltb_ge in E.
Qed.

(** Once the header is read and the sample count is a valid array length,
    the later revision returns: the buffer the samples were read into if
    the stream has not failed, and no buffer if it has. *)
Lemma Direct_after_header fs u filepath width0 height0 data0 hd n :
  read_header fs u filepath width0 height0 = Ret (inr hd) ->
  sample_count (width hd) (height hd) = Ret n ->
  0 <= n ->
  exists buf file out1 out,
    read_samples hd n (replicate (Z.to_nat n) None) = Ret (buf, file, out1)
    /\ length buf = Z.to_nat n
    /\ (fail file = false -> filled buf)
    /\ Direct.ReadImageData fs u filepath width0 height0 data0
       = Ret (width hd, height hd,
              (if fail file then None else Some buf), out).
Proof.
  intros Hh Hc Hn.
  destruct (read_samples_spec hd n (replicate (Z.to_nat n) None) Hn)
    as (buf & file & o & Hr & Hl & Hf).
  { rewrite length_replicate. lia. }
  rewrite length_replicate in Hl.
  exists buf, file, o.
  unfold Direct.ReadImageData. rewrite Hh. cbn [mbind outcome_bind].
  rewrite Hc. cbn [mbind outcome_bind].
  rewrite new_uchar_array_ret by exact Hn. cbn [mbind outcome_bind].
  rewrite Hr. cbn [mbind outcome_bind].
  destruct (fail file); eexists;
    (split; [reflexivity|]); (split; [exact Hl|]);
    (split; [exact Hf|]); reflexivity.
Qed.

(** The earlier revision likewise, with the buffer the reversing pass
    wrote. *)
Lemma Flipping_after_header fs u filepath width0 height0 data0 hd n :
  read_header fs u filepath width0 height0 = Ret (inr hd) ->
  sample_count (width hd) (height hd) = Ret n ->
  0 <= n ->
  exists copyData file out1 data out,
    read_samples hd n (replicate (Z.to_nat n) None) = Ret (copyData, file, out1)
    /\ length data = Z.to_nat n
    /\ (fail file = false -> filled data)
    /\ Flipping.ReadImageData fs u filepath width0 height0 data0
       = Ret (width hd, height hd,
              (if fail file then None else Some data), out).
Proof.
  intros Hh Hc Hn.
  destruct (read_samples_spec hd n (replicate (Z.to_nat n) None) Hn)
    as (copyData & file & o & Hr & Hl & Hf).
  { rewrite length_replicate. lia. }
  rewrite length_replicate in Hl.
  pose proof (sample_count_ret _ _ _ Hc) as [_ Hprod].
  pose proof (sample_count_int _ _ _ Hc) as Hmax.
  set (pixels := Z.to_nat (width hd * height hd)).
  assert (Hn3 : n = Z.of_nat (3 * pixels)) by (unfold pixels; lia).
  assert (Hz : Z.to_nat n = (3 * pixels)%nat) by lia.
  clearbody pixels.
  destruct (flip_pass_whole pixels copyData (replicate (3 * pixels) None))
    as (data & Hp & Hdl & Hidx).
  { congruence. } { apply length_replicate. } { lia. }
  assert (Hfilled : fail file = false -> filled data).
  { intros Hok.
    apply (flip_pass_filled pixels copyData (replicate (3 * pixels) None) data);
      [congruence | exact Hdl | exact Hidx | exact (Hf Hok)]. }
  exists copyData, file, o, data.
  unfold Flipping.ReadImageData. rewrite Hh. cbn [mbind outcome_bind].
  rewrite Hc. cbn [mbind outcome_bind].
  rewrite new_uchar_array_ret by exact Hn. cbn [mbind outcome_bind].
  rewrite Hr. cbn [mbind outcome_bind].
  rewrite Hz, Hn3, Hp. cbn [mbind outcome_bind].
  destruct (fail file); eexists;
    (split; [reflexivity|]); (split; [congruence|]);
    (split; [assumption|]); reflexivity.
Qed.

(** ** Claims about the image decoder *)

(** C2.  What the reversing pass does on an image of [pixels] pixels: the
    input triple at offset [i] is written at [3 * pixels - 3 - i], and
    within the triple every byte keeps its place (red first), so the
    channels are not swapped. *)
Theorem flip_pass_keeps_channel_order (pixels : nat) (copyData data : buffer) :
  length copyData = (3 * pixels)%nat ->
  length data = (3 * pixels)%nat ->
  Z.of_nat (3 * pixels) <= INT_MAX ->
  exists out,
    Flipping.flip_pass (Flipping.rounds_of (Z.of_nat (3 * pixels))) 0
      (to_uint (Z.of_nat (3 * pixels) - 1)) copyData data = Ret out
    /\ length out = (3 * pixels)%nat
    /\ forall k, (k < pixels)%nat ->
         let i := (3 * k)%nat in
         let idx := (3 * pixels - 3 - i)%nat in
         out !! idx = copyData !! i
         /\ out !! (idx + 1)%nat = copyData !! (i + 1)%nat
         /\ out !! (idx + 2)%nat = copyData !! (i + 2)%nat.
Proof.
  intros Hc Hd Hn.
  destruct (flip_pass_whole pixels copyData data Hc Hd Hn)
    as (out & E & Hl & Hidx).
  exists out. split; [exact E|]. split; [exact Hl|].
  intros k Hk i idx. subst i idx.
  pose proof (Hidx k 0%nat Hk) as H0.
  pose proof (Hidx k 1%nat Hk) as H1.
  pose proof (Hidx k 2%nat Hk) as H2.
  replace (3 * (pixels - 1 - k) + 0)%nat with (3 * pixels - 3 - 3 * k)%nat in H0
    by lia.
  replace (3 * (pixels - 1 - k) + 1)%nat with (3 * pixels - 3 - 3 * k + 1)%nat
    in H1 by lia.
  replace (3 * (pixels - 1 - k) + 2)%nat with (3 * pixels - 3 - 3 * k + 2)%nat
    in H2 by lia.
  rewrite Nat.add_0_r in H0.
  repeat split; [apply H0 | apply H1 | apply H2]; lia.
Qed.

(** C9.  In both revisions: a call that hands back a buffer hands back one
    of exactly [3 * width * height] cells, each holding a sample; and once
    the buffer is allocated, a stream that has failed by the end of the
    read makes the call hand back no buffer. *)
Theorem ReadImageData_whole_or_none (fs : filesystem) (u : ppm_junk)
    (filepath : string) (width0 height0 : Z) :
  (forall w h data out,
      Flipping.ReadImageData fs u filepath width0 height0 None
      = Ret (w, h, Some data, out) ->
      Z.of_nat (length data) = 3 * w * h /\ filled data)
  /\ (forall w h data out,
      Direct.ReadImageData fs u filepath width0 height0 None
      = Ret (w, h, Some data, out) ->
      Z.of_nat (length data) = 3 * w * h /\ filled data)
  /\ (forall hd n data0,
      read_header fs u filepath width0 height0 = Ret (inr hd) ->
      sample_count (width hd) (height hd) = Ret n ->
      0 <= n ->
      exists buf file out1,
        read_samples hd n (replicate (Z.to_nat n) None) = Ret (buf, file, out1)
        /\ (fail file = true ->
            (exists out,
                Flipping.ReadImageData fs u filepath width0 height0 data0
                = Ret (width hd, height hd, None, out))
            /\ (exists out,
                Direct.ReadImageData fs u filepath width0 height0 data0
                = Ret (width hd, height hd, None, out)))).
Proof.
  split; [|split].
  - intros w h data out H. pose proof H as H'.
    unfold Flipping.ReadImageData in H'.
    apply bind_ret_inv in H' as ([[[w0 h0] o0]|hd] & Hh & H').
    { apply mret_inv in H'. discriminate. }
    apply bind_ret_inv in H' as (n & Hc & H').
    apply bind_ret_inv in H' as (copy0 & Ha & _).
    apply new_uchar_array_inv in Ha.
    destruct (Flipping_after_header fs u filepath width0 height0 None hd n
                Hh Hc Ha)
      as (copyData & file & o1 & data' & out' & _ & Hl & Hf & E).
    rewrite E in H. destruct (fail file); [discriminate|].
    injection H as <- <- <- _.
    apply sample_count_ret in Hc as [Hc _]. split; [lia | now apply Hf].
  - intros w h data out H. pose proof H as H'.
    unfold Direct.ReadImageData in H'.
    apply bind_ret_inv in H' as ([[[w0 h0] o0]|hd] & Hh & H').
    { apply mret_inv in H'. discriminate. }
    apply bind_ret_inv in H' as (n & Hc & H').
    apply bind_ret_inv in H' as (copy0 & Ha & _).
    apply new_uchar_array_inv in Ha.
    destruct (Direct_after_header fs u filepath width0 height0 None hd n
                Hh Hc Ha)
      as (buf & file & o1 & out' & _ & Hl & Hf & E).
    rewrite E in H. destruct (fail file); [discriminate|].
    injection H as <- <- <- _.
    apply sample_count_ret in Hc as [Hc _]. split; [lia | now apply Hf].
  - intros hd n data0 Hh Hc Hn.
    destruct (Flipping_after_header fs u filepath width0 height0 data0 hd n
                Hh Hc Hn)
      as (copyData & file & o1 & data' & out' & Hr & _ & _ & E).
    destruct (Direct_after_header fs u filepath width0 height0 data0 hd n
                Hh Hc Hn)
      as (buf & file2 & o2 & out2 & Hr2 & _ & _ & E2).
    rewrite Hr in Hr2. injection Hr2 as <- <- <-.
    exists copyData, file, o1. split; [exact Hr|].
    intros Hfail. rewrite Hfail in E, E2. eauto.
Qed.

(** ** Claims about the deferred texture *)

Section DeferredTexture.

Context {GL : OpenGL} {F : Floating}.

Lemma empty_true s : empty s = true -> s = EmptyString.
Proof. now destruct s. Qed.

Lemma LoadTextures_nothing_pending LoadPPM m gl :
  m_pendingTexturePath m = EmptyString ->
  LoadTextures LoadPPM m gl = Ret (true, m, gl, []).
Proof. intros H. unfold LoadTextures. now rewrite H. Qed.

(** C8.  A call of [LoadTextures] that returns [true] leaves no texture
    pending, and every call after it returns [true] at once: the object
    and the OpenGL context stay as they are, nothing is written, and
    [LoadPPM] is not called, whatever it would do. *)
Theorem LoadTextures_idempotent
    (LoadPPM : string -> context -> outcome (Z * context * list event))
    (m m1 : OBJMesh) (gl gl1 : context) (out : list event) :
  LoadTextures LoadPPM m gl = Ret (true, m1, gl1, out) ->
  m_pendingTexturePath m1 = EmptyString
  /\ forall n, LoadTextures_again LoadPPM n m1 gl1 = Ret (true, m1, gl1, []).
Proof.
  intros H.
  assert (Hp : m_pendingTexturePath m1 = EmptyString).
  { unfold LoadTextures in H.
    destruct (empty (m_pendingTexturePath m)) eqn:He; cbn [negb] in H.
    - injection H as <- _ _. now apply empty_true.
    - apply bind_ret_inv in H as ([[id gl'] o] & _ & H).
      destruct (id =? 0); [discriminate|].
      injection H as <- _ _. reflexivity. }
  split; [exact Hp|].
  induction n as [|n IH]; cbn [LoadTextures_again];
    rewrite (LoadTextures_nothing_pending LoadPPM m1 gl1 Hp); [reflexivity|].
  exact IH.
Qed.

End DeferredTexture.

(** * The claims on concrete files *)

Section Examples.

#[local] Existing Instance Symbolic.floating.
#[local] Existing Instance Symbolic.counting_gl.

Import Symbolic.

(** C1: the token [2/2] has no normal; its normal index comes out as 1,
    the position index. *)
Lemma ParseVertexIndices_v_vt_witness :
  ParseVertexIndices two_texcoords "2/2" = Ret (1, 1, 1, []).
Proof.
  exact (ParseVertexIndices_v_vt two_texcoords "2" "2" 2 2
           eq_refl eq_refl eq_refl eq_refl eq_refl eq_refl eq_refl).
Defined.

(** The same through [LoadOBJ]: with one normal in the pool, the face
    [f 1/1 2/2 3/3] reads normals 1 and 2. *)
Example pairs_read_missing_normals :
  LoadOBJ files junk empty_mesh "pairs.obj" = Undefined.
Proof. vm_compute. reflexivity. Qed.

Example earlier_v_vt : Earlier.ParseVertexIndices "2/2" = Ret (1, 1).
Proof. vm_compute. reflexivity. Qed.

(** C2: a 2 x 2 image. *)
Lemma flip_pass_keeps_channel_order_witness :
  exists out,
    Flipping.flip_pass (Flipping.rounds_of 12) 0 (to_uint 11)
      (map Some (chars_of samples)) (replicate 12 None) = Ret out
    /\ length out = 12%nat
    /\ forall k, (k < 4)%nat ->
         let i := (3 * k)%nat in
         let idx := (3 * 4 - 3 - i)%nat in
         out !! idx = map Some (chars_of samples) !! i
         /\ out !! (idx + 1)%nat = map Some (chars_of samples) !! (i + 1)%nat
         /\ out !! (idx + 2)%nat = map Some (chars_of samples) !! (i + 2)%nat.
Proof.
  apply (flip_pass_keeps_channel_order 4
           (map Some (chars_of samples)) (replicate 12 None));
    [reflexivity | reflexivity | vm_compute; discriminate].
Defined.

(** The decoded 2 x 2 file: the last pixel [jkl] comes first, as [jkl]. *)
Example t_ppm_decoded :
  Flipping.ReadImageData files no_junk "t.ppm" 0 0 None
  = Ret (2, 2, Some (map Some (chars_of "jklghidefabc")),
         [cout_opened_ppm; cout_ppm_format "P6"; cout_dimensions 2 2;
          cout_max_color 255; cout_allocated; cout_reading_binary;
          cout_read_ppm 2 2]).
Proof. vm_compute. reflexivity. Qed.

(** C4: position 2 of a pool of one. *)
Lemma face_unresolved_is_undefined_witness :
  LoadOBJ_line files "oob.obj" (junk 3) "f 1/1/1 2/1/1 1/1/1"
    (at_line one_of_each) = Undefined.
Proof.
  apply (face_unresolved_is_undefined files "oob.obj" (junk 3)
           "f 1/1/1 2/1/1 1/1/1" (at_line one_of_each)
           "1/1/1" "2/1/1" "1/1/1" 0 0 0 [] 1 0 0 [] 0 0 0 []);
    try reflexivity.
  unfold unresolved. apply Exists_cons_tl, Exists_cons_hd. left.
  simpl. lia.
Defined.

Example oob_obj_undefined :
  LoadOBJ files junk empty_mesh "oob.obj" = Undefined.
Proof. vm_compute. reflexivity. Qed.

(** C5: a face while no [vt] line has been read. *)
Lemma face_without_texcoords_never_returns_witness :
  returns (LoadOBJ_line files "notex.obj" (junk 2) "f 1/1/1 1/1/1 1/1/1"
             (at_line no_texcoords)) = false.
Proof.
  apply (face_without_texcoords_never_returns files "notex.obj" (junk 2)
           "f 1/1/1 1/1/1 1/1/1" (at_line no_texcoords)); reflexivity.
Defined.

Example notex_obj_undefined :
  LoadOBJ files junk empty_mesh "notex.obj" = Undefined.
Proof. vm_compute. reflexivity. Qed.

Example notex_clamps_first :
  ParseVertexIndices no_texcoords "1/1/1"
  = Ret (0, 0, 0, [cerr_invalid_texcoord 0]).
Proof. vm_compute. reflexivity. Qed.

(** The earlier revision on the line [vt 0.25 0.75] stores [1.0f - t]. *)
Example earlier_vt_flips :
  texCoords (this (Earlier.LoadOBJ_vt (junk 0) (after_type "vt 0.25 0.75")
                     (at_line empty_mesh)))
  = [(of_text "0.25", sub lit_1_0 (of_text "0.75"))].
Proof. vm_compute. reflexivity. Qed.

(** C8: the texture of [tri.obj]. *)
Lemma LoadTextures_idempotent_witness :
  m_pendingTexturePath (with_pendingTexturePath
                          (with_textureID pending_texture 1) EmptyString)
  = EmptyString
  /\ forall n,
       LoadTextures_again (Direct_LoadPPM files stack) n
         (with_pendingTexturePath (with_textureID pending_texture 1) EmptyString)
         1
       = Ret (true,
              with_pendingTexturePath (with_textureID pending_texture 1)
                EmptyString, 1, []).
Proof.
  eapply (LoadTextures_idempotent (GL := counting_gl)
            (Direct_LoadPPM files stack) pending_texture _ 0 1).
  vm_compute. reflexivity.
Defined.

(** C9: the whole file, and the file one byte short. *)
Lemma ReadImageData_whole_or_none_witness :
  (Z.of_nat (length (map Some (chars_of "jklghidefabc"))) = 3 * 2 * 2
   /\ filled (map Some (chars_of "jklghidefabc")))
  /\ Flipping.ReadImageData files no_junk "short.ppm" 0 0 None
     = Ret (2, 2, None,
            [cout_opened_ppm; cout_ppm_format "P6"; cout_dimensions 2 2;
             cout_max_color 255; cout_allocated; cout_reading_binary;
             cerr_read_error; cout_read_ppm 2 2]).
Proof.
  split.
  - eapply (proj1 (ReadImageData_whole_or_none files no_junk "t.ppm" 0 0)).
    vm_compute. reflexivity.
  - vm_compute. reflexivity.
Defined.

Example tri_obj_decoded :
  exists m log,
    LoadOBJ files junk three_positions_one_normal "tri.obj"
    = Ret (true, m, log)
    /\ GetTriangleCount m = 1
    /\ length (positions m) = 3%nat
    /\ m_pendingTexturePath m = "t.ppm".
Proof. eexists _, _. vm_compute. repeat split; reflexivity. Qed.

End Examples.

(** * The decoded mesh *)

Section DecodedMesh.

Context {F : Floating}.

Lemma count_type_cons type line rest :
  count_type type (line :: rest)
  = (is_type type line + count_type type rest)%nat.
Proof.
  unfold count_type, is_type. rewrite filter_cons.
  destruct (String.eqb (line_type line) type).
  - now rewrite decide_True.
  - now rewrite decide_False by discriminate.
Qed.

(** The ways a line can return. *)
Lemma LoadOBJ_line_effect fs filename junk line st st' :
  LoadOBJ_line fs filename junk line st = Ret st' ->
  (line_type line = "mtllib"
   /\ pools (this st') = pools (this st)
   /\ vertexCount st' = vertexCount st /\ normalCount st' = normalCount st
   /\ faceCount st' = faceCount st)
  \/ (line_type line = "v"
      /\ st' = mk_loop_state
                 (with_positions (this st)
                    (positions (this st) ++ [get_float3 (after_type line) junk]))
                 (mtlFile st) (vertexCount st + 1) (normalCount st)
                 (faceCount st) (out st))
  \/ (line_type line = "vn"
      /\ st' = mk_loop_state
                 (with_normals (this st)
                    (normals (this st)
                     ++ [glm_normalize (get_float3 (after_type line) junk)]))
                 (mtlFile st) (vertexCount st) (normalCount st + 1)
                 (faceCount st) (out st))
  \/ (line_type line = "vt"
      /\ st' = mk_loop_state
                 (with_texCoords (this st)
                    (texCoords (this st) ++ [get_float2 (after_type line) junk]))
                 (mtlFile st) (vertexCount st) (normalCount st)
                 (faceCount st) (out st))
  \/ (line_type line = "f"
      /\ exists v1 vt1 vn1 v2 vt2 vn2 v3 vt3 vn3 c0 c1 c2 d,
           corner (this st) v1 vt1 vn1 = Ret c0
           /\ corner (this st) v2 vt2 vn2 = Ret c1
           /\ corner (this st) v3 vt3 vn3 = Ret c2
           /\ st' = mk_loop_state
                      (with_triangles (this st)
                         (m_triangles (this st) ++ [mk_Triangle (c0, c1, c2)]))
                      (mtlFile st) (vertexCount st) (normalCount st)
                      (faceCount st + 1) (out st ++ d))
  \/ (line_type line <> "mtllib" /\ line_type line <> "v"
      /\ line_type line <> "vn" /\ line_type line <> "vt"
      /\ line_type line <> "f" /\ st' = st).
Proof.
  unfold LoadOBJ_line. rewrite line_split.
  destruct (String.eqb (line_type line) "mtllib") eqn:E1.
  { apply String.eqb_eq in E1.
    destruct (get_string _ _) as [mtl iss].
    destruct (directory_of_ret filename) as [d ->]. cbn [mbind outcome_bind].
    destruct (LoadMTL_pools fs (d ++ mtl)%string (this st) (out st))
      as (ok & m' & o' & -> & Hp).
    intros [= <-]. left. simpl. repeat split; trivial. }
  destruct (String.eqb (line_type line) "v") eqn:E2.
  { apply String.eqb_eq in E2.
    destruct (get_float3 _ _) as [[x y] z]. intros [= <-].
    right; left. split; [exact E2 | reflexivity]. }
  destruct (String.eqb (line_type line) "vn") eqn:E3.
  { apply String.eqb_eq in E3.
    destruct (get_float3 _ _) as [[x y] z]. intros [= <-].
    do 2 right; left. split; [exact E3 | reflexivity]. }
  destruct (String.eqb (line_type line) "vt") eqn:E4.
  { apply String.eqb_eq in E4.
    destruct (get_float2 _ _) as [x y]. intros [= <-].
    do 3 right; left. split; [exact E4 | reflexivity]. }
  destruct (String.eqb (line_type line) "f") eqn:E5.
  { apply String.eqb_eq in E5.
    destruct (get_string3 _) as [[t1 t2] t3]. intros H.
    apply bind_ret_inv in H as ([[[v1 vt1] vn1] d1] & _ & H).
    apply bind_ret_inv in H as ([[[v2 vt2] vn2] d2] & _ & H).
    apply bind_ret_inv in H as ([[[v3 vt3] vn3] d3] & _ & H).
    apply bind_ret_inv in H as (c0 & H0 & H).
    apply bind_ret_inv in H as (c1 & H1 & H).
    apply bind_ret_inv in H as (c2 & H2 & H).
    apply mret_inv in H. do 4 right; left. split; [exact E5|].
    exists v1, vt1, vn1, v2, vt2, vn2, v3, vt3, vn3, c0, c1, c2,
      (d1 ++ d2 ++ d3).
    subst st'. repeat split; assumption. }
  apply String.eqb_neq in E1, E2, E3, E4, E5.
  intros [= <-]. do 5 right. repeat split; assumption.
Qed.

Lemma is_type_of type line : line_type line = type -> is_type type line = 1%nat.
Proof. intros <-. unfold is_type. now rewrite String.eqb_refl. Qed.

Lemma is_type_other type line :
  line_type line <> type -> is_type type line = 0%nat.
Proof.
  intros H. unfold is_type. now apply String.eqb_neq in H as ->.
Qed.

(** The sizes of the normal pool, the texture-coordinate pool and the
    triangle list, and the three counters, after a line. *)
Lemma LoadOBJ_line_sizes fs filename junk line st st' :
  LoadOBJ_line fs filename junk line st = Ret st' ->
  length (normals (this st'))
  = (length (normals (this st)) + is_type "vn" line)%nat
  /\ length (texCoords (this st'))
     = (length (texCoords (this st)) + is_type "vt" line)%nat
  /\ length (m_triangles (this st'))
     = (length (m_triangles (this st)) + is_type "f" line)%nat
  /\ vertexCount st' = vertexCount st + Z.of_nat (is_type "v" line)
  /\ normalCount st' = normalCount st + Z.of_nat (is_type "vn" line)
  /\ faceCount st' = faceCount st + Z.of_nat (is_type "f" line).
Proof.
  intros H. apply LoadOBJ_line_effect in H
    as [(Ht & Hp & Hv & Hn & Hf)
       |[(Ht & ->)|[(Ht & ->)|[(Ht & ->)|[(Ht & H)|H]]]]].
  - injection Hp as -> _ -> ->. rewrite Hv, Hn, Hf.
    rewrite !is_type_other by (rewrite Ht; discriminate). lia.
  - rewrite (is_type_of "v") by exact Ht.
    rewrite !is_type_other by (rewrite Ht; discriminate). simpl. lia.
  - rewrite (is_type_of "vn") by exact Ht.
    rewrite !is_type_other by (rewrite Ht; discriminate). simpl.
    rewrite length_app. simpl. lia.
  - rewrite (is_type_of "vt") by exact Ht.
    rewrite !is_type_other by (rewrite Ht; discriminate). simpl.
    rewrite length_app. simpl. lia.
  - destruct H as (v1 & vt1 & vn1 & v2 & vt2 & vn2 & v3 & vt3 & vn3
                   & c0 & c1 & c2 & d & _ & _ & _ & ->).
    rewrite (is_type_of "f") by exact Ht.
    rewrite !is_type_other by (rewrite Ht; discriminate). simpl.
    rewrite length_app. simpl. lia.
  - destruct H as (H1 & H2 & H3 & H4 & H5 & ->).
    rewrite !is_type_other by assumption. lia.
Qed.

Lemma LoadOBJ_lines_sizes fs filename junk lineno lines st st' :
  LoadOBJ_lines fs filename junk lineno lines st = Ret st' ->
  length (normals (this st'))
  = (length (normals (this st)) + count_type "vn" lines)%nat
  /\ length (texCoords (this st'))
     = (length (texCoords (this st)) + count_type "vt" lines)%nat
  /\ length (m_triangles (this st'))
     = (length (m_triangles (this st)) + count_type "f" lines)%nat
  /\ vertexCount st' = vertexCount st + Z.of_nat (count_type "v" lines)
  /\ normalCount st' = normalCount st + Z.of_nat (count_type "vn" lines)
  /\ faceCount st' = faceCount st + Z.of_nat (count_type "f" lines).
Proof.
  revert lineno st.
  induction lines as [|line rest IH]; intros lineno st; cbn [LoadOBJ_lines].
  - intros [= <-]. unfold count_type. simpl. lia.
  - intros H. apply bind_ret_inv in H as (st1 & H1 & H).
    apply LoadOBJ_line_sizes in H1. apply IH in H.
    rewrite !count_type_cons. lia.
Qed.

(** X1.  A decode that returns has one triangle for every [f] line, one
    normal for every [vn] line and one texture coordinate for every [vt]
    line of the file, and its last message reports the numbers of [v],
    [vn] and [f] lines. *)
Theorem LoadOBJ_counts (fs : filesystem) (junk : nat -> nat -> float)
    (m m' : OBJMesh) (filename text : string) (ok : bool) (log : list event) :
  fs filename = Some text ->
  LoadOBJ fs junk m filename = Ret (ok, m', log) ->
  GetTriangleCount m' = Z.of_nat (count_type "f" (getlines text))
  /\ length (normals m') = count_type "vn" (getlines text)
  /\ length (texCoords m') = count_type "vt" (getlines text)
  /\ last log
     = Some (cout_loaded_obj
               (Z.of_nat (count_type "v" (getlines text)))
               (Z.of_nat (count_type "vn" (getlines text)))
               (Z.of_nat (count_type "f" (getlines text)))
               (Z.of_nat (count_type "f" (getlines text)))).
Proof.
  intros Hopen. unfold LoadOBJ. rewrite Hopen. intros H.
  apply bind_ret_inv in H as (st' & Hl & H).
  apply mret_inv in H. injection H as _ <- <-.
  apply LoadOBJ_lines_sizes in Hl as (Hn & Ht & Hf & Hcv & Hcn & Hcf).
  simpl in *. unfold GetTriangleCount.
  rewrite last_snoc, Hn, Ht, Hf, Hcv, Hcn, Hcf.
  repeat split; try reflexivity. 
Qed.

(** *** Only a face line can stop the decode *)

Lemma LoadOBJ_line_returns fs filename junk line st :
  line_type line <> "f" ->
  exists st', LoadOBJ_line fs filename junk line st = Ret st'.
Proof.
  intros Hf. unfold LoadOBJ_line. rewrite line_split.
  destruct (String.eqb (line_type line) "mtllib").
  { destruct (get_string _ _) as [mtl iss].
    destruct (directory_of_ret filename) as [d ->]. cbn [mbind outcome_bind].
    destruct (LoadMTL_pools fs (d ++ mtl)%string (this st) (out st))
      as (ok & m' & o' & -> & _).
    eexists. reflexivity. }
  destruct (String.eqb (line_type line) "v").
  { destruct (get_float3 _ _) as [[x y] z]. eexists. reflexivity. }
  destruct (String.eqb (line_type line) "vn").
  { destruct (get_float3 _ _) as [[x y] z]. eexists. reflexivity. }
  destruct (String.eqb (line_type line) "vt").
  { destruct (get_float2 _ _) as [x y]. eexists. reflexivity. }
  apply String.eqb_neq in Hf. rewrite Hf. eexists. reflexivity.
Qed.

Lemma LoadOBJ_lines_returns fs filename junk lineno lines st :
  Forall (fun line => line_type line <> "f") lines ->
  exists st', LoadOBJ_lines fs filename junk lineno lines st = Ret st'.
Proof.
  intros Hall. revert lineno st.
  induction Hall as [|line rest Hl _ IH]; intros lineno st;
    cbn [LoadOBJ_lines].
  - eexists. reflexivity.
  - destruct (LoadOBJ_line_returns fs filename (junk lineno) line st Hl)
      as [st1 ->].
    cbn [mbind outcome_bind]. apply IH.
Qed.

(** X2.  A file without [f] lines is always decoded: whatever its other
    lines hold, [LoadOBJ] returns [true]; no exception, no read outside a
    pool. *)
Theorem LoadOBJ_without_faces_returns (fs : filesystem)
    (junk : nat -> nat -> float) (m : OBJMesh) (filename text : string) :
  fs filename = Some text ->
  Forall (fun line => line_type line <> "f") (getlines text) ->
  exists m' log, LoadOBJ fs junk m filename = Ret (true, m', log).
Proof.
  intros Hopen Hall. unfold LoadOBJ. rewrite Hopen.
  destruct (LoadOBJ_lines_returns fs filename junk 0%nat (getlines text)
              (mk_loop_state (clear_pools m) EmptyString 0 0 0
                 [cout_loading_obj filename]) Hall) as [st' ->].
  eexists _, _. reflexivity.
Qed.

(** *** What the triangles are made of *)

Lemma at_unchecked_elem {A : Type} (v : list A) (i : Z) (a : A) :
  at_unchecked v i = Ret a -> a ∈ v.
Proof.
  unfold at_unchecked. destruct (_ <? _); [|discriminate].
  destruct (v !! _) as [a'|] eqn:E; [|discriminate].
  intros [= <-]. eapply list_elem_of_lookup_2, E.
Qed.

Lemma corner_made m v vt vn c :
  corner m v vt vn = Ret c -> placeholder_colour c /\ from_pools m c.
Proof.
  unfold corner. intros H.
  apply bind_ret_inv in H as ([[px py] pz] & Hp & H).
  apply bind_ret_inv in H as ([[qx qy] qz] & Hn & H).
  apply bind_ret_inv in H as ([ts tt] & Ht & H).
  apply mret_inv in H. subst c.
  apply at_unchecked_elem in Hp, Hn, Ht.
  unfold placeholder_colour, from_pools. simpl. auto.
Qed.

Lemma from_pools_grow m m' v :
  positions m ⊆ positions m' -> normals m ⊆ normals m' ->
  texCoords m ⊆ texCoords m' ->
  from_pools m v -> from_pools m' v.
Proof.
  intros Hp Hn Ht (H1 & H2 & H3). unfold from_pools. auto.
Qed.

Lemma well_made_grow m m' :
  m_triangles m' = m_triangles m ->
  positions m ⊆ positions m' -> normals m ⊆ normals m' ->
  texCoords m ⊆ texCoords m' ->
  well_made m -> well_made m'.
Proof.
  intros Ht Hp Hn Hc Hw. unfold well_made in *. rewrite Ht.
  eapply Forall_impl; [exact Hw|]. intros tri Htri.
  eapply Forall_impl; [exact Htri|].
  intros v [Hcol Hfrom]. split; [exact Hcol|].
  now apply (from_pools_grow m m').
Qed.

Lemma LoadOBJ_line_well_made fs filename junk line st st' :
  LoadOBJ_line fs filename junk line st = Ret st' ->
  well_made (this st) -> well_made (this st').
Proof.
  intros H Hw. apply LoadOBJ_line_effect in H
    as [(Ht & Hp & _)
       |[(Ht & ->)|[(Ht & ->)|[(Ht & ->)|[(Ht & H)|H]]]]].
  - injection Hp as Htr Hpo Hno Htc.
    apply (well_made_grow (this st)); trivial;
      [rewrite Hpo | rewrite Hno | rewrite Htc]; reflexivity.
  - apply (well_made_grow (this st)); trivial; simpl; try reflexivity.
    intros p Hp. apply elem_of_app. now left.
  - apply (well_made_grow (this st)); trivial; simpl; try reflexivity.
    intros p Hp. apply elem_of_app. now left.
  - apply (well_made_grow (this st)); trivial; simpl; try reflexivity.
    intros p Hp. apply elem_of_app. now left.
  - destruct H as (v1 & vt1 & vn1 & v2 & vt2 & vn2 & v3 & vt3 & vn3
                   & c0 & c1 & c2 & d & H0 & H1 & H2 & ->).
    apply corner_made in H0, H1, H2.
    unfold well_made in *. simpl. apply Forall_app. split.
    + eapply Forall_impl; [exact Hw|]. intros tri Htri.
      eapply Forall_impl; [exact Htri|]. intros v Hv. exact Hv.
    + apply Forall_singleton. unfold corners. simpl.
      destruct H0 as [A0 B0], H1 as [A1 B1], H2 as [A2 B2].
      assert (G : forall c, from_pools (this st) c ->
                from_pools
                  (with_triangles (this st)
                     (m_triangles (this st) ++ [mk_Triangle (c0, c1, c2)])) c)
        by (intros c Hc; exact Hc).
      repeat (apply Forall_cons; split; [split; auto|]). apply Forall_nil_2.
  - destruct H as (_ & _ & _ & _ & _ & ->). exact Hw.
Qed.

Lemma LoadOBJ_lines_well_made fs filename junk lineno lines st st' :
  LoadOBJ_lines fs filename junk lineno lines st = Ret st' ->
  well_made (this st) -> well_made (this st').
Proof.
  revert lineno st.
  induction lines as [|line rest IH]; intros lineno st; cbn [LoadOBJ_lines].
  - now intros [= <-].
  - intros H Hw. apply bind_ret_inv in H as (st1 & H1 & H).
    apply (IH _ _ H). eapply LoadOBJ_line_well_made; eauto.
Qed.

(** X3.  Every vertex of a decoded mesh has the colour (0.7, 0.7, 0.7). *)
Theorem decoded_vertices_have_placeholder_colour (fs : filesystem)
    (junk : nat -> nat -> float) (m m' : OBJMesh) (filename text : string)
    (ok : bool) (log : list event) (tri : Triangle) (v : Vertex) :
  fs filename = Some text ->
  LoadOBJ fs junk m filename = Ret (ok, m', log) ->
  tri ∈ m_triangles m' -> v ∈ corners tri ->
  r v = f_0_7 /\ g v = f_0_7 /\ b v = f_0_7.
Proof.
  intros Hopen H Htri Hv. unfold LoadOBJ in H. rewrite Hopen in H.
  apply bind_ret_inv in H as (st' & Hl & H).
  apply mret_inv in H. injection H as _ <- _.
  apply LoadOBJ_lines_well_made in Hl; [|constructor].
  unfold well_made in Hl. rewrite Forall_forall in Hl.
  specialize (Hl tri Htri). rewrite Forall_forall in Hl.
  now apply Hl.
Qed.

(** X4.  Every vertex of a decoded mesh holds, by value, a position, a
    normal and a texture coordinate that are entries of the pools the
    decode leaves. *)
Theorem decoded_vertices_come_from_pools (fs : filesystem)
    (junk : nat -> nat -> float) (m m' : OBJMesh) (filename text : string)
    (ok : bool) (log : list event) (tri : Triangle) (v : Vertex) :
  fs filename = Some text ->
  LoadOBJ fs junk m filename = Ret (ok, m', log) ->
  tri ∈ m_triangles m' -> v ∈ corners tri ->
  (x v, y v, z v) ∈ positions m'
  /\ (nx v, ny v, nz v) ∈ normals m'
  /\ (s v, t v) ∈ texCoords m'.
Proof.
  intros Hopen H Htri Hv. unfold LoadOBJ in H. rewrite Hopen in H.
  apply bind_ret_inv in H as (st' & Hl & H).
  apply mret_inv in H. injection H as _ <- _.
  apply LoadOBJ_lines_well_made in Hl; [|constructor].
  unfold well_made in Hl. rewrite Forall_forall in Hl.
  specialize (Hl tri Htri). rewrite Forall_forall in Hl.
  now apply Hl.
Qed.

End DecodedMesh.

(** * Lines with missing or unreadable numbers *)

Section Locals.

Context {F : Floating}.

(** ** Extractions that leave their target unset *)

(** Where the stream stands after [is >> x] does not depend on [x]. *)
Lemma get_float_stream i a b : snd (get_float i a) = snd (get_float i b).
Proof.
  unfold get_float. destruct (sentry i) as [[] i1]; [|reflexivity].
  now destruct (num_get_float (pending i1)) as [[v c] rest].
Qed.

Lemma get_float_unread i a : fst (sentry i) = false -> fst (get_float i a) = a.
Proof.
  unfold get_float. destruct (sentry i) as [[] i1]; [discriminate | reflexivity].
Qed.

Lemma get_float_read i a b :
  fst (sentry i) = true -> get_float i a = get_float i b.
Proof.
  unfold get_float. destruct (sentry i) as [[] i1]; [reflexivity | discriminate].
Qed.

Lemma fail_sentry i : fail i = true -> fst (sentry i) = false.
Proof. intros H. unfold sentry. now rewrite (fail_not_good _ H). Qed.

(** When the third extraction finds nothing to read, [z] is the local as
    it was declared. *)
Lemma get_float3_third_unread iss junk x iss1 y iss2 :
  get_float iss (junk 0%nat) = (x, iss1) ->
  get_float iss1 (junk 1%nat) = (y, iss2) ->
  fst (sentry iss2) = false ->
  get_float3 iss junk = (x, y, junk 2%nat).
Proof.
  intros H1 H2 Hs. unfold get_float3. rewrite H1, H2.
  pose proof (get_float_unread iss2 (junk 2%nat) Hs) as Hz.
  destruct (get_float iss2 (junk 2%nat)) as [z iss3]. simpl in Hz. now subst z.
Qed.

(** In another run the streams are the same, so the same holds there. *)
Lemma get_float3_third_unread_other iss junk junk' x iss1 y iss2 :
  get_float iss (junk 0%nat) = (x, iss1) ->
  get_float iss1 (junk 1%nat) = (y, iss2) ->
  fst (sentry iss2) = false ->
  exists x' y', get_float3 iss junk' = (x', y', junk' 2%nat).
Proof.
  intros H1 H2 Hs.
  destruct (get_float iss (junk' 0%nat)) as [x' i1] eqn:E1.
  assert (i1 = iss1).
  { pose proof (get_float_stream iss (junk' 0%nat) (junk 0%nat)) as H.
    now rewrite E1, H1 in H. }
  subst i1.
  destruct (get_float iss1 (junk' 1%nat)) as [y' i2] eqn:E2.
  assert (i2 = iss2).
  { pose proof (get_float_stream iss1 (junk' 1%nat) (junk 1%nat)) as H.
    now rewrite E2, H2 in H. }
  subst i2. exists x', y'.
  now apply (get_float3_third_unread iss junk' x' iss1 y' iss2).
Qed.

Lemma get_float3_complete iss j1 j2 :
  fields_present 3 iss = true -> get_float3 iss j1 = get_float3 iss j2.
Proof.
  cbn [fields_present]. rewrite !andb_true_r. intros H.
  apply andb_prop in H as [H0 H]. apply andb_prop in H as [H1 H2].
  unfold get_float3.
  rewrite (get_float_read iss (j1 0%nat) (j2 0%nat) H0).
  rewrite (get_float_stream iss f_1_0 (j2 0%nat)) in H1, H2.
  destruct (get_float iss (j2 0%nat)) as [x i1]. cbn [snd] in H1, H2.
  rewrite (get_float_read i1 (j1 1%nat) (j2 1%nat) H1).
  rewrite (get_float_stream i1 f_1_0 (j2 1%nat)) in H2.
  destruct (get_float i1 (j2 1%nat)) as [y i2]. cbn [snd] in H2.
  now rewrite (get_float_read i2 (j1 2%nat) (j2 2%nat) H2).
Qed.

Lemma get_float2_complete iss j1 j2 :
  fields_present 2 iss = true -> get_float2 iss j1 = get_float2 iss j2.
Proof.
  cbn [fields_present]. rewrite !andb_true_r. intros H.
  apply andb_prop in H as [H0 H1].
  unfold get_float2.
  rewrite (get_float_read iss (j1 0%nat) (j2 0%nat) H0).
  rewrite (get_float_stream iss f_1_0 (j2 0%nat)) in H1.
  destruct (get_float iss (j2 0%nat)) as [x i1]. cbn [snd] in H1.
  now rewrite (get_float_read i1 (j1 1%nat) (j2 1%nat) H1).
Qed.

(** A complete line is decoded alike whatever the locals hold. *)
Lemma LoadOBJ_line_locals fs filename j1 j2 line st :
  complete_line line = true ->
  LoadOBJ_line fs filename j1 line st = LoadOBJ_line fs filename j2 line st.
Proof.
  unfold complete_line, LoadOBJ_line. rewrite line_split. intros Hc.
  destruct (String.eqb (line_type line) "mtllib") eqn:E1; [reflexivity|].
  destruct (String.eqb (line_type line) "v") eqn:E2.
  { cbn [orb] in Hc. now rewrite (get_float3_complete _ j1 j2 Hc). }
  destruct (String.eqb (line_type line) "vn") eqn:E3.
  { cbn [orb] in Hc. now rewrite (get_float3_complete _ j1 j2 Hc). }
  cbn [orb] in Hc.
  destruct (String.eqb (line_type line) "vt") eqn:E4.
  { now rewrite (get_float2_complete _ j1 j2 Hc). }
  reflexivity.
Qed.

Lemma LoadOBJ_lines_locals fs filename junk1 junk2 lines :
  Forall (fun line => complete_line line = true) lines ->
  forall lineno st,
    LoadOBJ_lines fs filename junk1 lineno lines st
    = LoadOBJ_lines fs filename junk2 lineno lines st.
Proof.
  induction 1 as [|line rest Hc _ IH]; intros lineno st; cbn [LoadOBJ_lines].
  - reflexivity.
  - rewrite (LoadOBJ_line_locals fs filename (junk1 lineno) (junk2 lineno)
               line st Hc).
    destruct (LoadOBJ_line fs filename (junk2 lineno) line st);
      cbn [mbind outcome_bind]; trivial.
Qed.

(** ** The lines one after the other *)

Lemma LoadOBJ_lines_app fs filename junk l1 : forall l2 lineno st,
  LoadOBJ_lines fs filename junk lineno (l1 ++ l2) st
  = (st1 ← LoadOBJ_lines fs filename junk lineno l1 st;
     LoadOBJ_lines fs filename junk (lineno + length l1) l2 st1).
Proof.
  induction l1 as [|l l1 IH]; intros l2 lineno st; cbn [app LoadOBJ_lines length].
  - cbn [mbind outcome_bind mret outcome_ret]. now rewrite Nat.add_0_r.
  - destruct (LoadOBJ_line fs filename (junk lineno) l st);
      cbn [mbind outcome_bind]; trivial.
    rewrite IH. now replace (S lineno + length l1)%nat
                  with (lineno + S (length l1))%nat by lia.
Qed.

(** What a line does to the position pool and to the texture-coordinate
    pool. *)
Lemma LoadOBJ_line_pools fs filename junk line st st' :
  LoadOBJ_line fs filename junk line st = Ret st' ->
  positions (this st')
  = positions (this st)
    ++ (if String.eqb (line_type line) "v"
        then [get_float3 (after_type line) junk] else [])
  /\ texCoords (this st')
     = texCoords (this st)
       ++ (if String.eqb (line_type line) "vt"
           then [texcoord_of_line junk line] else []).
Proof.
  intros H. apply LoadOBJ_line_effect in H
    as [(Ht & Hp & _)
       |[(Ht & ->)|[(Ht & ->)|[(Ht & ->)|[(Ht & H)|H]]]]].
  - injection Hp as _ -> _ ->. rewrite Ht. cbn. now rewrite !app_nil_r.
  - rewrite Ht. cbn. now rewrite app_nil_r.
  - rewrite Ht. cbn. now rewrite !app_nil_r.
  - rewrite Ht. cbn. rewrite app_nil_r. split; reflexivity.
  - destruct H as (v1 & vt1 & vn1 & v2 & vt2 & vn2 & v3 & vt3 & vn3
                   & c0 & c1 & c2 & d & _ & _ & _ & ->).
    rewrite Ht. cbn. now rewrite !app_nil_r.
  - destruct H as (H1 & H2 & H3 & H4 & H5 & ->).
    apply String.eqb_neq in H2, H4. rewrite H2, H4. now rewrite !app_nil_r.
Qed.

Lemma LoadOBJ_line_normals fs filename junk line st st' :
  LoadOBJ_line fs filename junk line st = Ret st' ->
  normals (this st')
  = normals (this st)
    ++ (if String.eqb (line_type line) "vn"
        then [glm_normalize (get_float3 (after_type line) junk)] else []).
Proof.
  intros H. apply LoadOBJ_line_effect in H
    as [(Ht & Hp & _)
       |[(Ht & ->)|[(Ht & ->)|[(Ht & ->)|[(Ht & H)|H]]]]].
  - injection Hp as _ _ -> _. rewrite Ht. cbn. now rewrite app_nil_r.
  - rewrite Ht. cbn. now rewrite app_nil_r.
  - rewrite Ht. reflexivity.
  - rewrite Ht. cbn. now rewrite app_nil_r.
  - destruct H as (v1 & vt1 & vn1 & v2 & vt2 & vn2 & v3 & vt3 & vn3
                   & c0 & c1 & c2 & d & _ & _ & _ & ->).
    rewrite Ht. cbn. now rewrite app_nil_r.
  - destruct H as (H1 & H2 & H3 & H4 & H5 & ->).
    apply String.eqb_neq in H3. rewrite H3. now rewrite app_nil_r.
Qed.

Lemma LoadOBJ_lines_texCoords fs filename junk lines : forall lineno st st',
  LoadOBJ_lines fs filename junk lineno lines st = Ret st' ->
  texCoords (this st') = texCoords (this st) ++ texcoords_of junk lineno lines.
Proof.
  induction lines as [|line rest IH]; intros lineno st st';
    cbn [LoadOBJ_lines texcoords_of].
  - intros [= <-]. now rewrite app_nil_r.
  - intros H. apply bind_ret_inv in H as (st1 & H1 & H).
    apply LoadOBJ_line_pools in H1 as [_ H1]. apply IH in H.
    now rewrite H, H1, app_assoc.
Qed.

Lemma LoadOBJ_lines_positions_grow fs filename junk lines : forall lineno st st',
  LoadOBJ_lines fs filename junk lineno lines st = Ret st' ->
  exists more, positions (this st') = positions (this st) ++ more.
Proof.
  induction lines as [|line rest IH]; intros lineno st st'; cbn [LoadOBJ_lines].
  - intros [= <-]. exists []. now rewrite app_nil_r.
  - intros H. apply bind_ret_inv in H as (st1 & H1 & H).
    apply LoadOBJ_line_pools in H1 as [H1 _]. apply IH in H as [more H].
    eexists. rewrite H, H1, <- app_assoc. reflexivity.
Qed.

(** The entry a [v] line at a given place of the file leaves in the
    position pool of a decode that returns. *)
Lemma LoadOBJ_position_of_line fs junk m filename text before line after
    ok m' log :
  fs filename = Some text ->
  getlines text = before ++ line :: after ->
  line_type line = "v" ->
  LoadOBJ fs junk m filename = Ret (ok, m', log) ->
  positions m' !! count_type "v" before
  = Some (get_float3 (after_type line) (junk (length before))).
Proof.
  intros Hopen Hlines Ht. unfold LoadOBJ. rewrite Hopen, Hlines. intros H.
  apply bind_ret_inv in H as (st' & Hl & H).
  apply mret_inv in H. injection H as _ <- _.
  rewrite LoadOBJ_lines_app in Hl.
  apply bind_ret_inv in Hl as (st1 & Hb & Hl).
  cbn [LoadOBJ_lines] in Hl.
  apply bind_ret_inv in Hl as (st2 & H2 & Ha).
  apply LoadOBJ_lines_positions in Hb. cbn in Hb.
  apply LoadOBJ_line_pools in H2 as [H2 _]. rewrite Ht in H2. cbn in H2.
  apply LoadOBJ_lines_positions_grow in Ha as [more Ha].
  rewrite Ha, H2, <- app_assoc.
  rewrite lookup_app_r by lia.
  now replace (count_type "v" before - length (positions (this st1)))%nat
    with 0%nat by lia.
Qed.

End Locals.

(** ** Claims about the mesh decoder *)

Section MeshClaims.

Context {F : Floating}.

(** C3 (as amended).  [LoadOBJ] has no failure for a line whose numbers
    are absent or cannot be read.  A [v], [vn] or [vt] line, whatever
    follows its first token, does not end the call: the loop goes on with
    the next line, and every pool still begins with the entries it held
    before the line.  A file without [f] lines is decoded with return
    value [true].  What such a line adds to its pool is not stated
    here. *)
Theorem v_line_never_rejected (fs : filesystem) (junk : nat -> nat -> float)
    (m : OBJMesh) (filename text : string) :
  fs filename = Some text ->
  Forall (fun line => line_type line <> "f") (getlines text) ->
  (exists m' log, LoadOBJ fs junk m filename = Ret (true, m', log))
  /\ forall lineno line st,
       line_type line = "v" \/ line_type line = "vn" \/ line_type line = "vt" ->
       exists st',
         LoadOBJ_line fs filename (junk lineno) line st = Ret st'
         /\ (forall rest,
               LoadOBJ_lines fs filename junk lineno (line :: rest) st
               = LoadOBJ_lines fs filename junk (S lineno) rest st')
         /\ (exists added,
               positions (this st') = positions (this st) ++ added)
         /\ (exists added,
               normals (this st') = normals (this st) ++ added)
         /\ (exists added,
               texCoords (this st') = texCoords (this st) ++ added).
Proof.
  intros Hopen Hall. split.
  - unfold LoadOBJ. rewrite Hopen.
    destruct (LoadOBJ_lines_returns fs filename junk 0%nat (getlines text)
                (mk_loop_state (clear_pools m) EmptyString 0 0 0
                   [cout_loading_obj filename]) Hall) as [st' Hl].
    rewrite Hl. eexists _, _. reflexivity.
  - intros lineno line st Ht.
    destruct (LoadOBJ_line_returns fs filename (junk lineno) line st)
      as [st' H]; [destruct Ht as [->|[->| ->]]; discriminate|].
    exists st'. split; [exact H|].
    pose proof (LoadOBJ_line_pools _ _ _ _ _ _ H) as [Hp Htc].
    pose proof (LoadOBJ_line_normals _ _ _ _ _ _ H) as Hn.
    split; [|split; [|split]].
    + intros rest. cbn [LoadOBJ_lines]. rewrite H. reflexivity.
    + eexists. exact Hp.
    + eexists. exact Hn.
    + eexists. exact Htc.
Qed.

(** C6.  The texture-coordinate pool of a decode that returns is the list
    of the pairs of the [vt] lines of the file, in their order, each pair
    as the two extractions stored it; and a [vt] line appends the pair
    [(s, t)] to the pool and leaves the other pools and the triangles as
    they were. *)
Theorem vt_line_appends_unmodified (fs : filesystem)
    (junk : nat -> nat -> float) (m m' : OBJMesh) (filename text : string)
    (ok : bool) (log : list event) :
  fs filename = Some text ->
  LoadOBJ fs junk m filename = Ret (ok, m', log) ->
  texCoords m' = texcoords_of junk 0 (getlines text)
  /\ forall lineno line st s t iss1 iss2,
       line_type line = "vt" ->
       get_float (after_type line) (junk lineno 0%nat) = (s, iss1) ->
       get_float iss1 (junk lineno 1%nat) = (t, iss2) ->
       exists st',
         LoadOBJ_line fs filename (junk lineno) line st = Ret st'
         /\ texCoords (this st') = texCoords (this st) ++ [(s, t)]
         /\ positions (this st') = positions (this st)
         /\ normals (this st') = normals (this st)
         /\ m_triangles (this st') = m_triangles (this st).
Proof.
  intros Hopen H. split.
  - unfold LoadOBJ in H. rewrite Hopen in H.
    apply bind_ret_inv in H as (st' & Hl & H).
    apply mret_inv in H. injection H as _ <- _.
    apply LoadOBJ_lines_texCoords in Hl. exact Hl.
  - intros lineno line st s t iss1 iss2 Ht Hs Hq.
    destruct (LoadOBJ_line_returns fs filename (junk lineno) line st)
      as [st' Hr]; [rewrite Ht; discriminate|].
    exists st'. split; [exact Hr|].
    pose proof (LoadOBJ_line_pools _ _ _ _ _ _ Hr) as [Hp Htc].
    pose proof (LoadOBJ_line_sizes _ _ _ _ _ _ Hr) as (Hn & _ & Hf & _).
    rewrite Ht in Hp, Htc. cbn in Hp, Htc. rewrite app_nil_r in Hp.
    unfold texcoord_of_line in Htc. rewrite Hs, Hq in Htc.
    split; [exact Htc|]. split; [exact Hp|].
    apply LoadOBJ_line_effect in Hr
      as [(Ht' & _)|[(Ht' & _)|[(Ht' & _)|[(_ & ->)|[(Ht' & _)|(_ & _ & _ & Ht' & _)]]]]];
      try (rewrite Ht in Ht'; discriminate Ht'); try contradiction.
    split; reflexivity.
Qed.

(** C10.  The pools and the triangle list are cleared first, and what the
    object held makes no difference; but two runs on the same file are not
    bound to agree.  When a [v] line leaves [z] unread, the entry it
    appends holds the local [z] as it was declared, and two runs in which
    that local differs return different position pools. *)
Theorem LoadOBJ_runs_can_differ (fs : filesystem)
    (junk1 junk2 : nat -> nat -> float) (m1 m2 : OBJMesh)
    (filename text : string) (before : list string) (line : string)
    (after : list string) (x y : float) (iss1 iss2 : istream)
    (ok1 ok2 : bool) (r1 r2 : OBJMesh) (log1 log2 : list event) :
  fs filename = Some text ->
  getlines text = before ++ line :: after ->
  line_type line = "v" ->
  get_float (after_type line) (junk1 (length before) 0%nat) = (x, iss1) ->
  get_float iss1 (junk1 (length before) 1%nat) = (y, iss2) ->
  fst (sentry iss2) = false ->
  junk1 (length before) 2%nat <> junk2 (length before) 2%nat ->
  LoadOBJ fs junk1 m1 filename = Ret (ok1, r1, log1) ->
  LoadOBJ fs junk2 m2 filename = Ret (ok2, r2, log2) ->
  decoded (LoadOBJ fs junk1 m1 filename) = decoded (LoadOBJ fs junk1 m2 filename)
  /\ positions r1 <> positions r2.
Proof.
  intros Hopen Hlines Ht Hx Hy Hs Hj H1 H2. split.
  - clear H1 H2. unfold LoadOBJ. rewrite Hopen.
    set (st1 := mk_loop_state (clear_pools m1) _ _ _ _ _).
    set (st2 := mk_loop_state (clear_pools m2) _ _ _ _ _).
    assert (Hp : pools (this st1) = pools (this st2)) by reflexivity.
    pose proof (LoadOBJ_lines_agree fs filename junk1 0%nat (getlines text)
                  st1 st2 Hp) as Ha.
    destruct (LoadOBJ_lines fs filename junk1 0 (getlines text) st1) as [a| | |],
             (LoadOBJ_lines fs filename junk1 0 (getlines text) st2) as [b| | |];
      simpl in *; try contradiction; try congruence; trivial.
  - intros Heq.
    pose proof (LoadOBJ_position_of_line fs junk1 m1 filename text before line
                  after ok1 r1 log1 Hopen Hlines Ht H1) as E1.
    pose proof (LoadOBJ_position_of_line fs junk2 m2 filename text before line
                  after ok2 r2 log2 Hopen Hlines Ht H2) as E2.
    rewrite (get_float3_third_unread _ _ _ _ _ _ Hx Hy Hs) in E1.
    destruct (get_float3_third_unread_other _ _ (junk2 (length before))
                _ _ _ _ Hx Hy Hs) as (x' & y' & E).
    rewrite E in E2. rewrite Heq, E2 in E1. injection E1 as _ _ Hz.
    now apply Hj.
Qed.

End MeshClaims.

(** ** The mesh file and the other files *)

Section OtherFiles.

Context {F : Floating}.

(** *** The material file has no part in the geometry *)

Lemma LoadOBJ_line_agree_files fs1 fs2 filename junk line st1 st2 :
  pools (this st1) = pools (this st2) ->
  agree (LoadOBJ_line fs1 filename junk line st1)
        (LoadOBJ_line fs2 filename junk line st2).
Proof.
  intros Hp. pose proof Hp as [= Htr Hpo Hno Htc].
  unfold LoadOBJ_line. rewrite line_split.
  destruct (String.eqb (line_type line) "mtllib").
  { destruct (get_string _ (mtlFile st1)) as [mtl1 iss1].
    destruct (get_string _ (mtlFile st2)) as [mtl2 iss2].
    destruct (directory_of_ret filename) as [d ->]. cbn [mbind outcome_bind].
    destruct (LoadMTL_pools fs1 (d ++ mtl1)%string (this st1) (out st1))
      as (ok1 & m1 & o1 & -> & Hp1).
    destruct (LoadMTL_pools fs2 (d ++ mtl2)%string (this st2) (out st2))
      as (ok2 & m2 & o2 & -> & Hp2).
    simpl. congruence. }
  destruct (String.eqb (line_type line) "v").
  { destruct (get_float3 _ _) as [[x y] z]. simpl. unfold pools. simpl.
    congruence. }
  destruct (String.eqb (line_type line) "vn").
  { destruct (get_float3 _ _) as [[x y] z]. simpl. unfold pools. simpl.
    congruence. }
  destruct (String.eqb (line_type line) "vt").
  { destruct (get_float2 _ _) as [x y]. simpl. unfold pools. simpl.
    congruence. }
  destruct (String.eqb (line_type line) "f"); [|exact Hp].
  destruct (get_string3 _) as [[t1 t2] t3].
  rewrite !(ParseVertexIndices_pools (this st1) (this st2)) by exact Hp.
  destruct (ParseVertexIndices (this st2) t1) as [[[[v1 vt1] vn1] d1]| | |];
    simpl; trivial.
  destruct (ParseVertexIndices (this st2) t2) as [[[[v2 vt2] vn2] d2]| | |];
    simpl; trivial.
  destruct (ParseVertexIndices (this st2) t3) as [[[[v3 vt3] vn3] d3]| | |];
    simpl; trivial.
  rewrite !(corner_pools (this st1) (this st2)) by exact Hp.
  destruct (corner (this st2) v1 vt1 vn1); simpl; trivial.
  destruct (corner (this st2) v2 vt2 vn2); simpl; trivial.
  destruct (corner (this st2) v3 vt3 vn3); simpl; trivial.
  unfold pools. simpl. congruence.
Qed.

Lemma LoadOBJ_lines_agree_files fs1 fs2 filename junk lineno lines st1 st2 :
  pools (this st1) = pools (this st2) ->
  agree (LoadOBJ_lines fs1 filename junk lineno lines st1)
        (LoadOBJ_lines fs2 filename junk lineno lines st2).
Proof.
  revert lineno st1 st2.
  induction lines as [|line rest IH]; intros lineno st1 st2 Hp;
    cbn [LoadOBJ_lines].
  - exact Hp.
  - pose proof (LoadOBJ_line_agree_files fs1 fs2 filename (junk lineno)
                  line st1 st2 Hp) as Ha.
    destruct (LoadOBJ_line fs1 filename (junk lineno) line st1) as [a| | |],
             (LoadOBJ_line fs2 filename (junk lineno) line st2) as [b| | |];
      simpl in *; try contradiction; trivial.
    now apply IH.
Qed.

(** X5.  Other files have no part in the geometry: two file systems that
    agree on the mesh file give the same flag, triangles and pools,
    whatever the object held, when the locals hold the same in both runs.
    And when no line of the file leaves a local unset (every [v] and [vn]
    line has three fields to read and every [vt] line two), the result is
    the same whatever the locals hold: it depends on the text of the mesh
    file alone. *)
Theorem LoadOBJ_geometry_ignores_other_files (fs1 fs2 : filesystem)
    (junk1 junk2 : nat -> nat -> float) (m1 m2 : OBJMesh)
    (filename text : string) :
  fs1 filename = Some text ->
  fs2 filename = Some text ->
  decoded (LoadOBJ fs1 junk1 m1 filename) = decoded (LoadOBJ fs2 junk1 m2 filename)
  /\ (Forall (fun line => complete_line line = true) (getlines text) ->
      decoded (LoadOBJ fs1 junk1 m1 filename)
      = decoded (LoadOBJ fs2 junk2 m2 filename)).
Proof.
  intros H1 H2.
  assert (Hsame : forall junk,
             decoded (LoadOBJ fs1 junk m1 filename)
             = decoded (LoadOBJ fs2 junk m2 filename)).
  { intros junk. unfold LoadOBJ. rewrite H1, H2.
    set (st1 := mk_loop_state (clear_pools m1) _ _ _ _ _).
    set (st2 := mk_loop_state (clear_pools m2) _ _ _ _ _).
    assert (Hp : pools (this st1) = pools (this st2)) by reflexivity.
    pose proof (LoadOBJ_lines_agree_files fs1 fs2 filename junk 0%nat
                  (getlines text) st1 st2 Hp) as Ha.
    destruct (LoadOBJ_lines fs1 filename junk 0 (getlines text) st1) as [a| | |],
             (LoadOBJ_lines fs2 filename junk 0 (getlines text) st2) as [b| | |];
      simpl in *; try contradiction; try congruence; trivial. }
  split; [apply Hsame|].
  intros Hall. rewrite (Hsame junk1).
  unfold LoadOBJ. rewrite H2.
  now rewrite (LoadOBJ_lines_locals fs2 filename junk1 junk2 _ Hall).
Qed.

(** *** Faces with too few or unreadable tokens *)

Lemma ParseVertexIndices_empty m :
  ParseVertexIndices m EmptyString = Throws invalid_argument.
Proof. reflexivity. Qed.

(** X6.  A face line with only two vertex tokens: the third token is the
    empty string, [std::stoi] throws [std::invalid_argument] on it, and
    nothing catches the exception. *)
Theorem face_with_two_tokens_throws (fs : filesystem) (filename : string)
    (junk : nat -> float) (line : string) (st : loop_state)
    (t1 t2 : string) (r1 r2 : Z * Z * Z * list event) :
  line_type line = "f" ->
  get_string3 (after_type line) = (t1, t2, EmptyString) ->
  ParseVertexIndices (this st) t1 = Ret r1 ->
  ParseVertexIndices (this st) t2 = Ret r2 ->
  LoadOBJ_line fs filename junk line st = Throws invalid_argument.
Proof.
  intros Ht Htok P1 P2.
  rewrite (f_line fs filename junk line st Ht), Htok, P1, P2.
  destruct r1 as [[[v1 vt1] vn1] d1], r2 as [[[v2 vt2] vn2] d2].
  reflexivity.
Qed.

(** *** The tokens that are read as the format means them *)

(** X7.  A token [v/vt/vn] whose texture-coordinate index is in the pool
    gives the three indices, each one less than written, and no
    warning. *)
Theorem ParseVertexIndices_v_vt_vn (m : OBJMesh) (a b c : string)
    (v w u : Z) :
  has_char "/" a = false ->
  has_char "/" b = false ->
  size (a ++ String "/" (b ++ String "/" c))%string < npos ->
  stoi a = Ret v -> in_int (v - 1) = true ->
  stoi b = Ret w -> in_int (w - 1) = true ->
  stoi c = Ret u -> in_int (u - 1) = true ->
  0 <= w - 1 < Z.of_nat (length (texCoords m)) ->
  ParseVertexIndices m (a ++ String "/" (b ++ String "/" c))%string
  = Ret (v - 1, w - 1, u - 1, []).
Proof.
  intros Ha Hb Hsz Hv Hv1 Hw Hw1 Hu Hu1 Hin.
  rewrite (ParseVertexIndices_three m a b c Ha Hb Hsz), Hv, Hw, Hu.
  unfold int_result. cbn [mbind outcome_bind]. rewrite Hv1.
  cbn [mbind outcome_bind].
  destruct b as [|xb b]; [discriminate Hw|]. cbn [empty mbind outcome_bind].
  rewrite Hw1. cbn [mbind outcome_bind].
  destruct c as [|xc c]; [discriminate Hu|]. cbn [empty mbind outcome_bind].
  rewrite Hu1. cbn [mbind outcome_bind].
  apply in_int_bounds in Hw1.
  rewrite to_size_t_nonneg by lia.
  now replace (_ <=? w - 1) with false by (symmetry; apply Z.leb_gt; lia).
Qed.

(** X8.  Whatever the token, the texture-coordinate index [ParseVertexIndices]
    returns can be used on a pool that is not empty: it lies inside the
    pool. *)
Theorem ParseVertexIndices_texcoord_usable (m : OBJMesh) (tok : string)
    (v vt vn : Z) (d : list event) :
  fits (texCoords m) -> texCoords m <> [] ->
  ParseVertexIndices m tok = Ret (v, vt, vn, d) ->
  0 <= vt < Z.of_nat (length (texCoords m)).
Proof.
  intros Hfit Hne H.
  assert (0 < Z.of_nat (length (texCoords m)))
    by (destruct (texCoords m); [congruence | simpl; lia]).
  destruct (ParseVertexIndices_clamp m tok v vt vn d Hfit H)
    as [[_ [?|[-> _]]]|(i & _ & -> & _)]; lia.
Qed.

End OtherFiles.

(** ** Directories *)

(** ** Paths *)

Lemma append_String_assoc a c b :
  (a ++ String c b)%string = ((a ++ String c EmptyString) ++ b)%string.
Proof. induction a as [|x a IH]; simpl; [reflexivity | now rewrite IH]. Qed.

Lemma has_sep_String c s :
  has_sep (String c s) = is_sep c || has_sep s.
Proof.
  unfold has_sep, is_sep. simpl.
  destruct (Ascii.eqb c "/"), (Ascii.eqb c "\"), (has_char "/" s); reflexivity.
Qed.

Lemma find_last_sep_none s : forall i last,
  has_sep s = false -> find_last_sep_at i s last = last.
Proof.
  induction s as [|c s IH]; intros i last H; simpl; [reflexivity|].
  rewrite has_sep_String in H. apply orb_false_elim in H as [Hc Hs].
  unfold is_sep in Hc. rewrite Hc. now apply IH.
Qed.

Lemma find_last_sep_app a : forall b i last,
  find_last_sep_at i (a ++ b)%string last
  = find_last_sep_at (i + size a) b (find_last_sep_at i a last).
Proof.
  induction a as [|c a IH]; intros b i last; simpl.
  - unfold size. simpl. now rewrite Z.add_0_r.
  - rewrite IH, size_String. f_equal. lia.
Qed.

(** X9.  The directory of a path is the path up to and including its last
    separator, [/] or [\]. *)
Theorem directory_of_splits (dir base : string) (sep : ascii) :
  is_sep sep = true ->
  has_sep base = false ->
  size (dir ++ String sep base)%string < npos ->
  directory_of (dir ++ String sep base)%string
  = Ret (dir ++ String sep EmptyString)%string.
Proof.
  intros Hsep Hbase Hsz.
  pose proof (size_nonneg dir) as Hd. pose proof (size_nonneg base) as Hb.
  rewrite size_append, size_String in Hsz.
  assert (Hnpos : npos = size_t_modulus - 1) by reflexivity.
  assert (Hmod : size_t_modulus = 2 ^ 64) by reflexivity.
  unfold directory_of, find_last_of_sep.
  rewrite find_last_sep_app. cbn [find_last_sep_at].
  unfold is_sep in Hsep. rewrite Hsep.
  rewrite find_last_sep_none by exact Hbase.
  replace (0 + size dir =? npos) with false by (symmetry; apply Z.eqb_neq; lia).
  rewrite to_size_t_small by lia.
  unfold substr. rewrite size_append, size_String.
  replace (_ <? 0) with false by (symmetry; apply Z.ltb_ge; lia).
  rewrite Z.min_l by lia. f_equal.
  replace (Z.to_nat (0 + size dir + 1))
    with (String.length (dir ++ String sep EmptyString)%string).
  2:{ clear. unfold size. induction dir; simpl in *; lia. }
  rewrite (append_String_assoc dir sep base).
  apply substring_prefix.
Qed.

(** X10.  A path without a separator has the empty directory. *)
Theorem directory_of_bare (base : string) :
  has_sep base = false -> directory_of base = Ret EmptyString.
Proof.
  intros H. unfold directory_of, find_last_of_sep.
  now rewrite find_last_sep_none.
Qed.

(** ** The material file *)

Section MaterialFile.

Context {F : Floating}.

(** What a line of the material file changes. *)
Lemma LoadMTL_line_effect path line m o m' o' :
  LoadMTL_line path line (m, o) = Ret (m', o') ->
  pools m' = pools m /\ m_textureID m' = m_textureID m
  /\ ((line_type line = "map_Kd"
       /\ exists dir,
            directory_of path = Ret dir
            /\ diffuseTexture (m_material m')
               = fst (get_string (after_type line)
                        (diffuseTexture (m_material m)))
            /\ m_pendingTexturePath m'
               = (dir ++ diffuseTexture (m_material m'))%string)
      \/ (line_type line <> "map_Kd"
          /\ diffuseTexture (m_material m') = diffuseTexture (m_material m)
          /\ m_pendingTexturePath m' = m_pendingTexturePath m)).
Proof.
  unfold LoadMTL_line. rewrite line_split.
  destruct (String.eqb (line_type line) "newmtl") eqn:E1.
  { apply String.eqb_eq in E1.
    destruct (get_string _ _) as [nm iss]. intros [= <- <-].
    repeat split; trivial. right. rewrite E1. repeat split; trivial.
    discriminate. }
  destruct (String.eqb (line_type line) "map_Kd") eqn:E2.
  { apply String.eqb_eq in E2.
    destruct (get_string (after_type line) _) as [tex iss] eqn:Eg.
    destruct (directory_of_ret path) as [dir Hdir]. rewrite Hdir.
    intros [= <- <-]. repeat split; trivial. left. split; [exact E2|].
    exists dir. repeat split; trivial. }
  apply String.eqb_neq in E2.
  intros [= <- <-]. repeat split; trivial. right. repeat split; trivial.
Qed.

Lemma LoadMTL_lines_app path l1 : forall l2 st,
  LoadMTL_lines path (l1 ++ l2) st
  = (st1 ← LoadMTL_lines path l1 st; LoadMTL_lines path l2 st1).
Proof.
  induction l1 as [|l l1 IH]; intros l2 st; cbn [app LoadMTL_lines].
  - reflexivity.
  - destruct (LoadMTL_line path l st); cbn [mbind outcome_bind]; trivial.
Qed.

(** Lines that are no [map_Kd] lines keep the texture path. *)
Lemma LoadMTL_lines_keep path lines : forall m o m' o',
  Forall (fun l => line_type l <> "map_Kd") lines ->
  LoadMTL_lines path lines (m, o) = Ret (m', o') ->
  pools m' = pools m /\ m_textureID m' = m_textureID m
  /\ diffuseTexture (m_material m') = diffuseTexture (m_material m)
  /\ m_pendingTexturePath m' = m_pendingTexturePath m.
Proof.
  induction lines as [|l lines IH]; intros m o m' o' Hall;
    cbn [LoadMTL_lines].
  - intros [= <- <-]. auto.
  - intros H. apply bind_ret_inv in H as ([m1 o1] & H1 & H).
    apply Forall_cons in Hall as [Hl Hall].
    apply LoadMTL_line_effect in H1 as (Hp1 & Hi1 & [[Hty _]|(_ & Hd1 & Hq1)]);
      [contradiction|].
    apply (IH _ _ _ _ Hall) in H as (Hp & Hi & Hd & Hq).
    repeat split; congruence.
Qed.

Lemma LoadMTL_lines_textureID path lines : forall m o m' o',
  LoadMTL_lines path lines (m, o) = Ret (m', o') ->
  m_textureID m' = m_textureID m.
Proof.
  induction lines as [|l lines IH]; intros m o m' o'; cbn [LoadMTL_lines].
  - now intros [= <- _].
  - intros H. apply bind_ret_inv in H as ([m1 o1] & H1 & H).
    apply LoadMTL_line_effect in H1 as (_ & Hi1 & _).
    apply IH in H. congruence.
Qed.

(** X11.  [LoadMTL] always returns, [true] exactly when the file could be
    opened; it leaves the pools, the triangles and the texture id as they
    were, and without a [map_Kd] line (or without a file) the pending
    texture path too. *)
Theorem LoadMTL_returns (fs : filesystem) (path : string) (m : OBJMesh)
    (o : list event) :
  exists ok m' o',
    LoadMTL fs path (m, o) = Ret (ok, (m', o'))
    /\ ok = bool_decide (is_Some (fs path))
    /\ pools m' = pools m
    /\ m_textureID m' = m_textureID m
    /\ (match fs path with
        | None => True
        | Some text =>
            Forall (fun l => line_type l <> "map_Kd") (getlines text)
        end ->
        m_pendingTexturePath m' = m_pendingTexturePath m).
Proof.
  unfold LoadMTL. destruct (fs path) as [text|].
  - destruct (LoadMTL_lines_pools path (getlines text) m
                ((o ++ [cout_attempt_mtl path]) ++ [cout_opened_mtl]))
      as (m' & o' & H & Hp).
    rewrite H. exists true, m', o'. split; [reflexivity|].
    split; [reflexivity|]. split; [exact Hp|].
    pose proof H as H'. split.
    + now apply LoadMTL_lines_textureID in H.
    + intros Hall. now apply (LoadMTL_lines_keep _ _ _ _ _ _ Hall) in H'.
  - exists false, m, ((o ++ [cout_attempt_mtl path])
                      ++ [cerr_failed_open_mtl path]).
    repeat split; trivial.
Qed.

(** X12.  The last [map_Kd] line of the material file decides the pending
    texture: its path is the directory of the material file followed by
    the token of that line. *)
Theorem LoadMTL_last_map_Kd_wins (fs : filesystem) (path text : string)
    (m : OBJMesh) (o : list event) (before after : list string)
    (line tex dir : string) :
  fs path = Some text ->
  getlines text = before ++ line :: after ->
  line_type line = "map_Kd" ->
  (forall old, fst (get_string (after_type line) old) = tex) ->
  Forall (fun l => line_type l <> "map_Kd") after ->
  directory_of path = Ret dir ->
  exists m' o',
    LoadMTL fs path (m, o) = Ret (true, (m', o'))
    /\ diffuseTexture (m_material m') = tex
    /\ m_pendingTexturePath m' = (dir ++ tex)%string.
Proof.
  intros Hopen Hlines Hty Htex Hafter Hdir.
  unfold LoadMTL. rewrite Hopen, Hlines, LoadMTL_lines_app.
  destruct (LoadMTL_lines_pools path before m
              ((o ++ [cout_attempt_mtl path]) ++ [cout_opened_mtl]))
    as (m1 & o1 & -> & _).
  cbn [mbind outcome_bind LoadMTL_lines].
  destruct (LoadMTL_line_pools path line m1 o1) as (m2 & o2 & H2 & _).
  rewrite H2. cbn [mbind outcome_bind].
  destruct (LoadMTL_lines_pools path after m2 o2) as (m3 & o3 & H3 & _).
  rewrite H3. exists m3, o3. split; [reflexivity|].
  apply LoadMTL_line_effect in H2
    as (_ & _ & [(_ & d & Hd & Hdt & Hq)|[Hne _]]); [|contradiction].
  apply (LoadMTL_lines_keep _ _ _ _ _ _ Hafter) in H3 as (_ & _ & Hd3 & Hq3).
  rewrite Hdir in Hd. injection Hd as <-.
  rewrite Htex in Hdt. split; congruence.
Qed.

End MaterialFile.

(** * Shader files *)

Lemma append_assoc (a b c : string) :
  ((a ++ b) ++ c)%string = (a ++ (b ++ c))%string.
Proof. induction a as [|x a IH]; simpl; [reflexivity | now rewrite IH]. Qed.

Lemma append_empty_r (a : string) : (a ++ EmptyString)%string = a.
Proof. induction a as [|x a IH]; simpl; [reflexivity | now rewrite IH]. Qed.

Lemma empty_append_char a c : empty (a ++ String c EmptyString)%string = false.
Proof. now destruct a. Qed.

(** The lines of a text, put together again, are the text, with a newline
    added when its last line has none. *)
Lemma join_getlines_from s : forall cur,
  join_lines (getlines_from cur s)
  = (cur ++ s
     ++ if ends_at_line_start (empty cur) s then EmptyString
        else String newline EmptyString)%string.
Proof.
  induction s as [|a r IH]; intros cur; cbn [getlines_from ends_at_line_start].
  - destruct cur as [|c cur]; reflexivity.
  - unfold newline in *. destruct (Ascii.eqb a "010") eqn:E.
    + apply Ascii.eqb_eq in E. subst a.
      cbn [join_lines]. rewrite IH. simpl. reflexivity.
    + rewrite IH, empty_append_char, append_assoc. reflexivity.
Qed.

Lemma fold_join lines : forall acc,
  fold_left (fun result line =>
               (result ++ (line ++ String newline EmptyString))%string)
    lines acc
  = (acc ++ join_lines lines)%string.
Proof.
  induction lines as [|l ls IH]; intros acc; simpl.
  - now rewrite append_empty_r.
  - rewrite IH, !append_assoc. reflexivity.
Qed.

(** X13.  [LoadShaderAsString] returns the text of the file, with a newline
    added at the end when the last line has none; the empty string for a
    file that cannot be opened. *)
Theorem LoadShaderAsString_text (fs : filesystem) (filename : string) :
  LoadShaderAsString fs filename
  = match fs filename with
    | Some text =>
        if ends_at_line_start true text then text
        else (text ++ String newline EmptyString)%string
    | None => EmptyString
    end.
Proof.
  unfold LoadShaderAsString. destruct (fs filename) as [text|]; [|reflexivity].
  rewrite fold_join. simpl. unfold getlines.
  rewrite join_getlines_from. simpl.
  destruct (ends_at_line_start true text); [apply append_empty_r | reflexivity].
Qed.

Lemma getlines_from_line line : forall cur rest,
  has_char newline line = false ->
  getlines_from cur (line ++ String newline rest)%string
  = (cur ++ line)%string :: getlines_from EmptyString rest.
Proof.
  induction line as [|a line IH]; intros cur rest H; simpl in *.
  - now rewrite append_empty_r.
  - apply orb_false_elim in H as [Ha Hl]. unfold newline in Ha. rewrite Ha.
    rewrite IH by exact Hl. now rewrite append_assoc.
Qed.

(** X14.  A text made of lines that each end in a newline is read back as
    these lines, in their order: the loop over [std::getline] sees every
    line once, also an empty one. *)
Theorem getlines_join_lines (lines : list string) :
  Forall (fun line => has_char newline line = false) lines ->
  getlines (join_lines lines) = lines.
Proof.
  unfold getlines. induction 1 as [|line rest Hl _ IH]; simpl.
  - reflexivity.
  - rewrite getlines_from_line by exact Hl. simpl. now rewrite IH.
Qed.

(** * Image files *)

(** ** Streams: what is left after reading *)

Lemma drop_chars_drop k : forall n s,
  drop_chars k (drop_chars n s) = drop_chars (n + k) s.
Proof.
  intros n. revert k. induction n as [|n IH]; intros k s; simpl.
  - reflexivity.
  - destruct s as [|a s]; [now destruct k | apply IH].
Qed.

Lemma drop_chars_min n s :
  drop_chars (Nat.min n (String.length s)) s = drop_chars n s.
Proof.
  revert s; induction n as [|n IH]; intros s; simpl; [reflexivity|].
  destruct s as [|a s]; simpl; [reflexivity | apply IH].
Qed.

Lemma suffix_refl s : suffix s s.
Proof. now exists 0%nat. Qed.

Lemma suffix_tail r a s : suffix r s -> suffix r (String a s).
Proof. intros [k ->]. now exists (S k). Qed.

Lemma suffix_trans r s t : suffix r s -> suffix s t -> suffix r t.
Proof. intros [k ->] [n ->]. exists (n + k)%nat. apply drop_chars_drop. Qed.

Lemma suffix_app a s : suffix s (a ++ s)%string.
Proof.
  induction a as [|x a IH]; simpl; [apply suffix_refl | now apply suffix_tail].
Qed.

Lemma pending_advance_to i r :
  suffix r (pending i) -> pending (advance_to i r) = r.
Proof.
  intros [k ->]. unfold pending, advance_to. simpl.
  rewrite drop_chars_drop, drop_chars_length.
  replace (String.length (content i) - (String.length (content i) - (offset i + k)))%nat
    with (Nat.min (offset i + k) (String.length (content i))) by lia.
  apply drop_chars_min.
Qed.

Lemma stream_at_good i s : stream_at i s false -> good i = true.
Proof. intros (_ & Hf & Hb & He). unfold good. now rewrite Hf, Hb, He. Qed.

Lemma stream_at_not_failed i s e : stream_at i s e -> fail i = false.
Proof. intros (_ & Hf & Hb & _). unfold fail. now rewrite Hf, Hb. Qed.

Lemma stream_at_advance i s r :
  stream_at i s false -> suffix r s -> stream_at (advance_to i r) r false.
Proof.
  intros (Hp & Hf & Hb & He) Hs. subst s.
  split; [now apply pending_advance_to | auto].
Qed.

Lemma stream_at_open s : stream_at (open_stream s) s false.
Proof. repeat split. Qed.

(** ** Streams: reading tokens *)

Lemma skip_ws_app ws s :
  all_chars isspace ws = true -> starts_with isspace s = false ->
  skip_ws (ws ++ s)%string = s.
Proof.
  induction ws as [|a ws IH]; simpl; intros Hw Hs.
  - destruct s as [|b s]; [reflexivity|]. simpl in *. now rewrite Hs.
  - apply andb_prop in Hw as [-> Hw]. now apply IH.
Qed.

Lemma read_word_app w rest :
  all_chars (fun c => negb (isspace c)) w = true ->
  rest = EmptyString \/ starts_with isspace rest = true ->
  read_word (w ++ rest)%string = (w, rest).
Proof.
  induction w as [|a w IH]; simpl; intros Hw Hr.
  - destruct Hr as [->|Hr]; [reflexivity|].
    destruct rest as [|b rest]; [reflexivity|]. simpl in *. now rewrite Hr.
  - apply andb_prop in Hw as [Ha Hw]. apply negb_true_iff in Ha.
    now rewrite Ha, IH.
Qed.

Lemma read_digits_app ds : forall acc seen rest,
  all_chars isdigit ds = true -> starts_with isdigit rest = false ->
  read_digits acc seen (ds ++ rest)%string
  = (decimal_onto acc ds, seen || negb (empty ds), rest).
Proof.
  induction ds as [|a ds IH]; simpl; intros acc seen rest Hd Hr.
  - rewrite orb_false_r. destruct rest as [|b rest]; [reflexivity|].
    simpl in *. now rewrite Hr.
  - apply andb_prop in Hd as [-> Hd]. rewrite IH by assumption.
    simpl. now rewrite orb_true_r.
Qed.

Lemma starts_with_digits p ds rest :
  ds <> EmptyString -> starts_with p (ds ++ rest)%string = starts_with p ds.
Proof. now destruct ds. Qed.

Lemma digit_not_space c : isdigit c = true -> isspace c = false.
Proof.
  unfold isdigit, isspace. intros H. apply andb_prop in H as [H1 H2].
  apply Z.leb_le in H1, H2.
  rewrite (proj2 (Z.eqb_neq _ _)) by lia.
  cut ((char_code c <=? 13) = false); [intros ->; apply andb_false_r|].
  apply Z.leb_gt. lia.
Qed.

Lemma digit_not_sign c s :
  isdigit c = true -> read_sign (String c s) = (false, String c s).
Proof.
  intros H. destruct (Ascii.eqb c "-") eqn:E1.
  { apply Ascii.eqb_eq in E1. now subst c. }
  destruct (Ascii.eqb c "+") eqn:E2.
  { apply Ascii.eqb_eq in E2. now subst c. }
  apply Ascii.eqb_neq in E1, E2. simpl.
  destruct c as [[] [] [] [] [] [] [] []]; try reflexivity; congruence.
Qed.

Lemma decimal_onto_nonneg s : forall acc,
  all_chars isdigit s = true -> 0 <= acc -> 0 <= decimal_onto acc s.
Proof.
  induction s as [|c s IH]; simpl; intros acc Hs Hacc; [exact Hacc|].
  apply andb_prop in Hs as [Hc Hs]. apply IH; [exact Hs|].
  unfold isdigit in Hc. apply andb_prop in Hc as [H1 _].
  apply Z.leb_le in H1. unfold digit_value. lia.
Qed.

(** [is >> str] on white space, a word, and something that ends the
    word. *)
Lemma get_string_at i ws w rest old :
  stream_at i (ws ++ w ++ rest)%string false ->
  all_chars isspace ws = true ->
  all_chars (fun c => negb (isspace c)) w = true -> w <> EmptyString ->
  rest = EmptyString \/ starts_with isspace rest = true ->
  exists i', get_string i old = (w, i') /\ stream_at i' rest (empty rest).
Proof.
  intros Hat Hws Hw Hne Hrest.
  pose proof (stream_at_good _ _ Hat) as Hg. destruct Hat as (Hp & Hf & Hb & He).
  unfold get_string, sentry. rewrite Hg, Hp.
  assert (Hsw : starts_with isspace (w ++ rest)%string = false).
  { destruct w as [|a w]; [congruence|]. simpl in *.
    apply andb_prop in Hw as [Ha _]. now apply negb_true_iff in Ha. }
  rewrite skip_ws_app by assumption.
  assert (He1 : empty (w ++ rest)%string = false) by now destruct w.
  rewrite He1.
  assert (Hp1 : pending (advance_to i (w ++ rest)%string) = (w ++ rest)%string).
  { apply pending_advance_to. rewrite Hp. apply suffix_app. }
  rewrite Hp1, read_word_app by assumption.
  eexists. split; [reflexivity|].
  assert (Hp2 : pending (advance_to (advance_to i (w ++ rest)%string) rest) = rest).
  { apply pending_advance_to. rewrite Hp1. apply suffix_app. }
  destruct (empty rest); repeat split; simpl; trivial.
Qed.

(** [is >> n] on white space, digits, and something that is no digit. *)
Lemma extract_int_at i ws ds rest :
  stream_at i (ws ++ ds ++ rest)%string false ->
  all_chars isspace ws = true ->
  digits ds -> starts_with isdigit rest = false ->
  decimal ds <= INT_MAX ->
  exists i', extract_int i = (Some (decimal ds), i')
             /\ stream_at i' rest (empty rest).
Proof.
  intros Hat Hws [Hd Hne] Hrest Hmax.
  pose proof (stream_at_good _ _ Hat) as Hg. destruct Hat as (Hp & Hf & Hb & He).
  unfold extract_int, sentry. rewrite Hg, Hp.
  destruct ds as [|a ds']; [congruence|]. set (ds := String a ds') in *.
  assert (Ha : isdigit a = true) by (simpl in Hd; now apply andb_prop in Hd).
  assert (Hsw : starts_with isspace (ds ++ rest)%string = false)
    by (simpl; now apply digit_not_space).
  rewrite skip_ws_app by assumption.
  change (empty (ds ++ rest)%string) with false. cbv iota.
  assert (Hp1 : pending (advance_to i (ds ++ rest)%string) = (ds ++ rest)%string).
  { apply pending_advance_to. rewrite Hp. apply suffix_app. }
  rewrite Hp1.
  change (ds ++ rest)%string with (String a (ds' ++ rest)%string).
  rewrite digit_not_sign by exact Ha.
  change (String a (ds' ++ rest)%string) with (ds ++ rest)%string.
  rewrite read_digits_app by assumption.
  change (negb (false || negb (empty ds))) with false. cbv iota.
  fold (decimal ds).
  assert (Hpos : 0 <= decimal ds)
    by (apply decimal_onto_nonneg; [exact Hd | lia]).
  replace (decimal ds <? INT_MIN) with false
    by (symmetry; apply Z.ltb_ge; unfold INT_MIN; lia).
  replace (INT_MAX <? decimal ds) with false
    by (symmetry; apply Z.ltb_ge; lia).
  eexists. split; [reflexivity|].
  assert (Hp2 : pending (advance_to (advance_to i (ds ++ rest)%string) rest) = rest).
  { apply pending_advance_to. rewrite Hp1. apply suffix_app. }
  destruct (empty rest); repeat split; simpl; trivial.
Qed.

Lemma get_int_at i ws ds rest old :
  stream_at i (ws ++ ds ++ rest)%string false ->
  all_chars isspace ws = true ->
  digits ds -> starts_with isdigit rest = false ->
  decimal ds <= INT_MAX ->
  exists i', get_int i old = (decimal ds, i')
             /\ stream_at i' rest (empty rest).
Proof.
  intros Hat Hws Hd Hrest Hmax.
  destruct (extract_int_at i ws ds rest Hat Hws Hd Hrest Hmax)
    as (i' & E & Hat').
  exists i'. unfold get_int. now rewrite E.
Qed.

(** The same with a minus sign before the digits. *)
Lemma extract_int_negative_at i ws ds rest :
  stream_at i (ws ++ String "-" ds ++ rest)%string false ->
  all_chars isspace ws = true ->
  digits ds -> starts_with isdigit rest = false ->
  decimal ds <= INT_MAX ->
  exists i', extract_int i = (Some (- decimal ds), i')
             /\ stream_at i' rest (empty rest).
Proof.
  intros Hat Hws [Hd Hne] Hrest Hmax.
  pose proof (stream_at_good _ _ Hat) as Hg. destruct Hat as (Hp & Hf & Hb & He).
  unfold extract_int, sentry. rewrite Hg, Hp.
  rewrite skip_ws_app by (trivial; reflexivity).
  cbn [append empty]. cbv iota.
  assert (Hp1 : pending (advance_to i (String "-" (ds ++ rest)))
                = String "-" (ds ++ rest)).
  { apply pending_advance_to. rewrite Hp.
    apply (suffix_app ws (String "-" (ds ++ rest))). }
  rewrite Hp1. cbn [read_sign].
  rewrite read_digits_app by assumption.
  replace (negb (false || negb (empty ds))) with false by (now destruct ds).
  cbv iota. fold (decimal ds).
  assert (Hpos : 0 <= decimal ds)
    by (apply decimal_onto_nonneg; [exact Hd | lia]).
  replace (- decimal ds <? INT_MIN) with false
    by (symmetry; apply Z.ltb_ge; unfold INT_MIN, INT_MAX in *; lia).
  replace (INT_MAX <? - decimal ds) with false
    by (symmetry; apply Z.ltb_ge; unfold INT_MAX; lia).
  eexists. split; [reflexivity|].
  assert (Hp2 : pending (advance_to (advance_to i (String "-" (ds ++ rest))) rest)
                = rest).
  { apply pending_advance_to. rewrite Hp1.
    apply suffix_tail, suffix_app. }
  destruct (empty rest); repeat split; simpl; trivial.
Qed.

Lemma get_int_signed_at i ws neg ds rest old :
  stream_at i (ws ++ signed neg ds ++ rest)%string false ->
  all_chars isspace ws = true ->
  digits ds -> starts_with isdigit rest = false ->
  decimal ds <= INT_MAX ->
  exists i', get_int i old = (signed_value neg ds, i')
             /\ stream_at i' rest (empty rest).
Proof.
  intros Hat Hws Hd Hrest Hmax. destruct neg; cbn [signed signed_value] in *.
  - destruct (extract_int_negative_at i ws ds rest Hat Hws Hd Hrest Hmax)
      as (i' & E & Hat').
    exists i'. unfold get_int. now rewrite E.
  - exact (get_int_at i ws ds rest old Hat Hws Hd Hrest Hmax).
Qed.

(** [is.get(c)] with a character left. *)
Lemma get_char_at i c rest old :
  stream_at i (String c rest) false ->
  get_char i old = (c, advance_to i rest)
  /\ stream_at (advance_to i rest) rest false
  /\ unget (advance_to i rest) = i.
Proof.
  intros Hat. pose proof (stream_at_good _ _ Hat) as Hg.
  pose proof Hat as (Hp & Hf & Hb & He).
  unfold get_char, sentry_noskipws. rewrite Hg, Hp.
  split; [reflexivity|]. split.
  - apply (stream_at_advance i (String c rest)); [exact Hat|].
    apply suffix_tail, suffix_refl.
  - unfold unget, sentry_noskipws, clear_eof, good. simpl.
    rewrite Hf, Hb. simpl.
    pose proof (drop_chars_length (offset i) (content i)) as Hl.
    unfold pending in Hp. rewrite Hp in Hl. simpl in Hl.
    replace (String.length (content i) - String.length rest)%nat
      with (S (offset i)) by lia.
    destruct i as [ct off e f b]. simpl in *. now subst.
Qed.

(** ** The header of an image file *)

Lemma blank_is_space c : is_blank c = true -> isspace c = true.
Proof.
  unfold is_blank. intros H.
  apply orb_prop in H as [H|H]; [apply orb_prop in H as [H|H]|];
    apply Ascii.eqb_eq in H; now subst c.
Qed.

Lemma chars_left_at i s e : stream_at i s e -> chars_left i = String.length s.
Proof. intros (Hp & _). unfold chars_left. now rewrite Hp. Qed.

(** Blanks, then a character that is none. *)
Lemma skip_blanks_at bl : forall fuel i c rest old,
  stream_at i (bl ++ String c rest)%string false ->
  all_chars is_blank bl = true -> is_blank c = false ->
  (String.length bl <= fuel)%nat ->
  exists i', skip_blanks fuel i old = (c, i')
             /\ stream_at i' rest false
             /\ stream_at (unget i') (String c rest) false.
Proof.
  induction bl as [|b bl IH]; intros fuel i c rest old Hat Hbl Hc Hfuel;
    rewrite skip_blanks_step; cbn [append] in Hat.
  - destruct (get_char_at i c rest old Hat) as (-> & Hat' & Hun).
    rewrite (stream_at_not_failed _ _ _ Hat'), Hc.
    eexists. split; [reflexivity|]. split; [exact Hat'|]. now rewrite Hun.
  - simpl in Hbl. apply andb_prop in Hbl as [Hb Hbl].
    destruct (get_char_at i b (bl ++ String c rest)%string old Hat)
      as (-> & Hat' & _).
    rewrite (stream_at_not_failed _ _ _ Hat'), Hb.
    destruct fuel as [|k]; [simpl in Hfuel; lia|].
    apply IH; trivial. simpl in Hfuel. lia.
Qed.

(** The rest of a line, up to and including its newline. *)
Lemma skip_line_at body : forall fuel i rest old,
  stream_at i (body ++ String newline rest)%string false ->
  has_char newline body = false ->
  (String.length body <= fuel)%nat ->
  exists i', skip_line fuel i old = (newline, i') /\ stream_at i' rest false.
Proof.
  induction body as [|b body IH]; intros fuel i rest old Hat Hb Hfuel;
    rewrite skip_line_step; cbn [append] in Hat.
  - destruct (get_char_at i newline rest old Hat) as (-> & Hat' & _).
    rewrite (stream_at_not_failed _ _ _ Hat'). simpl.
    eexists. split; [reflexivity | exact Hat'].
  - simpl in Hb. apply orb_false_elim in Hb as [Hb1 Hb].
    destruct (get_char_at i b (body ++ String newline rest)%string old Hat)
      as (-> & Hat' & _).
    rewrite (stream_at_not_failed _ _ _ Hat').
    unfold newline in Hb1. rewrite Hb1. simpl.
    destruct fuel as [|k]; [simpl in Hfuel; lia|].
    apply IH; trivial. simpl in Hfuel. lia.
Qed.

Lemma skip_comments_step fuel file c :
  skip_comments fuel file c
  = if Ascii.eqb c "#" then
      if fail file then Loops
      else
        match fuel with
        | O => Loops
        | S k =>
            let '(c1, file1) := skip_line (chars_left file) file c in
            let '(c2, file2) := skip_blanks (chars_left file1) file1 c1 in
            skip_comments k file2 c2
        end
    else Ret (c, file).
Proof. destruct fuel; reflexivity. Qed.

Lemma length_append a b :
  String.length (a ++ b)%string = (String.length a + String.length b)%nat.
Proof. induction a; simpl; lia. Qed.

(** The loop over comment lines: after the comments of [cs] it stands
    where it would stand had they not been there. *)
Lemma skip_comments_past cs : forall fuel file c0 tl c rest,
  (comment_lines cs ++ String c rest)%string = String c0 tl ->
  stream_at file tl false ->
  stream_at (unget file) (String c0 tl) false ->
  Forall comment_ok cs -> is_blank c = false ->
  (String.length tl < fuel)%nat ->
  exists fuel' file',
    skip_comments fuel file c0 = skip_comments fuel' file' c
    /\ (String.length rest < fuel')%nat
    /\ stream_at file' rest false
    /\ stream_at (unget file') (String c rest) false.
Proof.
  induction cs as [|[body bl] cs IH];
    intros fuel file c0 tl c rest Htxt Hat Hun Hok Hc Hfuel.
  - simpl in Htxt. injection Htxt as <- <-.
    exists fuel, file. auto.
  - apply Forall_cons in Hok as [[Hbody Hbl] Hok]. simpl in Hbody, Hbl.
    cbn [comment_lines append] in Htxt. injection Htxt as <- <-.
    rewrite append_assoc in Hat, Hfuel. cbn [append] in Hat, Hfuel.
    rewrite append_assoc in Hat, Hfuel.
    rewrite skip_comments_step. cbn [Ascii.eqb Bool.eqb].
    rewrite (stream_at_not_failed _ _ _ Hat).
    destruct fuel as [|k]; [lia|].
    destruct (skip_line_at body (chars_left file) file
                (bl ++ comment_lines cs ++ String c rest)%string "#" Hat Hbody)
      as (f1 & -> & Hat1).
    { rewrite (chars_left_at _ _ _ Hat), length_append. lia. }
    destruct (comment_lines cs ++ String c rest)%string as [|c1 tl1] eqn:Enext.
    { destruct cs as [|[? ?] ?]; discriminate Enext. }
    assert (Hc1 : is_blank c1 = false).
    { destruct cs as [|[b' bl'] cs']; simpl in Enext; injection Enext as <- _;
        [exact Hc | reflexivity]. }
    destruct (skip_blanks_at bl (chars_left f1) f1 c1 tl1 newline Hat1 Hbl Hc1)
      as (f2 & -> & Hat2 & Hun2).
    { rewrite (chars_left_at _ _ _ Hat1), length_append. lia. }
    apply (IH k f2 c1 tl1 c rest Enext Hat2 Hun2 Hok Hc).
    rewrite !length_append in Hfuel. simpl in Hfuel.
    rewrite length_append in Hfuel. simpl in Hfuel. lia.
Qed.

Lemma space_not_digit c : isspace c = true -> isdigit c = false.
Proof.
  intros H. destruct (isdigit c) eqn:E; [|reflexivity].
  apply digit_not_space in E. congruence.
Qed.

Lemma starts_with_all p s rest :
  all_chars p s = true -> s <> EmptyString ->
  starts_with p (s ++ rest)%string = true.
Proof.
  destruct s as [|a s]; [congruence|]. simpl. intros H _.
  now apply andb_prop in H as [-> _].
Qed.

Lemma starts_with_space_not_digit s :
  starts_with isspace s = true -> starts_with isdigit s = false.
Proof. destruct s as [|a s]; [discriminate|]. simpl. apply space_not_digit. Qed.

Lemma all_blank_space bl : all_chars is_blank bl = true -> all_chars isspace bl = true.
Proof.
  induction bl as [|b bl IH]; simpl; [reflexivity|]. intros H.
  apply andb_prop in H as [Hb H]. now rewrite (blank_is_space _ Hb), IH.
Qed.

Lemma empty_append_l a b : a <> EmptyString -> empty (a ++ b)%string = false.
Proof. now destruct a. Qed.

(** The first character of a number is neither a blank nor [#]. *)
Lemma signed_first neg ds rest :
  digits ds ->
  exists d tl,
    (signed neg ds ++ rest)%string = String d tl
    /\ is_blank d = false /\ Ascii.eqb d "#" = false.
Proof.
  intros [Hd Hne]. destruct neg; cbn [signed append].
  - eexists _, _. repeat split.
  - destruct ds as [|d ds]; [congruence|]. cbn [append].
    simpl in Hd. apply andb_prop in Hd as [Hd _].
    exists d, (ds ++ rest)%string. split; [reflexivity|]. split.
    + destruct (is_blank d) eqn:E; [|reflexivity].
      apply blank_is_space in E. apply digit_not_space in Hd. congruence.
    + apply Ascii.eqb_neq. intros ->. discriminate Hd.
Qed.

Lemma header_text_split magic bl0 cs W ws1 H ws2 M rest :
  (header_text magic bl0 cs W ws1 H ws2 M ++ rest)%string
  = (magic ++ (bl0 ++ (comment_lines cs
       ++ (W ++ (ws1 ++ (H ++ (ws2 ++ (M ++ rest))))))))%string.
Proof. unfold header_text. now rewrite !append_assoc. Qed.

Lemma signed_header_text_split magic bl0 cs negW W ws1 negH H ws2 M rest :
  (signed_header_text magic bl0 cs negW W ws1 negH H ws2 M ++ rest)%string
  = (magic ++ (bl0 ++ (comment_lines cs
       ++ (signed negW W
             ++ (ws1 ++ (signed negH H ++ (ws2 ++ (M ++ rest))))))))%string.
Proof. unfold signed_header_text. now rewrite !append_assoc. Qed.

(** [read_header] on such a text: the numbers are read as written, and the
    stream stands behind the third one. *)
Lemma read_header_signed_at fs u filepath width0 height0
    magic bl0 cs negW W ws1 negH H ws2 M rest :
  header_ok magic bl0 cs W ws1 H ws2 M ->
  rest <> EmptyString -> starts_with isdigit rest = false ->
  fs filepath
  = Some (signed_header_text magic bl0 cs negW W ws1 negH H ws2 M ++ rest)%string ->
  exists file out,
    stream_at file rest false
    /\ read_header fs u filepath width0 height0
       = Ret (if 255 <? decimal M
              then inl (signed_value negW W, signed_value negH H,
                        out ++ [cerr_only_8bit])
              else inr (mk_header (String.eqb magic "P6")
                          (signed_value negW W) (signed_value negH H)
                          (if String.eqb magic "P6"
                           then snd (get_char file "000"%char) else file)
                          out)).
Proof.
  intros [Hmagic [Hbl0 Hbl0'] Hcs [[HW HW'] HWmax] [Hws1 Hws1']
            [[HH HH'] HHmax] [Hws2 Hws2'] [[HM HM'] HMmax]] Hrest Hrd Hopen.
  unfold read_header. rewrite Hopen, signed_header_text_split.
  set (tW := (signed negW W
                ++ (ws1 ++ (signed negH H ++ (ws2 ++ (M ++ rest)))))%string).
  (* the magic number *)
  destruct (get_string_at
              (open_stream (magic ++ (bl0 ++ (comment_lines cs ++ tW)))%string)
              EmptyString magic (bl0 ++ (comment_lines cs ++ tW))%string
              EmptyString) as (i1 & -> & Hat1).
  { apply stream_at_open. } { reflexivity. }
  { destruct Hmagic as [-> | ->]; reflexivity. }
  { destruct Hmagic as [-> | ->]; discriminate. }
  { right. apply starts_with_all; [now apply all_blank_space | exact Hbl0']. }
  rewrite empty_append_l in Hat1 by exact Hbl0'.
  replace (negb (String.eqb magic "P3") && negb (String.eqb magic "P6"))
    with false by (destruct Hmagic as [-> | ->]; reflexivity).
  (* blanks and comments *)
  destruct (signed_first negW W
              (ws1 ++ (signed negH H ++ (ws2 ++ (M ++ rest))))%string
              (conj HW HW')) as (d & rW & EtW & Hdb & Hd).
  fold tW in EtW.
  destruct (comment_lines cs ++ tW)%string as [|c1 tl1] eqn:Enext.
  { rewrite EtW in Enext. destruct cs as [|[? ?] ?]; discriminate Enext. }
  assert (Hc1 : is_blank c1 = false).
  { rewrite EtW in Enext.
    destruct cs as [|[b' bl'] cs']; simpl in Enext; injection Enext as <- _;
      [exact Hdb | reflexivity]. }
  destruct (skip_blanks_at bl0 (chars_left i1) i1 c1 tl1 (junk_c u)
              Hat1 Hbl0 Hc1) as (i2 & -> & Hat2 & Hun2).
  { rewrite (chars_left_at _ _ _ Hat1), length_append. lia. }
  rewrite EtW in Enext.
  destruct (skip_comments_past cs (S (chars_left i2)) i2 c1 tl1 d rW
              Enext Hat2 Hun2 Hcs Hdb)
    as (fuel' & i3 & -> & _ & Hat3 & Hun3).
  { rewrite (chars_left_at _ _ _ Hat2). lia. }
  rewrite skip_comments_step, Hd.
  cbn [mbind outcome_bind].
  (* the three numbers *)
  rewrite <- EtW in Hun3. unfold tW in Hun3.
  destruct (get_int_signed_at (unget i3) EmptyString negW W
              (ws1 ++ (signed negH H ++ (ws2 ++ (M ++ rest))))%string width0)
    as (i4 & -> & Hat4); trivial.
  { split; [exact HW | exact HW']. }
  { apply starts_with_space_not_digit, starts_with_all; assumption. }
  rewrite empty_append_l in Hat4 by exact Hws1'.
  destruct (get_int_signed_at i4 ws1 negH H (ws2 ++ (M ++ rest))%string height0)
    as (i5 & -> & Hat5); trivial.
  { split; [exact HH | exact HH']. }
  { apply starts_with_space_not_digit, starts_with_all; assumption. }
  rewrite empty_append_l in Hat5 by exact Hws2'.
  destruct (get_int_at i5 ws2 M rest (junk_maxColorValue u))
    as (i6 & -> & Hat6); trivial.
  { split; [exact HM | exact HM']. }
  replace (empty rest) with false in Hat6 by (now destruct rest).
  exists i6. eexists. split; [exact Hat6|].
  destruct (255 <? decimal M); reflexivity.
Qed.

Lemma read_header_at fs u filepath width0 height0
    magic bl0 cs W ws1 H ws2 M rest :
  header_ok magic bl0 cs W ws1 H ws2 M ->
  rest <> EmptyString -> starts_with isdigit rest = false ->
  fs filepath = Some (header_text magic bl0 cs W ws1 H ws2 M ++ rest)%string ->
  exists file out,
    stream_at file rest false
    /\ read_header fs u filepath width0 height0
       = Ret (if 255 <? decimal M
              then inl (decimal W, decimal H, out ++ [cerr_only_8bit])
              else inr (mk_header (String.eqb magic "P6")
                          (decimal W) (decimal H)
                          (if String.eqb magic "P6"
                           then snd (get_char file "000"%char) else file)
                          out)).
Proof.
  intros Hok Hrest Hrd Hopen.
  exact (read_header_signed_at fs u filepath width0 height0 magic bl0 cs
           false W ws1 false H ws2 M rest Hok Hrest Hrd Hopen).
Qed.

(** ** Decoding whole image files *)

Lemma chars_of_app a b : chars_of (a ++ b)%string = chars_of a ++ chars_of b.
Proof. unfold chars_of. induction a as [|x a IH]; simpl; [reflexivity | now rewrite IH]. Qed.

Lemma length_chars_of a : length (chars_of a) = String.length a.
Proof. unfold chars_of. induction a; simpl; lia. Qed.

(** [file.read] with all the bytes there. *)
Lemma read_bytes_all file samples trailing buf :
  stream_at file (samples ++ trailing)%string false ->
  length buf = String.length samples ->
  exists file',
    read_bytes file buf (size samples) = (map Some (chars_of samples), file')
    /\ fail file' = false.
Proof.
  intros Hat Hlen. pose proof (stream_at_good _ _ Hat) as Hg.
  destruct Hat as (Hp & Hf & Hb & He).
  unfold read_bytes, sentry_noskipws. rewrite Hg, Hp, chars_of_app.
  unfold size. rewrite Nat2Z.id.
  rewrite take_app_length' by (symmetry; apply length_chars_of).
  rewrite length_chars_of, Z.eqb_refl.
  rewrite drop_ge by lia. rewrite app_nil_r.
  eexists. split; [reflexivity|]. unfold fail. simpl. now rewrite Hf, Hb.
Qed.

(** [file.read] with too few bytes left. *)
Lemma read_bytes_short file samples buf n :
  stream_at file samples false ->
  size samples < n ->
  fail (snd (read_bytes file buf n)) = true.
Proof.
  intros Hat Hn. pose proof (stream_at_good _ _ Hat) as Hg.
  destruct Hat as (Hp & Hf & Hb & He).
  unfold read_bytes, sentry_noskipws. rewrite Hg, Hp. cbn [snd].
  rewrite length_take, length_chars_of.
  replace (Z.of_nat (Z.to_nat n `min` String.length samples) =? n) with false.
  - reflexivity.
  - symmetry. apply Z.eqb_neq. unfold size in Hn. lia.
Qed.

Lemma sample_count_of w h :
  0 <= w -> 0 <= h -> 3 * w * h <= INT_MAX ->
  sample_count w h = Ret (3 * w * h).
Proof.
  intros Hw Hh Hmax. unfold sample_count, int_result, INT_MAX in *.
  assert (0 <= w * h) by nia.
  replace (in_int (w * h)) with true.
  2:{ symmetry. apply in_int_bounds. lia. }
  cbn [mbind outcome_bind].
  replace (in_int (w * h * 3)) with true.
  2:{ symmetry. apply in_int_bounds. lia. }
  f_equal. lia.
Qed.

Lemma decimal_nonneg ds : digits ds -> 0 <= decimal ds.
Proof. intros [H _]. apply decimal_onto_nonneg; [exact H | lia]. Qed.

Section WholeFiles.

Variables (fs : filesystem) (u : ppm_junk) (filepath : string).
Variables (width0 height0 : Z) (data0 : option buffer).
Variables (bl0 : string) (cs : list (string * string)).
Variables (W ws1 H ws2 M : string).

(** X15.  A binary file as the format describes it: [P6], blanks, comment
    lines, width, height and a maximum of at most 255, one character, and
    then at least [3 * width * height] bytes.  The later revision decodes
    it to the declared width and height and to exactly these bytes, in the
    order of the file. *)
Theorem Direct_decodes_P6 (c : ascii) (samples trailing : string) :
  header_ok "P6" bl0 cs W ws1 H ws2 M ->
  decimal M <= 255 ->
  isdigit c = false ->
  size samples = 3 * decimal W * decimal H ->
  3 * decimal W * decimal H <= INT_MAX ->
  fs filepath
  = Some (header_text "P6" bl0 cs W ws1 H ws2 M
          ++ String c (samples ++ trailing))%string ->
  exists out,
    Direct.ReadImageData fs u filepath width0 height0 data0
    = Ret (decimal W, decimal H, Some (map Some (chars_of samples)), out).
Proof.
  intros Hok HM Hc Hsize Hmax Hopen.
  destruct (read_header_at fs u filepath width0 height0 "P6" bl0 cs
              W ws1 H ws2 M (String c (samples ++ trailing)) Hok)
    as (fh & out & Hat & Hh); trivial; [discriminate|].
  replace (255 <? decimal M) with false in Hh
    by (symmetry; apply Z.ltb_ge; lia).
  cbn [String.eqb Ascii.eqb Bool.eqb andb] in Hh.
  destruct (get_char_at fh c (samples ++ trailing)%string "000" Hat)
    as (Eg & Hat' & _).
  rewrite Eg in Hh. cbn [snd] in Hh.
  pose proof (decimal_nonneg W (proj1 (ok_W _ _ _ _ _ _ _ _ Hok))) as HW0.
  pose proof (decimal_nonneg H (proj1 (ok_H _ _ _ _ _ _ _ _ Hok))) as HH0.
  unfold Direct.ReadImageData. rewrite Hh. cbn [mbind outcome_bind width height].
  rewrite sample_count_of by assumption. cbn [mbind outcome_bind].
  rewrite new_uchar_array_ret by lia. cbn [mbind outcome_bind].
  unfold read_samples. cbn [isBinary file].
  rewrite <- Hsize.
  destruct (read_bytes_all (advance_to fh (samples ++ trailing)) samples
              trailing (replicate (Z.to_nat (size samples)) None) Hat')
    as (fh' & -> & Hnf).
  { rewrite length_replicate. unfold size. lia. }
  cbn [mbind outcome_bind mret outcome_ret log]. rewrite Hnf.
  eexists. reflexivity.
Qed.

(** X16.  The same file cut short inside its samples: both revisions return
    the declared width and height and no buffer. *)
Theorem truncated_P6_gives_no_buffer (c : ascii) (samples : string) :
  header_ok "P6" bl0 cs W ws1 H ws2 M ->
  decimal M <= 255 ->
  isdigit c = false ->
  size samples < 3 * decimal W * decimal H ->
  3 * decimal W * decimal H <= INT_MAX ->
  fs filepath
  = Some (header_text "P6" bl0 cs W ws1 H ws2 M ++ String c samples)%string ->
  (exists out,
      Direct.ReadImageData fs u filepath width0 height0 data0
      = Ret (decimal W, decimal H, None, out))
  /\ (exists out,
      Flipping.ReadImageData fs u filepath width0 height0 data0
      = Ret (decimal W, decimal H, None, out)).
Proof.
  intros Hok HM Hc Hsize Hmax Hopen.
  destruct (read_header_at fs u filepath width0 height0 "P6" bl0 cs
              W ws1 H ws2 M (String c samples) Hok)
    as (fh & out & Hat & Hh); trivial; [discriminate|].
  replace (255 <? decimal M) with false in Hh
    by (symmetry; apply Z.ltb_ge; lia).
  cbn [String.eqb Ascii.eqb Bool.eqb andb] in Hh.
  destruct (get_char_at fh c samples "000" Hat) as (Eg & Hat' & _).
  rewrite Eg in Hh. cbn [snd] in Hh.
  pose proof (decimal_nonneg W (proj1 (ok_W _ _ _ _ _ _ _ _ Hok))) as HW0.
  pose proof (decimal_nonneg H (proj1 (ok_H _ _ _ _ _ _ _ _ Hok))) as HH0.
  set (hd := mk_header true (decimal W) (decimal H)
               (advance_to fh samples) out) in Hh.
  assert (Hc3 : sample_count (width hd) (height hd)
                = Ret (3 * decimal W * decimal H))
    by (apply sample_count_of; assumption).
  assert (Hn : 0 <= 3 * decimal W * decimal H) by nia.
  split.
  - destruct (Direct_after_header fs u filepath width0 height0 data0 hd _
                Hh Hc3 Hn) as (buf & fh' & o1 & out' & Hr & _ & _ & E).
    unfold read_samples in Hr. cbn [isBinary file hd] in Hr.
    pose proof (read_bytes_short (advance_to fh samples) samples
                  (replicate (Z.to_nat (3 * decimal W * decimal H)) None)
                  _ Hat' Hsize) as Hf.
    destruct (read_bytes _ _ _) as [b1 f1]. injection Hr as <- <- <-.
    cbn [snd] in Hf. rewrite Hf in E. eauto.
  - destruct (Flipping_after_header fs u filepath width0 height0 data0 hd _
                Hh Hc3 Hn) as (buf & fh' & o1 & d & out' & Hr & _ & _ & E).
    unfold read_samples in Hr. cbn [isBinary file hd] in Hr.
    pose proof (read_bytes_short (advance_to fh samples) samples
                  (replicate (Z.to_nat (3 * decimal W * decimal H)) None)
                  _ Hat' Hsize) as Hf.
    destruct (read_bytes _ _ _) as [b1 f1]. injection Hr as <- <- <-.
    cbn [snd] in Hf. rewrite Hf in E. eauto.
Qed.

(** X17.  A header that declares a maximum above 255 is refused by both
    revisions, for [P3] and [P6] alike: the caller's buffer is left as it
    was, but its width and height are already overwritten with the
    declared ones. *)
Theorem deep_image_is_refused (magic rest : string) :
  header_ok magic bl0 cs W ws1 H ws2 M ->
  255 < decimal M ->
  rest <> EmptyString -> starts_with isdigit rest = false ->
  fs filepath = Some (header_text magic bl0 cs W ws1 H ws2 M ++ rest)%string ->
  (exists out,
      Direct.ReadImageData fs u filepath width0 height0 data0
      = Ret (decimal W, decimal H, data0, out))
  /\ (exists out,
      Flipping.ReadImageData fs u filepath width0 height0 data0
      = Ret (decimal W, decimal H, data0, out)).
Proof.
  intros Hok HM Hrest Hrd Hopen.
  destruct (read_header_at fs u filepath width0 height0 magic bl0 cs
              W ws1 H ws2 M rest Hok Hrest Hrd Hopen)
    as (file & out & Hat & Hh).
  replace (255 <? decimal M) with true in Hh
    by (symmetry; apply Z.ltb_lt; lia).
  unfold Direct.ReadImageData, Flipping.ReadImageData. rewrite Hh.
  split; eexists; reflexivity.
Qed.

End WholeFiles.

(** ** A comment that is not ended *)

(** A last line without a newline: [c] ends up as its last character and
    the stream has failed. *)
Lemma skip_line_to_end body : forall fuel i old,
  stream_at i body false -> has_char newline body = false ->
  (String.length body <= fuel)%nat ->
  exists i', skip_line fuel i old = (last_char old body, i') /\ fail i' = true.
Proof.
  induction body as [|b body IH]; intros fuel i old Hat Hb Hfuel;
    rewrite skip_line_step.
  - pose proof (stream_at_good _ _ Hat) as Hg. destruct Hat as (Hp & _).
    unfold get_char, sentry_noskipws. rewrite Hg, Hp.
    rewrite fail_set_fail. eexists. split; [reflexivity | apply fail_set_fail].
  - simpl in Hb. apply orb_false_elim in Hb as [Hb1 Hb].
    destruct (get_char_at i b body old Hat) as (-> & Hat' & _).
    rewrite (stream_at_not_failed _ _ _ Hat').
    unfold newline in Hb1. rewrite Hb1. cbn [negb].
    destruct fuel as [|k]; [simpl in Hfuel; lia|].
    apply IH; [exact Hat' | exact Hb | simpl in Hfuel; lia].
Qed.

Lemma skip_blanks_after_failure fuel file c :
  fail file = true ->
  exists file', skip_blanks fuel file c = (c, file') /\ fail file' = true.
Proof.
  intros Hf. rewrite skip_blanks_step, (get_char_failed _ _ Hf).
  rewrite fail_set_fail. eexists. split; [reflexivity | apply fail_set_fail].
Qed.

Section UnterminatedComment.

Variables (fs : filesystem) (u : ppm_junk) (filepath : string).
Variables (width0 height0 : Z).

(** The header loop on a file that ends inside a comment whose last
    character is [#]. *)
Lemma read_header_loops magic bl0 cs body :
  magic = "P3" \/ magic = "P6" ->
  all_chars is_blank bl0 = true -> bl0 <> EmptyString ->
  Forall comment_ok cs ->
  has_char newline body = false ->
  last_char "#" body = "#"%char ->
  fs filepath
  = Some (magic ++ bl0 ++ comment_lines cs ++ String "#" body)%string ->
  read_header fs u filepath width0 height0 = Loops.
Proof.
  intros Hmagic Hbl0 Hbl0' Hcs Hbody Hlast Hopen.
  unfold read_header. rewrite Hopen.
  destruct (get_string_at
              (open_stream (magic ++ (bl0 ++ (comment_lines cs ++ String "#" body)))%string)
              EmptyString magic (bl0 ++ (comment_lines cs ++ String "#" body))%string
              EmptyString) as (i1 & -> & Hat1).
  { apply stream_at_open. } { reflexivity. }
  { destruct Hmagic as [-> | ->]; reflexivity. }
  { destruct Hmagic as [-> | ->]; discriminate. }
  { right. apply starts_with_all; [now apply all_blank_space | exact Hbl0']. }
  rewrite empty_append_l in Hat1 by exact Hbl0'.
  replace (negb (String.eqb magic "P3") && negb (String.eqb magic "P6"))
    with false by (destruct Hmagic as [-> | ->]; reflexivity).
  destruct (comment_lines cs ++ String "#" body)%string as [|c1 tl1] eqn:Enext.
  { destruct cs as [|[? ?] ?]; discriminate Enext. }
  assert (Hc1 : is_blank c1 = false).
  { destruct cs as [|[b' bl'] cs']; simpl in Enext; injection Enext as <- _;
      reflexivity. }
  destruct (skip_blanks_at bl0 (chars_left i1) i1 c1 tl1 (junk_c u)
              Hat1 Hbl0 Hc1) as (i2 & -> & Hat2 & Hun2).
  { rewrite (chars_left_at _ _ _ Hat1), length_append. lia. }
  destruct (skip_comments_past cs (S (chars_left i2)) i2 c1 tl1 "#" body
              Enext Hat2 Hun2 Hcs eq_refl)
    as (fuel' & i3 & -> & Hfuel & Hat3 & _).
  { rewrite (chars_left_at _ _ _ Hat2). lia. }
  rewrite skip_comments_step. cbn [Ascii.eqb Bool.eqb].
  rewrite (stream_at_not_failed _ _ _ Hat3).
  destruct fuel' as [|k]; [reflexivity|].
  destruct (skip_line_to_end body (chars_left i3) i3 "#" Hat3 Hbody)
    as (i4 & -> & Hf4).
  { rewrite (chars_left_at _ _ _ Hat3). lia. }
  rewrite Hlast.
  destruct (skip_blanks_after_failure (chars_left i4) i4 "#" Hf4)
    as (i5 & -> & Hf5).
  rewrite skip_comments_step. cbn [Ascii.eqb Bool.eqb]. now rewrite Hf5.
Qed.

(** X18.  A file that ends inside a header comment, with [#] as the last
    character of that comment (or the comment being just [#]): the comment
    loop tests the character last read, which stays [#] once the stream
    has failed, so neither revision ever returns. *)
Theorem unterminated_comment_never_returns magic bl0 cs body data0 :
  magic = "P3" \/ magic = "P6" ->
  all_chars is_blank bl0 = true -> bl0 <> EmptyString ->
  Forall comment_ok cs ->
  has_char newline body = false ->
  last_char "#" body = "#"%char ->
  fs filepath
  = Some (magic ++ bl0 ++ comment_lines cs ++ String "#" body)%string ->
  Direct.ReadImageData fs u filepath width0 height0 data0 = Loops
  /\ Flipping.ReadImageData fs u filepath width0 height0 data0 = Loops.
Proof.
  intros Hmagic Hbl0 Hbl0' Hcs Hbody Hlast Hopen.
  pose proof (read_header_loops magic bl0 cs body Hmagic Hbl0 Hbl0' Hcs
                Hbody Hlast Hopen) as Hh.
  unfold Direct.ReadImageData, Flipping.ReadImageData. now rewrite Hh.
Qed.

End UnterminatedComment.

(** ** ASCII samples *)

Lemma sample_text_starts ss trailing :
  Forall sample_ok ss -> starts_with isdigit trailing = false ->
  starts_with isdigit (sample_text ss ++ trailing)%string = false.
Proof.
  intros Hok Htr. destruct ss as [|[ws ds] r]; [exact Htr|].
  apply Forall_cons in Hok as [[[Hws Hne] _] _]. simpl in Hws, Hne.
  cbn [sample_text]. rewrite !append_assoc.
  apply starts_with_space_not_digit, starts_with_all; assumption.
Qed.

Lemma sample_text_empty ss trailing :
  Forall sample_ok ss -> ss <> [] ->
  empty (sample_text ss ++ trailing)%string = false.
Proof.
  intros Hok Hne. destruct ss as [|[ws ds] r]; [congruence|].
  apply Forall_cons in Hok as [[[_ Hws] _] _]. simpl in Hws.
  cbn [sample_text]. rewrite !append_assoc. now apply empty_append_l.
Qed.

(** The loop of [file >> value] over well-formed samples stores them in
    order from cell [i] on. *)
Lemma read_ascii_at ss : forall (i : nat) file (buf : buffer) e trailing,
  stream_at file (sample_text ss ++ trailing)%string e ->
  (ss <> [] -> e = false) ->
  Forall sample_ok ss -> starts_with isdigit trailing = false ->
  (i + length ss <= length buf)%nat ->
  exists file' e',
    read_ascii (length ss) (Z.of_nat i) file buf
    = Ret (take i buf ++ map sample_cell ss ++ drop (i + length ss) buf, file')
    /\ stream_at file' trailing e'.
Proof.
  induction ss as [|[ws ds] r IH]; intros i file buf e trailing Hat He Hok Htr Hlen.
  - simpl in *. exists file, e. rewrite Nat.add_0_r, take_drop. auto.
  - assert (e = false) as -> by now apply He.
    pose proof Hok as Hok0.
    apply Forall_cons in Hok as [[[Hws Hne] [Hds Hmax]] Hok].
    simpl in Hws, Hne, Hds, Hmax.
    cbn [sample_text] in Hat. rewrite !append_assoc in Hat.
    cbn [length read_ascii].
    destruct (extract_int_at file ws ds (sample_text r ++ trailing)%string
                Hat Hws Hds (sample_text_starts r trailing Hok Htr) Hmax)
      as (file1 & -> & Hat1).
    cbn [length] in Hlen.
    assert (Hi : (i < length buf)%nat) by lia.
    rewrite (write_cell_inside buf i _ Hi). cbn [mbind outcome_bind fmap option_fmap option_map].
    replace (Z.of_nat i + 1) with (Z.of_nat (S i)) by lia.
    destruct (IH (S i) file1 (<[i := Some (to_uchar (decimal ds))]> buf)
                (empty (sample_text r ++ trailing)%string) trailing Hat1)
      as (file' & e' & -> & Hat'); trivial.
    { intros Hr. now apply sample_text_empty. }
    { rewrite length_insert. lia. }
    exists file', e'. split; [|exact Hat'].
    f_equal. f_equal.
    rewrite (take_S_r _ _ (Some (to_uchar (decimal ds))))
      by (apply list_lookup_insert_eq; lia).
    rewrite take_insert_ge by lia.
    rewrite drop_insert_lt by lia.
    rewrite <- app_assoc. cbn [map app]. unfold sample_cell at 2. cbn [snd].
    now replace (i + S (length r))%nat with (S i + length r)%nat by lia.
Qed.

Section AsciiFiles.

Variables (fs : filesystem) (u : ppm_junk) (filepath : string).
Variables (width0 height0 : Z) (data0 : option buffer).
Variables (bl0 : string) (cs : list (string * string)).
Variables (W ws1 H ws2 M : string).

(** X19.  An ASCII file as the format describes it: [P3], blanks, comment
    lines, width, height, a maximum of at most 255, and then
    [3 * width * height] samples, each white space and decimal digits.
    The later revision decodes it to the declared width and height and to
    one cell per sample, in the order of the file, holding the sample's
    value converted to [unsigned char]; a sample is not compared with the
    declared maximum. *)
Theorem Direct_decodes_P3 (ss : list (string * string)) (trailing : string) :
  header_ok "P3" bl0 cs W ws1 H ws2 M ->
  decimal M <= 255 ->
  ss <> [] -> Forall sample_ok ss ->
  Z.of_nat (length ss) = 3 * decimal W * decimal H ->
  3 * decimal W * decimal H <= INT_MAX ->
  starts_with isdigit trailing = false ->
  fs filepath
  = Some (header_text "P3" bl0 cs W ws1 H ws2 M
          ++ (sample_text ss ++ trailing))%string ->
  exists out,
    Direct.ReadImageData fs u filepath width0 height0 data0
    = Ret (decimal W, decimal H, Some (map sample_cell ss), out).
Proof.
  intros Hok HM Hne Hss Hsize Hmax Htr Hopen.
  destruct (read_header_at fs u filepath width0 height0 "P3" bl0 cs
              W ws1 H ws2 M (sample_text ss ++ trailing)%string Hok)
    as (fh & out & Hat & Hh); trivial.
  { intros E. pose proof (sample_text_empty ss trailing Hss Hne) as E'.
    rewrite E in E'. discriminate E'. }
  { now apply sample_text_starts. }
  replace (255 <? decimal M) with false in Hh
    by (symmetry; apply Z.ltb_ge; lia).
  cbn [String.eqb Ascii.eqb Bool.eqb andb] in Hh.
  pose proof (decimal_nonneg W (proj1 (ok_W _ _ _ _ _ _ _ _ Hok))) as HW0.
  pose proof (decimal_nonneg H (proj1 (ok_H _ _ _ _ _ _ _ _ Hok))) as HH0.
  unfold Direct.ReadImageData. rewrite Hh. cbn [mbind outcome_bind width height].
  rewrite sample_count_of by assumption. cbn [mbind outcome_bind].
  rewrite new_uchar_array_ret by lia. cbn [mbind outcome_bind].
  unfold read_samples. cbn [isBinary file].
  rewrite <- Hsize, Nat2Z.id.
  destruct (read_ascii_at ss 0 fh (replicate (length ss) None) false
              trailing Hat) as (fh' & e' & E & Hat'); trivial.
  { rewrite length_replicate. lia. }
  change (Z.of_nat 0) with 0 in E. rewrite E.
  cbn [mbind outcome_bind mret outcome_ret log].
  rewrite (stream_at_not_failed _ _ _ Hat').
  cbn [take app Nat.add]. rewrite drop_ge by (rewrite length_replicate; lia).
  rewrite app_nil_r. eexists. reflexivity.
Qed.

End AsciiFiles.

(** ** The earlier and the later revision *)

Lemma reverse_pixels_cons {A : Type} (a b c : A) (l : list A) :
  reverse_pixels (a :: b :: c :: l) = reverse_pixels l ++ [a; b; c].
Proof.
  unfold reverse_pixels. cbn [triples]. rewrite reverse_cons, concat_app.
  reflexivity.
Qed.

Lemma reverse_pixels_spec {A : Type} (p : nat) : forall (l : list A),
  length l = (3 * p)%nat ->
  length (reverse_pixels l) = (3 * p)%nat
  /\ forall k j, (k < p)%nat -> (j < 3)%nat ->
       reverse_pixels l !! (3 * (p - 1 - k) + j)%nat = l !! (3 * k + j)%nat.
Proof.
  induction p as [|p IH]; intros l Hl.
  - destruct l; [|discriminate]. split; [reflexivity|]. intros k j Hk. lia.
  - destruct l as [|a [|b [|c l]]]; try (simpl in Hl; lia).
    destruct (IH l) as [IHl IHk]; [simpl in Hl; lia|].
    rewrite reverse_pixels_cons. split.
    + rewrite length_app, IHl. simpl. lia.
    + intros k j Hk Hj. destruct k as [|k].
      * rewrite lookup_app_r by lia.
        replace (3 * (S p - 1 - 0) + j - length (reverse_pixels l))%nat with j
          by lia.
        replace (3 * 0 + j)%nat with j by lia.
        destruct j as [|[|[|j]]]; try reflexivity. lia.
      * rewrite lookup_app_l by lia.
        replace (3 * (S p - 1 - S k) + j)%nat with (3 * (p - 1 - k) + j)%nat
          by lia.
        rewrite IHk by lia.
        replace (3 * S k + j)%nat with (S (S (S (3 * k + j)))) by lia.
        reflexivity.
Qed.

(** A buffer that holds the pixels of another one in the opposite order
    is its [reverse_pixels]. *)
Lemma reverse_pixels_unique {A : Type} (p : nat) (l out : list A) :
  length l = (3 * p)%nat -> length out = (3 * p)%nat ->
  (forall k j, (k < p)%nat -> (j < 3)%nat ->
     out !! (3 * (p - 1 - k) + j)%nat = l !! (3 * k + j)%nat) ->
  out = reverse_pixels l.
Proof.
  intros Hl Ho Hidx. destruct (reverse_pixels_spec p l Hl) as [Hrl Hr].
  apply list_eq. intros i.
  destruct (decide (i < 3 * p)%nat) as [Hi|Hi].
  - pose proof (Nat.div_mod_eq i 3) as Hdm.
    pose proof (Nat.mod_upper_bound i 3) as Hm.
    assert (Hq : (i / 3 < p)%nat) by lia.
    specialize (Hidx (p - 1 - i / 3)%nat (i mod 3)%nat).
    specialize (Hr (p - 1 - i / 3)%nat (i mod 3)%nat).
    replace (3 * (p - 1 - (p - 1 - i / 3)) + i mod 3)%nat with i in Hidx, Hr
      by lia.
    rewrite Hidx, Hr by lia. reflexivity.
  - rewrite !(proj2 (lookup_ge_None _ _)) by lia. reflexivity.
Qed.

(** X20.  The reversing pass undoes itself: run on its own result it gives
    back the samples it started from, whatever the target buffers held. *)
Theorem flip_pass_twice (pixels : nat) (copyData data1 data2 : buffer) :
  length copyData = (3 * pixels)%nat ->
  length data1 = (3 * pixels)%nat ->
  length data2 = (3 * pixels)%nat ->
  Z.of_nat (3 * pixels) <= INT_MAX ->
  exists once,
    Flipping.flip_pass (Flipping.rounds_of (Z.of_nat (3 * pixels))) 0
      (to_uint (Z.of_nat (3 * pixels) - 1)) copyData data1 = Ret once
    /\ Flipping.flip_pass (Flipping.rounds_of (Z.of_nat (3 * pixels))) 0
         (to_uint (Z.of_nat (3 * pixels) - 1)) once data2 = Ret copyData.
Proof.
  intros Hc H1 H2 Hn.
  destruct (flip_pass_whole pixels copyData data1 Hc H1 Hn)
    as (once & E1 & Hl1 & Hi1).
  destruct (flip_pass_whole pixels once data2 Hl1 H2 Hn)
    as (twice & E2 & Hl2 & Hi2).
  exists once. split; [exact E1|]. rewrite E2. f_equal.
  apply list_eq. intros i.
  destruct (decide (i < 3 * pixels)%nat) as [Hi|Hi].
  - pose proof (Nat.div_mod_eq i 3) as Hdm.
    pose proof (Nat.mod_upper_bound i 3) as Hm.
    assert (Hq : (i / 3 < pixels)%nat) by lia.
    specialize (Hi2 (pixels - 1 - i / 3)%nat (i mod 3)%nat).
    replace (3 * (pixels - 1 - (pixels - 1 - i / 3)) + i mod 3)%nat with i
      in Hi2 by lia.
    rewrite Hi2 by lia.
    specialize (Hi1 (i / 3)%nat (i mod 3)%nat).
    rewrite Hi1 by lia. f_equal. lia.
  - rewrite !(proj2 (lookup_ge_None _ _)) by lia. reflexivity.
Qed.

Section Revisions.

Variables (fs : filesystem) (u : ppm_junk) (filepath : string).
Variables (width0 height0 : Z).

(** X21.  The two revisions of [ReadImageData], called as [LoadPPM] calls
    them (no buffer yet), end alike on every file: the same exception,
    undefined behaviour or endless loop, or the same width and height and
    a buffer under the same conditions, the buffer of the earlier revision
    being that of the later one with its pixels in the opposite order. *)
Theorem revisions_differ_by_pixel_order :
  turned (Direct.ReadImageData fs u filepath width0 height0 None)
         (Flipping.ReadImageData fs u filepath width0 height0 None).
Proof.
  unfold Direct.ReadImageData, Flipping.ReadImageData.
  destruct (read_header fs u filepath width0 height0)
    as [[[[w h] out]|hd]|e| |] eqn:Hh; cbn [mbind outcome_bind turned];
    trivial.
  { cbn. auto. }
  destruct (sample_count (width hd) (height hd)) as [n|e| |] eqn:Hc;
    cbn [mbind outcome_bind turned]; trivial.
  destruct (new_uchar_array n) as [arr|e| |] eqn:Ha;
    cbn [mbind outcome_bind turned]; trivial.
  pose proof (new_uchar_array_inv _ _ Ha) as Hn.
  rewrite (new_uchar_array_ret n Hn) in Ha. injection Ha as <-.
  destruct (read_samples_spec hd n (replicate (Z.to_nat n) None) Hn)
    as (buf & file & o & Hr & Hl & _).
  { rewrite length_replicate. lia. }
  rewrite length_replicate in Hl. rewrite Hr. cbn [mbind outcome_bind].
  pose proof (sample_count_ret _ _ _ Hc) as [_ Hprod].
  pose proof (sample_count_int _ _ _ Hc) as Hmax.
  remember (Z.to_nat (width hd * height hd)) as pixels eqn:Hp.
  assert (Hn3 : n = Z.of_nat (3 * pixels)) by lia.
  assert (Hz : Z.to_nat n = (3 * pixels)%nat) by lia.
  clear Hp Hprod.
  destruct (flip_pass_whole pixels buf (replicate (Z.to_nat n) None))
    as (data & E & Hdl & Hidx).
  { lia. } { rewrite length_replicate. lia. } { lia. }
  rewrite <- Hn3 in E. rewrite E. cbn [mbind outcome_bind].
  destruct (fail file); cbn; repeat split; trivial.
  f_equal. apply (reverse_pixels_unique pixels); trivial. lia.
Qed.

End Revisions.

Section HostileSizes.

Variables (fs : filesystem) (u : ppm_junk) (filepath : string).
Variables (width0 height0 : Z) (data0 : option buffer).
Variables (magic bl0 : string) (cs : list (string * string)).
Variables (W ws1 H ws2 M rest : string).

(** X22.  A header that is well formed but for a minus sign before the
    width or before the height (not both), neither of them 0: the sample
    count is negative, the array allocation throws [std::bad_alloc] (or
    a class derived from it), and nothing catches it, in both revisions. *)
Theorem negative_sample_count_throws (negW negH : bool) :
  header_ok magic bl0 cs W ws1 H ws2 M ->
  decimal M <= 255 ->
  rest <> EmptyString -> starts_with isdigit rest = false ->
  xorb negW negH = true ->
  0 < decimal W * decimal H ->
  3 * decimal W * decimal H <= INT_MAX ->
  fs filepath
  = Some (signed_header_text magic bl0 cs negW W ws1 negH H ws2 M ++ rest)%string ->
  Direct.ReadImageData fs u filepath width0 height0 data0
  = Throws bad_alloc
  /\ Flipping.ReadImageData fs u filepath width0 height0 data0
     = Throws bad_alloc.
Proof.
  intros Hok HM Hrest Hrd Hneg Hpos Hmax Hopen.
  destruct (read_header_signed_at fs u filepath width0 height0 magic bl0 cs
              negW W ws1 negH H ws2 M rest Hok Hrest Hrd Hopen)
    as (file & out & _ & Hh).
  replace (255 <? decimal M) with false in Hh
    by (symmetry; apply Z.ltb_ge; lia).
  assert (Hprod : signed_value negW W * signed_value negH H
                  = - (decimal W * decimal H)).
  { destruct negW, negH; try discriminate Hneg; cbn [signed_value]; lia. }
  assert (Hc : sample_count (signed_value negW W) (signed_value negH H)
               = Ret (- (3 * decimal W * decimal H))).
  { unfold sample_count, int_result. rewrite Hprod.
    unfold INT_MAX in Hmax.
    replace (in_int (- (decimal W * decimal H))) with true
      by (symmetry; apply in_int_bounds; lia).
    cbn [mbind outcome_bind].
    replace (in_int (- (decimal W * decimal H) * 3)) with true
      by (symmetry; apply in_int_bounds; lia).
    f_equal. lia. }
  unfold Direct.ReadImageData, Flipping.ReadImageData.
  rewrite Hh. cbn [mbind outcome_bind width height]. rewrite Hc.
  cbn [mbind outcome_bind]. unfold new_uchar_array.
  replace (- (3 * decimal W * decimal H) <? 0) with true
    by (symmetry; apply Z.ltb_lt; lia).
  split; reflexivity.
Qed.

(** X23.  A well-formed header that declares more samples than an [int]
    holds: [width * height * 3] overflows, which is undefined behaviour,
    in both revisions and before any buffer is allocated. *)
Theorem oversized_image_is_undefined :
  header_ok magic bl0 cs W ws1 H ws2 M ->
  decimal M <= 255 ->
  rest <> EmptyString -> starts_with isdigit rest = false ->
  INT_MAX < 3 * decimal W * decimal H ->
  fs filepath = Some (header_text magic bl0 cs W ws1 H ws2 M ++ rest)%string ->
  Direct.ReadImageData fs u filepath width0 height0 data0 = Undefined
  /\ Flipping.ReadImageData fs u filepath width0 height0 data0 = Undefined.
Proof.
  intros Hok HM Hrest Hrd Hbig Hopen.
  destruct (read_header_at fs u filepath width0 height0 magic bl0 cs
              W ws1 H ws2 M rest Hok Hrest Hrd Hopen)
    as (file & out & _ & Hh).
  replace (255 <? decimal M) with false in Hh
    by (symmetry; apply Z.ltb_ge; lia).
  assert (Hc : sample_count (decimal W) (decimal H) = Undefined).
  { unfold sample_count, int_result.
    destruct (in_int (decimal W * decimal H)) eqn:E1; [|reflexivity].
    cbn [mbind outcome_bind].
    destruct (in_int (decimal W * decimal H * 3)) eqn:E2; [|reflexivity].
    apply in_int_bounds in E2. unfold INT_MAX in Hbig. lia. }
  unfold Direct.ReadImageData, Flipping.ReadImageData.
  rewrite Hh. cbn [mbind outcome_bind width height]. rewrite Hc.
  split; reflexivity.
Qed.

End HostileSizes.

(** ** Textures that cannot be loaded *)

Lemma read_header_refuses fs u filepath width0 height0 :
  ppm_magic fs filepath <> Some "P3" -> ppm_magic fs filepath <> Some "P6" ->
  exists out,
    read_header fs u filepath width0 height0 = Ret (inl (width0, height0, out)).
Proof.
  unfold ppm_magic, read_header. intros H3 H6.
  destruct (fs filepath) as [bytes|]; [|eexists; reflexivity].
  destruct (get_string (open_stream bytes) EmptyString) as [magic file].
  cbn [fst] in H3, H6.
  destruct (String.eqb_spec magic "P3") as [->|_]; [congruence|].
  destruct (String.eqb_spec magic "P6") as [->|_]; [congruence|].
  eexists. reflexivity.
Qed.

Section FailedTexture.

Context {F : Floating} {GL : OpenGL}.

(** X24.  A pending texture whose file cannot be opened, or does not start
    with [P3] or [P6]: [LoadTextures] returns false with either revision
    of the loader, makes no OpenGL call, keeps the pending path, and
    overwrites the texture id with 0, whatever it was. *)
Theorem LoadTextures_without_image (fs : filesystem) (u : load_junk)
    (m : OBJMesh) (gl : context) :
  m_pendingTexturePath m <> EmptyString ->
  ppm_magic fs (m_pendingTexturePath m) <> Some "P3" ->
  ppm_magic fs (m_pendingTexturePath m) <> Some "P6" ->
  (exists out,
      LoadTextures (Direct_LoadPPM fs u) m gl
      = Ret (false, with_textureID m 0, gl, out))
  /\ (exists out,
      LoadTextures (Flipping_LoadPPM fs u) m gl
      = Ret (false, with_textureID m 0, gl, out)).
Proof.
  intros Hp H3 H6.
  destruct (read_header_refuses fs (junk_read u) (m_pendingTexturePath m)
              (junk_width u) (junk_height u) H3 H6) as [out Hh].
  unfold LoadTextures.
  replace (empty (m_pendingTexturePath m)) with false
    by (now destruct (m_pendingTexturePath m)).
  cbn [negb].
  unfold Direct_LoadPPM, Flipping_LoadPPM,
    Direct.ReadImageData, Flipping.ReadImageData.
  rewrite Hh. split; eexists; reflexivity.
Qed.

End FailedTexture.

(** * Vertex buffers *)

Lemma foldl_blocks {A B C : Type} (push : list C -> B -> list C)
    (inner : A -> list B) (block : B -> list C) (l : list A) :
  (forall acc b, push acc b = acc ++ block b) ->
  forall acc,
    foldl (fun acc a => foldl push acc (inner a)) acc l
    = acc ++ ((l ≫= inner) ≫= block).
Proof.
  intros Hpush. induction l as [|a l IH]; intros acc.
  - simpl. now rewrite app_nil_r.
  - cbn [foldl]. rewrite IH, bind_cons, bind_app, app_assoc. f_equal.
    generalize (inner a). intros bs. revert acc.
    induction bs as [|b bs IHb]; intros acc.
    + simpl. now rewrite app_nil_r.
    + cbn [foldl]. rewrite IHb, Hpush, bind_cons, app_assoc. reflexivity.
Qed.

(** In a list of blocks of [n] elements, block [k] starts at [n * k]. *)
Lemma drop_blocks {B C : Type} (block : B -> list C) (n : nat) :
  (forall b, length (block b) = n) ->
  forall (l : list B) (k : nat) (v : B),
    l !! k = Some v ->
    drop (n * k) (l ≫= block) = block v ++ (drop (S k) l ≫= block).
Proof.
  intros Hn. induction l as [|b l IH]; intros k v Hk; [discriminate|].
  destruct k as [|k].
  - injection Hk as ->. rewrite Nat.mul_0_r. reflexivity.
  - rewrite bind_cons. replace (n * S k)%nat with (length (block b) + n * k)%nat
      by (rewrite Hn; lia).
    rewrite drop_app_add. now apply IH.
Qed.

Lemma length_blocks {B C : Type} (block : B -> list C) (n : nat) :
  (forall b, length (block b) = n) ->
  forall l : list B, length (l ≫= block) = (n * length l)%nat.
Proof.
  intros Hn. induction l as [|b l IH]; [simpl; lia|].
  rewrite bind_cons, length_app, IH, Hn. simpl. lia.
Qed.

Section BufferFacts.

Context {F : Floating}.

Lemma SetupBuffers_vertexData_blocks m :
  SetupBuffers_vertexData m = drawn (m_triangles m) ≫= vertex_floats.
Proof.
  unfold SetupBuffers_vertexData, drawn.
  rewrite (foldl_blocks push_vertex corners vertex_floats); [reflexivity|].
  intros acc v. unfold push_vertex, vertex_floats.
  rewrite <- !app_assoc. reflexivity.
Qed.

Lemma vertexDataFloor_blocks mesh :
  vertexDataFloor mesh = drawn mesh ≫= floor_floats.
Proof.
  unfold vertexDataFloor, drawn.
  rewrite (foldl_blocks push_floor_vertex corners floor_floats); [reflexivity|].
  intros acc v. unfold push_floor_vertex, floor_floats.
  rewrite <- !app_assoc. reflexivity.
Qed.

Lemma length_corners (tri : Triangle) : length (corners tri) = 3%nat.
Proof. unfold corners. now destruct (vertices tri) as [[? ?] ?]. Qed.

Lemma length_drawn mesh : length (drawn mesh) = (3 * length mesh)%nat.
Proof. apply length_blocks, length_corners. Qed.

(** X25.  The buffer [SetupBuffers] fills and the attribute pointers it
    sets agree: the buffer has 33 floats for every triangle, and for each
    of the [GetTriangleCount() * 3] vertices that are drawn the four
    attributes are read as the position, the colour, the normal and the
    texture coordinates of that corner. *)
Theorem SetupBuffers_layout (m : OBJMesh) :
  GetTriangleCount m * 3 < size_t_modulus ->
  Z.of_nat (length (SetupBuffers_vertexData m)) = 33 * GetTriangleCount m
  /\ gModelTriangles m = Z.of_nat (length (drawn (m_triangles m)))
  /\ forall (k : nat) (v : Vertex),
       drawn (m_triangles m) !! k = Some v ->
       (fun a => fetch a (SetupBuffers_vertexData m) (Z.of_nat k))
         <$> vertex_attributes
       = [Some [x v; y v; z v]; Some [r v; g v; b v];
          Some [nx v; ny v; nz v]; Some [s v; t v]].
Proof.
  intros Hfits. unfold GetTriangleCount, size_t_modulus in Hfits.
  rewrite SetupBuffers_vertexData_blocks.
  pose proof (length_drawn (m_triangles m)) as Hd.
  assert (Hlen : length (drawn (m_triangles m) ≫= vertex_floats)
                 = (11 * length (drawn (m_triangles m)))%nat)
    by now apply length_blocks.
  unfold GetTriangleCount, gModelTriangles, GetTriangleCount.
  split; [lia|]. split.
  { unfold to_size_t, size_t_modulus. rewrite Z.mod_small; lia. }
  intros k v Hk.
  pose proof (lookup_lt_Some _ _ _ Hk) as Hlt.
  pose proof (drop_blocks vertex_floats 11 (fun _ => eq_refl) _ k v Hk) as Hdrop.
  assert (Hfetch : forall off size : nat,
             (off + size <= 11)%nat ->
             fetch (mk_attribute 0 (Z.of_nat size) (sizeof_GL_FLOAT * 11)
                      (sizeof_GL_FLOAT * Z.of_nat off))
               (drawn (m_triangles m) ≫= vertex_floats) (Z.of_nat k)
             = Some (take size (drop off (vertex_floats v)))).
  { intros off size Hos. unfold fetch, sizeof_GL_FLOAT.
    cbn [attribute_pointer attribute_stride attribute_size].
    replace ((4 * Z.of_nat off + Z.of_nat k * (4 * 11)) / 4)
      with (Z.of_nat (11 * k + off)).
    2:{ apply Z.div_unique with (r := 0); lia. }
    replace (Z.of_nat (11 * k + off) + Z.of_nat size
             <=? Z.of_nat (length (drawn (m_triangles m) ≫= vertex_floats)))
      with true by (symmetry; apply Z.leb_le; lia).
    rewrite !Nat2Z.id, <- drop_drop, Hdrop. f_equal.
    rewrite drop_app_le by (simpl; lia).
    rewrite take_app_le; [reflexivity|].
    rewrite length_drop. simpl. lia. }
  unfold vertex_attributes. cbn [fmap list_fmap].
  unfold fetch in *. cbn [attribute_pointer attribute_stride attribute_size] in *.
  pose proof (Hfetch 0%nat 3%nat ltac:(lia)) as H0.
  pose proof (Hfetch 3%nat 3%nat ltac:(lia)) as H1.
  pose proof (Hfetch 6%nat 3%nat ltac:(lia)) as H2.
  pose proof (Hfetch 9%nat 2%nat ltac:(lia)) as H3.
  change (Z.of_nat 3) with 3 in *. change (Z.of_nat 0) with 0 in *.
  change (Z.of_nat 6) with 6 in *. change (Z.of_nat 9) with 9 in *.
  change (Z.of_nat 2) with 2 in *.
  change (sizeof_GL_FLOAT * 0) with 0 in H0.
  rewrite H0, H1, H2, H3. reflexivity.
Qed.

Lemma length_vertexDataFloor mesh :
  length (vertexDataFloor mesh) = (9 * length (drawn mesh))%nat.
Proof. rewrite vertexDataFloor_blocks. now apply length_blocks. Qed.

Lemma gFloorTriangles_drawn mesh :
  gFloorTriangles mesh = Z.of_nat (length (drawn mesh)).
Proof.
  unfold gFloorTriangles. rewrite length_vertexDataFloor.
  symmetry. apply Z.div_unique with (r := 0); lia.
Qed.

(** X26.  The floor: [GeneratePlaneBufferData] stores nine floats for a
    vertex and sets [gFloorTriangles] to the number of vertices, three
    for every triangle; the attribute pointers of [VertexSpecification]
    step by eleven floats.  So with two triangles or more every attribute
    of the last vertex drawn lies past the end of the buffer, and what is
    read as the position of the second vertex is its [z], [r] and [g]. *)
Theorem floor_buffer_is_misread (mesh : list Triangle) :
  (2 <= length mesh)%nat ->
  gFloorTriangles mesh = Z.of_nat (length (drawn mesh))
  /\ Z.of_nat (length (vertexDataFloor mesh)) = 27 * Z.of_nat (length mesh)
  /\ (forall a, a ∈ vertex_attributes ->
        fetch a (vertexDataFloor mesh) (gFloorTriangles mesh - 1) = None)
  /\ (forall v, drawn mesh !! 1%nat = Some v ->
        fetch (mk_attribute 0 3 (sizeof_GL_FLOAT * 11) 0)
          (vertexDataFloor mesh) 1
        = Some [z v; r v; g v]).
Proof.
  intros Hmesh. rewrite vertexDataFloor_blocks.
  pose proof (length_drawn mesh) as Hd.
  assert (Hlen : length (drawn mesh ≫= floor_floats)
                 = (9 * length (drawn mesh))%nat)
    by now apply length_blocks.
  pose proof (gFloorTriangles_drawn mesh) as Hg.
  split; [exact Hg|]. split; [lia|]. split.
  - intros a Ha. rewrite Hg. unfold fetch.
    remember (length (drawn mesh)) as n eqn:Hn.
    assert (Hoff : exists off size,
               0 <= off /\ 0 < size /\ attribute_pointer a = 4 * off
               /\ attribute_size a = size /\ attribute_stride a = 44).
    { unfold vertex_attributes, sizeof_GL_FLOAT in Ha.
      repeat (apply elem_of_cons in Ha as [->|Ha]);
        [exists 0, 3|exists 3, 3|exists 6, 3|exists 9, 2|];
        [cbn; lia..|]. now apply elem_of_nil in Ha. }
    destruct Hoff as (off & size & Hoff & Hsize & -> & -> & ->).
    replace ((4 * off + (Z.of_nat n - 1) * 44) / 4)
      with (off + (Z.of_nat n - 1) * 11).
    2:{ apply Z.div_unique with (r := 0); lia. }
    rewrite Hlen.
    destruct (_ <=? _) eqn:E; [|reflexivity]. apply Z.leb_le in E. lia.
  - intros v Hv.
    pose proof (drop_blocks floor_floats 9 (fun _ => eq_refl) _ 1%nat v Hv)
      as Hdrop.
    unfold fetch, sizeof_GL_FLOAT.
    cbn [attribute_pointer attribute_stride attribute_size].
    change ((0 + 1 * (4 * 11)) / 4) with 11.
    replace (11 + 3 <=? Z.of_nat (length (drawn mesh ≫= floor_floats)))
      with true by (symmetry; apply Z.leb_le; lia).
    change (Z.to_nat 11) with (9 * 1 + 2)%nat.
    rewrite <- drop_drop, Hdrop. reflexivity.
Qed.

End BufferFacts.

(** * The floor *)

Lemma for_each_ret {A B : Type} (body : A -> list B -> outcome (list B))
    (g : A -> list B) (l : list A) :
  (forall a result, a ∈ l -> body a result = Ret (result ++ g a)) ->
  forall result, for_each body l result = Ret (result ++ (l ≫= g)).
Proof.
  induction l as [|a l IH]; intros Hbody result; cbn [for_each].
  - simpl. now rewrite app_nil_r.
  - rewrite Hbody by apply list_elem_of_here. cbn [mbind outcome_bind].
    rewrite IH by (intros; apply Hbody; now apply list_elem_of_further).
    now rewrite bind_cons, app_assoc.
Qed.

Lemma lookup_blocks {B C : Type} (block : B -> list C) (n : nat) :
  (forall b, length (block b) = n) ->
  forall (l : list B) (k q : nat) (v : B),
    l !! k = Some v -> (q < n)%nat ->
    (l ≫= block) !! (n * k + q)%nat = block v !! q.
Proof.
  intros Hn l k q v Hk Hq.
  rewrite <- lookup_drop, (drop_blocks block n Hn l k v Hk).
  apply lookup_app_l. now rewrite Hn.
Qed.

Lemma bind_singleton {A B : Type} (f : A -> B) (l : list A) :
  (l ≫= fun a => [f a]) = f <$> l.
Proof. induction l as [|a l IH]; [reflexivity|]. now rewrite bind_cons, IH. Qed.

(** [v[i]] for a [size_t] index inside the vector. *)
Lemma at_unchecked_size_t {A : Type} (v : list A) (i : nat) (a : A) :
  v !! i = Some a -> Z.of_nat (length v) <= size_t_modulus ->
  at_unchecked v (Z.of_nat i) = Ret a.
Proof.
  intros Hi Hv. pose proof (lookup_lt_Some _ _ _ Hi) as Hlt.
  unfold at_unchecked, to_size_t. rewrite Z.mod_small by lia.
  replace (Z.of_nat i <? Z.of_nat (length v)) with true
    by (symmetry; apply Z.ltb_lt; lia).
  now rewrite Nat2Z.id, Hi.
Qed.

Section PlaneFacts.

Context {F : Floating} {P : PlaneArithmetic F}.

Variable resolution : Z.
Hypothesis resolution_nonneg : 0 <= resolution.
Hypothesis vertices_fit :
  (resolution + 1) * (resolution + 1) < size_t_modulus.

Lemma plane_vertices_length :
  Z.of_nat (length (plane_vertices resolution))
  = (resolution + 1) * (resolution + 1).
Proof.
  unfold plane_vertices.
  rewrite (length_blocks _ (Z.to_nat (resolution + 1))).
  - rewrite length_seqZ. nia.
  - intros i. rewrite bind_singleton, length_fmap. apply length_seqZ.
Qed.

Lemma plane_vertices_lookup (i j : Z) :
  0 <= i <= resolution -> 0 <= j <= resolution ->
  plane_vertices resolution !! Z.to_nat (i * (resolution + 1) + j)
  = Some (plane_vertex resolution i j).
Proof.
  intros Hi Hj. unfold plane_vertices.
  replace (Z.to_nat (i * (resolution + 1) + j))
    with (Z.to_nat (resolution + 1) * Z.to_nat i + Z.to_nat j)%nat by nia.
  rewrite (lookup_blocks _ (Z.to_nat (resolution + 1))) with (v := i).
  - rewrite bind_singleton, list_lookup_fmap, lookup_seqZ_lt by lia.
    cbn. do 2 f_equal. lia.
  - intros k. rewrite bind_singleton, length_fmap. apply length_seqZ.
  - rewrite lookup_seqZ_lt by lia. f_equal. lia.
  - lia.
Qed.

Lemma plane_vertex_read (i j : Z) :
  0 <= i <= resolution -> 0 <= j <= resolution ->
  at_unchecked (plane_vertices resolution) (i * (resolution + 1) + j)
  = Ret (plane_vertex resolution i j).
Proof.
  intros Hi Hj.
  replace (i * (resolution + 1) + j)
    with (Z.of_nat (Z.to_nat (i * (resolution + 1) + j))) by nia.
  apply at_unchecked_size_t.
  - now apply plane_vertices_lookup.
  - rewrite plane_vertices_length. lia.
Qed.

Lemma plane_quad_ret (i j : Z) (result : list Triangle) :
  0 <= i < resolution -> 0 <= j < resolution ->
  plane_quad resolution (plane_vertices resolution) i j result
  = Ret (result ++ cell_triangles resolution i j).
Proof.
  intros Hi Hj. unfold plane_quad, size_t_modulus in *.
  assert (Hs : forall a, 0 <= a < 2 ^ 64 -> to_size_t a = a)
    by (intros a Ha; unfold to_size_t, size_t_modulus; now apply Z.mod_small).
  assert (Hrow : forall k, 0 <= k <= resolution ->
                   0 <= k * (resolution + 1)
                   /\ k * (resolution + 1) + resolution + 1 < 2 ^ 64) by (intros; nia).
  pose proof (Hrow i ltac:(lia)) as Hr1.
  pose proof (Hrow (i + 1) ltac:(lia)) as Hr2.
  rewrite (Hs (resolution + 1)) by nia.
  rewrite (Hs (i + 1)) by nia.
  rewrite (Hs (i * (resolution + 1))) by lia.
  rewrite (Hs ((i + 1) * (resolution + 1))) by lia.
  rewrite (Hs (i * (resolution + 1) + j)) by lia.
  rewrite (Hs ((i + 1) * (resolution + 1) + j)) by lia.
  rewrite (Hs (i * (resolution + 1) + j + 1)) by lia.
  rewrite (Hs ((i + 1) * (resolution + 1) + j + 1)) by lia.
  replace (i * (resolution + 1) + j + 1)
    with (i * (resolution + 1) + (j + 1)) by lia.
  replace ((i + 1) * (resolution + 1) + j + 1)
    with ((i + 1) * (resolution + 1) + (j + 1)) by lia.
  rewrite !plane_vertex_read by lia.
  reflexivity.
Qed.

(** The triangles of the plane, cell after cell. *)
Lemma generatePlane_cells :
  generatePlane resolution
  = Ret (i ← seqZ 0 resolution; j ← seqZ 0 resolution;
         cell_triangles resolution i j).
Proof.
  unfold generatePlane.
  rewrite (for_each_ret _ (fun i => j ← seqZ 0 resolution;
                                     cell_triangles resolution i j)).
  - reflexivity.
  - intros i result Hi. apply elem_of_seqZ in Hi.
    apply for_each_ret. intros j result' Hj. apply elem_of_seqZ in Hj.
    apply plane_quad_ret; lia.
Qed.

(** X27.  [generatePlane] reads its vertex grid only inside it, and returns
    two triangles for every cell of the grid, row after row: the first
    with the corners (i, j), (i+1, j), (i, j+1), the second with
    (i, j+1), (i+1, j), (i+1, j+1). *)
Theorem generatePlane_grid :
  exists result,
    generatePlane resolution = Ret result
    /\ Z.of_nat (length result) = 2 * resolution * resolution
    /\ forall i j, 0 <= i < resolution -> 0 <= j < resolution ->
         take 2 (drop (Z.to_nat (2 * (i * resolution + j))) result)
         = cell_triangles resolution i j.
Proof.
  eexists. split; [apply generatePlane_cells|]. split.
  - rewrite (length_blocks _ (2 * Z.to_nat resolution)).
    + rewrite length_seqZ. nia.
    + intros i. rewrite (length_blocks _ 2%nat); [|reflexivity].
      now rewrite length_seqZ.
  - intros i j Hi Hj.
    replace (Z.to_nat (2 * (i * resolution + j)))
      with (2 * Z.to_nat resolution * Z.to_nat i + 2 * Z.to_nat j)%nat by nia.
    rewrite <- drop_drop.
    rewrite (drop_blocks _ (2 * Z.to_nat resolution)) with (v := i).
    + rewrite drop_app_le.
      2:{ rewrite (length_blocks _ 2%nat); [|reflexivity].
          rewrite length_seqZ. lia. }
      rewrite (drop_blocks _ 2%nat) with (v := j); [reflexivity..|].
      rewrite lookup_seqZ_lt by lia. f_equal. lia.
    + intros k. rewrite (length_blocks _ 2%nat); [|reflexivity].
      now rewrite length_seqZ.
    + rewrite lookup_seqZ_lt by lia. f_equal. lia.
Qed.

(** X28.  The count [GeneratePlaneBufferData] stores in [gFloorTriangles]
    for the plane, and hands to [glDrawArrays], is the number of vertices,
    six for every cell. *)
Theorem gFloorTriangles_counts_vertices :
  exists mesh,
    generatePlane resolution = Ret mesh
    /\ gFloorTriangles mesh = 6 * resolution * resolution
    /\ gFloorTriangles mesh = 3 * Z.of_nat (length mesh).
Proof.
  eexists. split; [apply generatePlane_cells|].
  rewrite gFloorTriangles_drawn, length_drawn.
  rewrite (length_blocks _ (2 * Z.to_nat resolution)).
  - rewrite length_seqZ. split; nia.
  - intros i. rewrite (length_blocks _ 2%nat); [|reflexivity].
    now rewrite length_seqZ.
Qed.

End PlaneFacts.

(** * The texture state across a decode *)

Section TextureState.

Context {F : Floating}.

Lemma LoadMTL_textureID fs path m o ok m' o' :
  LoadMTL fs path (m, o) = Ret (ok, (m', o')) ->
  m_textureID m' = m_textureID m.
Proof.
  unfold LoadMTL. destruct (fs path) as [text|].
  - intros H. apply bind_ret_inv in H as ([m1 o1] & H1 & H).
    apply mret_inv in H. injection H as _ <- _.
    now apply LoadMTL_lines_textureID in H1.
  - now intros [= _ <- _].
Qed.

(** What a line of the mesh file leaves of the texture state. *)
Lemma LoadOBJ_line_texture_state fs filename junk line st st' :
  LoadOBJ_line fs filename junk line st = Ret st' ->
  m_textureID (this st') = m_textureID (this st)
  /\ (line_type line <> "mtllib" ->
      m_material (this st') = m_material (this st)
      /\ m_pendingTexturePath (this st') = m_pendingTexturePath (this st)).
Proof.
  intros H. pose proof H as H'.
  apply LoadOBJ_line_effect in H
    as [(Hty & _)|[(_ & ->)|[(_ & ->)|[(_ & ->)|[(_ & Hf)|(_ & _ & _ & _ & _ & ->)]]]]];
    try (split; [reflexivity | intros _; split; reflexivity]).
  - split; [|intros Hne; contradiction].
    revert H'. unfold LoadOBJ_line. rewrite line_split, Hty. cbn [String.eqb Ascii.eqb Bool.eqb].
    destruct (get_string _ _) as [mtl iss].
    destruct (directory_of_ret filename) as [d ->]. cbn [mbind outcome_bind].
    intros H. apply bind_ret_inv in H as ([ok [m1 o1]] & H1 & H).
    apply mret_inv in H. subst st'. cbn [this].
    now apply LoadMTL_textureID in H1.
  - destruct Hf as (v1 & vt1 & vn1 & v2 & vt2 & vn2 & v3 & vt3 & vn3
                    & c0 & c1 & c2 & d & _ & _ & _ & ->).
    split; [reflexivity | intros _; split; reflexivity].
Qed.

Lemma LoadOBJ_lines_texture_state fs filename junk lines :
  forall lineno st st',
  LoadOBJ_lines fs filename junk lineno lines st = Ret st' ->
  m_textureID (this st') = m_textureID (this st)
  /\ (Forall (fun line => line_type line <> "mtllib") lines ->
      m_material (this st') = m_material (this st)
      /\ m_pendingTexturePath (this st') = m_pendingTexturePath (this st)).
Proof.
  induction lines as [|line rest IH]; intros lineno st st';
    cbn [LoadOBJ_lines].
  - intros [= <-]. auto.
  - intros H. apply bind_ret_inv in H as (st1 & H1 & H).
    apply LoadOBJ_line_texture_state in H1 as [Hi1 Hk1].
    apply IH in H as [Hi Hk]. split; [congruence|].
    intros Hall. apply Forall_cons in Hall as [Hl Hall].
    destruct (Hk1 Hl) as [Hm1 Hp1]. destruct (Hk Hall) as [Hm Hp].
    split; congruence.
Qed.

(** X29.  [LoadOBJ] clears the pools but not the texture state: the texture
    id is never touched, and a file without a [mtllib] line leaves the
    material and the pending texture path of the previous decode in
    place, for the next [LoadTextures] to load. *)
Theorem LoadOBJ_keeps_texture_state (fs : filesystem)
    (junk : nat -> nat -> float) (m m' : OBJMesh) (filename : string)
    (ok : bool) (log : list event) :
  LoadOBJ fs junk m filename = Ret (ok, m', log) ->
  m_textureID m' = m_textureID m
  /\ (match fs filename with
      | Some text =>
          Forall (fun line => line_type line <> "mtllib") (getlines text)
      | None => True
      end ->
      m_material m' = m_material m
      /\ m_pendingTexturePath m' = m_pendingTexturePath m).
Proof.
  unfold LoadOBJ. destruct (fs filename) as [text|].
  - intros H. apply bind_ret_inv in H as (st' & Hl & H).
    apply mret_inv in H. injection H as _ <- _.
    apply LoadOBJ_lines_texture_state in Hl as [Hi Hk]. exact (conj Hi Hk).
  - intros [= _ <- _]. auto.
Qed.

End TextureState.

(** * Further runs on concrete files *)

Section MoreExamples.

#[local] Existing Instance Symbolic.floating.
#[local] Existing Instance Symbolic.counting_gl.

Import Symbolic Samples.

(** C3: the file [v 1.0 abc 3.0]. *)
Lemma v_line_never_rejected_witness :
  (exists m' log, LoadOBJ files junk empty_mesh "bad.obj" = Ret (true, m', log))
  /\ exists st',
       LoadOBJ_line files "bad.obj" (junk 0) "v 1.0 abc 3.0" (at_line empty_mesh)
       = Ret st'
       /\ exists added,
            positions (this st') = positions (this (at_line empty_mesh)) ++ added.
Proof.
  destruct (v_line_never_rejected files junk empty_mesh "bad.obj"
              (ln "v 1.0 abc 3.0") eq_refl) as [Hfile Hline].
  { constructor; [vm_compute; discriminate | constructor]. }
  split; [exact Hfile|].
  destruct (Hline 0%nat "v 1.0 abc 3.0" (at_line empty_mesh)
              (or_introl eq_refl)) as (st' & Hr & _ & Hp & _).
  exists st'. split; [exact Hr | exact Hp].
Defined.

(** C3, the claim as it was: the decode of [v 1.0 abc 3.0] does not fail,
    and the position pool is not left without an entry for the line. *)
Lemma malformed_v_line_is_kept :
  decoded (LoadOBJ files junk empty_mesh "bad.obj")
  = Ret (true, ([], [(of_text "1.0", stored_on_failure, junk_local 0 2)],
                [], [])).
Proof. vm_compute. reflexivity. Qed.

(** C6: [tri.obj] has the line [vt 0 0]; and the line [vt 0.25 0.75]. *)
Lemma vt_line_appends_unmodified_witness :
  texCoords tri_mesh = texcoords_of junk 0 (getlines tri_text)
  /\ exists st',
       LoadOBJ_line files "tri.obj" (junk 0) "vt 0.25 0.75" (at_line empty_mesh)
       = Ret st'
       /\ texCoords (this st')
          = texCoords (this (at_line empty_mesh))
            ++ [(of_text "0.25", of_text "0.75")]
       /\ positions (this st') = positions (this (at_line empty_mesh))
       /\ normals (this st') = normals (this (at_line empty_mesh))
       /\ m_triangles (this st') = m_triangles (this (at_line empty_mesh)).
Proof.
  destruct (vt_line_appends_unmodified files junk empty_mesh tri_mesh
              "tri.obj" tri_text true
              (log_of (LoadOBJ files junk empty_mesh "tri.obj")) eq_refl)
    as [Hfile Hline].
  { vm_compute. reflexivity. }
  split; [exact Hfile|].
  eapply (Hline 0%nat "vt 0.25 0.75" (at_line empty_mesh)); reflexivity.
Defined.

Example tri_obj_texcoords :
  texcoords_of junk 0 (getlines tri_text) = [(of_text "0", of_text "0")].
Proof. vm_compute. reflexivity. Qed.

(** C10: [bad.obj] decoded twice into the same empty object, the locals
    holding something else the second time. *)
Lemma LoadOBJ_runs_can_differ_witness :
  decoded (LoadOBJ files junk empty_mesh "bad.obj")
  = decoded (LoadOBJ files junk empty_mesh "bad.obj")
  /\ positions (mesh_of (LoadOBJ files junk empty_mesh "bad.obj"))
     <> positions (mesh_of (LoadOBJ files zero_locals empty_mesh "bad.obj")).
Proof.
  eapply (LoadOBJ_runs_can_differ files junk zero_locals empty_mesh empty_mesh
            "bad.obj" (ln "v 1.0 abc 3.0") [] "v 1.0 abc 3.0" []
            _ _ _ _ true true _ _
            (log_of (LoadOBJ files junk empty_mesh "bad.obj"))
            (log_of (LoadOBJ files zero_locals empty_mesh "bad.obj")));
    try reflexivity.
  discriminate.
Defined.

Example bad_obj_twice :
  positions (mesh_of (LoadOBJ files junk empty_mesh "bad.obj"))
  = [(of_text "1.0", stored_on_failure, junk_local 0 2)]
  /\ positions (mesh_of (LoadOBJ files zero_locals empty_mesh "bad.obj"))
     = [(of_text "1.0", stored_on_failure, of_text "0")].
Proof. vm_compute. split; reflexivity. Qed.

(** X1: [tri.obj] has one [f] line, one [vn] line, one [vt] line and
    three [v] lines. *)
Lemma LoadOBJ_counts_witness :
  GetTriangleCount tri_mesh = Z.of_nat (count_type "f" (getlines tri_text))
  /\ length (normals tri_mesh) = count_type "vn" (getlines tri_text)
  /\ length (texCoords tri_mesh) = count_type "vt" (getlines tri_text)
  /\ last (log_of (LoadOBJ files junk empty_mesh "tri.obj"))
     = Some (cout_loaded_obj
               (Z.of_nat (count_type "v" (getlines tri_text)))
               (Z.of_nat (count_type "vn" (getlines tri_text)))
               (Z.of_nat (count_type "f" (getlines tri_text)))
               (Z.of_nat (count_type "f" (getlines tri_text)))).
Proof.
  apply (LoadOBJ_counts files junk empty_mesh tri_mesh "tri.obj" tri_text true
           (log_of (LoadOBJ files junk empty_mesh "tri.obj")));
    vm_compute; reflexivity.
Defined.

Example tri_obj_counts :
  count_type "v" (getlines tri_text) = 3%nat
  /\ count_type "f" (getlines tri_text) = 1%nat.
Proof. vm_compute. auto. Qed.

(** X2: [bad.obj] has a single [v] line. *)
Lemma LoadOBJ_without_faces_returns_witness :
  exists m' log, LoadOBJ files junk empty_mesh "bad.obj" = Ret (true, m', log).
Proof.
  apply (LoadOBJ_without_faces_returns files junk empty_mesh "bad.obj"
           (ln "v 1.0 abc 3.0")); [reflexivity|].
  constructor; [vm_compute; discriminate | constructor].
Defined.

(** X3, X4: the first corner of the triangle of [tri.obj]. *)
Lemma decoded_vertices_have_placeholder_colour_witness :
  r tri_corner = f_0_7 /\ g tri_corner = f_0_7 /\ b tri_corner = f_0_7.
Proof.
  apply (decoded_vertices_have_placeholder_colour files junk empty_mesh
           tri_mesh "tri.obj" tri_text true
           (log_of (LoadOBJ files junk empty_mesh "tri.obj"))
           tri_triangle tri_corner);
    [reflexivity | vm_compute; reflexivity
     | apply list_elem_of_here | apply list_elem_of_here].
Defined.

Lemma decoded_vertices_come_from_pools_witness :
  (x tri_corner, y tri_corner, z tri_corner) ∈ positions tri_mesh
  /\ (nx tri_corner, ny tri_corner, nz tri_corner) ∈ normals tri_mesh
  /\ (s tri_corner, t tri_corner) ∈ texCoords tri_mesh.
Proof.
  apply (decoded_vertices_come_from_pools files junk empty_mesh
           tri_mesh "tri.obj" tri_text true
           (log_of (LoadOBJ files junk empty_mesh "tri.obj"))
           tri_triangle tri_corner);
    [reflexivity | vm_compute; reflexivity
     | apply list_elem_of_here | apply list_elem_of_here].
Defined.

(** X5: [tri.obj], all of whose lines are complete, with and without its
    material file, into two objects and with two contents of the locals. *)
Lemma LoadOBJ_geometry_ignores_other_files_witness :
  decoded (LoadOBJ files junk empty_mesh "tri.obj")
  = decoded (LoadOBJ without_material junk three_positions_one_normal "tri.obj")
  /\ decoded (LoadOBJ files junk empty_mesh "tri.obj")
     = decoded (LoadOBJ without_material zero_locals
                  three_positions_one_normal "tri.obj").
Proof.
  destruct (LoadOBJ_geometry_ignores_other_files files without_material
              junk zero_locals empty_mesh three_positions_one_normal
              "tri.obj" tri_text eq_refl eq_refl) as [Hsame Hany].
  split; [exact Hsame|]. apply Hany.
  repeat (constructor; [reflexivity|]). constructor.
Defined.

Example missing_material_is_no_failure :
  exists m log,
    LoadOBJ without_material junk empty_mesh "tri.obj" = Ret (true, m, log)
    /\ m_pendingTexturePath m = EmptyString.
Proof. eexists _, _. vm_compute. split; reflexivity. Qed.

(** X6: a face with two corners. *)
Lemma face_with_two_tokens_throws_witness :
  LoadOBJ_line files "tri.obj" (junk 0) "f 1/1/1 1/1/1" (at_line one_of_each)
  = Throws invalid_argument.
Proof.
  apply (face_with_two_tokens_throws files "tri.obj" (junk 0) "f 1/1/1 1/1/1"
           (at_line one_of_each) "1/1/1" "1/1/1" (0, 0, 0, []) (0, 0, 0, []));
    reflexivity.
Defined.

(** X7: the token [1/1/1]. *)
Lemma ParseVertexIndices_v_vt_vn_witness :
  ParseVertexIndices one_of_each "1/1/1" = Ret (1 - 1, 1 - 1, 1 - 1, []).
Proof.
  apply (ParseVertexIndices_v_vt_vn one_of_each "1" "1" "1" 1 1 1);
    try reflexivity.
  simpl. lia.
Defined.

(** X8: texture coordinate 7 of a pool of one. *)
Lemma ParseVertexIndices_texcoord_usable_witness :
  0 <= 0 < Z.of_nat (length (texCoords one_of_each)).
Proof.
  apply (ParseVertexIndices_texcoord_usable one_of_each "1/7/1" 0 0 0
           [cerr_invalid_texcoord 6]);
    [unfold fits; simpl; lia | discriminate | reflexivity].
Defined.

(** X9, X10: [models/tri.obj] and [tri.obj]. *)
Lemma directory_of_splits_witness :
  directory_of "models/tri.obj" = Ret "models/".
Proof.
  apply (directory_of_splits "models" "tri.obj" "/"); reflexivity.
Defined.

Lemma directory_of_bare_witness : directory_of "tri.obj" = Ret EmptyString.
Proof. apply (directory_of_bare "tri.obj"). reflexivity. Defined.

(** X12: the material file of [tri.obj]. *)
Lemma LoadMTL_last_map_Kd_wins_witness :
  exists m' o',
    LoadMTL files "tri.mtl" (empty_mesh, []) = Ret (true, (m', o'))
    /\ diffuseTexture (m_material m') = "t.ppm"
    /\ m_pendingTexturePath m' = (EmptyString ++ "t.ppm")%string.
Proof.
  apply (LoadMTL_last_map_Kd_wins files "tri.mtl"
           (ln "newmtl skin" ++ ln "map_Kd t.ppm")%string empty_mesh []
           ["newmtl skin"] [] "map_Kd t.ppm" "t.ppm" EmptyString);
    try reflexivity.
  constructor.
Defined.

(** X14: three lines, one of them empty. *)
Lemma getlines_join_lines_witness :
  getlines (join_lines ["v 0 0 0"; EmptyString; "f 1 1 1"])
  = ["v 0 0 0"; EmptyString; "f 1 1 1"].
Proof.
  apply (getlines_join_lines ["v 0 0 0"; EmptyString; "f 1 1 1"]).
  repeat constructor.
Defined.

Example shader_without_last_newline :
  LoadShaderAsString (fun _ => Some "void main(){}") "vert.glsl"
  = ln "void main(){}".
Proof. reflexivity. Qed.

(** The header of [t.ppm] and of [short.ppm]. *)
Lemma t_ppm_header_ok :
  header_ok "P6" (ln EmptyString) [(" 2 x 2", EmptyString)]
    "2" " " "2" (ln EmptyString) "255".
Proof.
  split; try (split; [reflexivity | discriminate]);
    try (split; [split; [reflexivity | discriminate] | vm_compute; discriminate]).
  - now right.
  - constructor; [split; reflexivity | constructor].
Qed.

Lemma plain_header_ok magic W H M :
  magic = "P3" \/ magic = "P6" ->
  digits W -> decimal W <= INT_MAX ->
  digits H -> decimal H <= INT_MAX ->
  digits M -> decimal M <= INT_MAX ->
  header_ok magic (ln EmptyString) [] W " " H (ln EmptyString) M.
Proof.
  intros. split; auto; split; try reflexivity; discriminate.
Qed.

(** X15: [t.ppm]. *)
Lemma Direct_decodes_P6_witness :
  exists out,
    Direct.ReadImageData files no_junk "t.ppm" 0 0 None
    = Ret (decimal "2", decimal "2", Some (map Some (chars_of samples)), out).
Proof.
  apply (Direct_decodes_P6 files no_junk "t.ppm" 0 0 None
           (ln EmptyString) [(" 2 x 2", EmptyString)]
           "2" " " "2" (ln EmptyString) "255" "010" samples EmptyString);
    [exact t_ppm_header_ok | vm_compute; discriminate | reflexivity
     | reflexivity | vm_compute; discriminate | reflexivity].
Defined.

(** X16: [short.ppm], one byte short. *)
Lemma truncated_P6_gives_no_buffer_witness :
  (exists out,
      Direct.ReadImageData files no_junk "short.ppm" 0 0 None
      = Ret (decimal "2", decimal "2", None, out))
  /\ (exists out,
      Flipping.ReadImageData files no_junk "short.ppm" 0 0 None
      = Ret (decimal "2", decimal "2", None, out)).
Proof.
  apply (truncated_P6_gives_no_buffer files no_junk "short.ppm" 0 0 None
           (ln EmptyString) [] "2" " " "2" (ln EmptyString) "255"
           "010" "abcdefghijk");
    [apply plain_header_ok;
       [now right | split; [reflexivity | discriminate] | vm_compute; discriminate
        | split; [reflexivity | discriminate] | vm_compute; discriminate
        | split; [reflexivity | discriminate] | vm_compute; discriminate]
    | vm_compute; discriminate | reflexivity
    | reflexivity | vm_compute; discriminate | reflexivity].
Defined.

(** X17: sixteen bits for a sample. *)
Lemma deep_image_is_refused_witness :
  (exists out,
      Direct.ReadImageData images no_junk "deep.ppm" 0 0 None
      = Ret (decimal "2", decimal "2", None, out))
  /\ (exists out,
      Flipping.ReadImageData images no_junk "deep.ppm" 0 0 None
      = Ret (decimal "2", decimal "2", None, out)).
Proof.
  apply (deep_image_is_refused images no_junk "deep.ppm" 0 0 None
           (ln EmptyString) [] "2" " " "2" (ln EmptyString) "65535"
           "P6" (String "010" samples));
    [apply plain_header_ok;
       [now right | split; [reflexivity | discriminate] | vm_compute; discriminate
        | split; [reflexivity | discriminate] | vm_compute; discriminate
        | split; [reflexivity | discriminate] | vm_compute; discriminate]
    | reflexivity | discriminate | reflexivity | reflexivity].
Defined.

(** X18: a file that ends in [# made with #]. *)
Lemma unterminated_comment_never_returns_witness :
  Direct.ReadImageData images no_junk "comment.ppm" 0 0 None = Loops
  /\ Flipping.ReadImageData images no_junk "comment.ppm" 0 0 None = Loops.
Proof.
  apply (unterminated_comment_never_returns images no_junk "comment.ppm" 0 0
           "P6" (ln EmptyString) [] " made with #" None);
    [now right | reflexivity | discriminate | constructor
     | reflexivity | reflexivity | reflexivity].
Defined.

(** The same file with another last character is read to its end. *)
Example comment_with_other_end :
  returns (Direct.ReadImageData (fun _ => Some (ln "P6" ++ "# made with")%string)
             no_junk "comment.ppm" 0 0 None) = true.
Proof. vm_compute. reflexivity. Qed.

(** X19: one pixel, its blue sample 300. *)
Lemma Direct_decodes_P3_witness :
  exists out,
    Direct.ReadImageData images no_junk "ascii.ppm" 0 0 None
    = Ret (decimal "1", decimal "1",
           Some (map sample_cell
                   [(ln EmptyString, "255"); (" ", "0"); (" ", "300")]), out).
Proof.
  apply (Direct_decodes_P3 images no_junk "ascii.ppm" 0 0 None
           (ln EmptyString) [(" one pixel", EmptyString)]
           "1" " " "1" (ln EmptyString) "255"
           [(ln EmptyString, "255"); (" ", "0"); (" ", "300")]
           (ln EmptyString)).
  - split; try (split; [reflexivity | discriminate]);
      try (split; [split; [reflexivity | discriminate] | vm_compute; discriminate]).
    + now left.
    + constructor; [split; reflexivity | constructor].
  - vm_compute; discriminate.
  - discriminate.
  - constructor; [|constructor; [|constructor; [|constructor]]];
      (split; [split; [reflexivity | discriminate]
              | split; [split; [reflexivity | discriminate]
                       | vm_compute; discriminate]]).
  - reflexivity.
  - vm_compute; discriminate.
  - reflexivity.
  - reflexivity.
Defined.

Example sample_300_wraps : sample_cell (" ", "300") = Some ","%char.
Proof. reflexivity. Qed.

(** X20: the 2 x 2 image, reversed twice. *)
Lemma flip_pass_twice_witness :
  exists once,
    Flipping.flip_pass (Flipping.rounds_of (Z.of_nat (3 * 4))) 0
      (to_uint (Z.of_nat (3 * 4) - 1)) (map Some (chars_of samples))
      (replicate 12 None) = Ret once
    /\ Flipping.flip_pass (Flipping.rounds_of (Z.of_nat (3 * 4))) 0
         (to_uint (Z.of_nat (3 * 4) - 1)) once (replicate 12 None)
       = Ret (map Some (chars_of samples)).
Proof.
  apply (flip_pass_twice 4 (map Some (chars_of samples))
           (replicate 12 None) (replicate 12 None));
    [reflexivity | reflexivity | reflexivity | vm_compute; discriminate].
Defined.

Example t_ppm_turned :
  reverse_pixels (map Some (chars_of samples))
  = map Some (chars_of "jklghidefabc").
Proof. reflexivity. Qed.

(** X22: width -1. *)
Lemma negative_sample_count_throws_witness :
  Direct.ReadImageData images no_junk "negative.ppm" 0 0 None
  = Throws bad_alloc
  /\ Flipping.ReadImageData images no_junk "negative.ppm" 0 0 None
     = Throws bad_alloc.
Proof.
  apply (negative_sample_count_throws images no_junk "negative.ppm" 0 0 None
           "P3" (ln EmptyString) [] "1" " " "1" (ln EmptyString) "255"
           (ln EmptyString) true false);
    [apply plain_header_ok;
       [now left | split; [reflexivity | discriminate] | vm_compute; discriminate
        | split; [reflexivity | discriminate] | vm_compute; discriminate
        | split; [reflexivity | discriminate] | vm_compute; discriminate]
    | vm_compute; discriminate | discriminate | reflexivity | reflexivity
    | reflexivity | vm_compute; discriminate | reflexivity].
Defined.

(** X23: 50000 x 50000. *)
Lemma oversized_image_is_undefined_witness :
  Direct.ReadImageData images no_junk "huge.ppm" 0 0 None = Undefined
  /\ Flipping.ReadImageData images no_junk "huge.ppm" 0 0 None = Undefined.
Proof.
  apply (oversized_image_is_undefined images no_junk "huge.ppm" 0 0 None
           "P6" (ln EmptyString) [] "50000" " " "50000" (ln EmptyString) "255"
           (ln EmptyString));
    [apply plain_header_ok;
       [now right | split; [reflexivity | discriminate] | vm_compute; discriminate
        | split; [reflexivity | discriminate] | vm_compute; discriminate
        | split; [reflexivity | discriminate] | vm_compute; discriminate]
    | vm_compute; discriminate | discriminate | reflexivity | reflexivity
    | reflexivity].
Defined.

(** X24: a texture file that is not there. *)
Lemma LoadTextures_without_image_witness :
  (exists out,
      LoadTextures (Direct_LoadPPM files stack) waiting_mesh 0
      = Ret (false, with_textureID waiting_mesh 0, 0, out))
  /\ (exists out,
      LoadTextures (Flipping_LoadPPM files stack) waiting_mesh 0
      = Ret (false, with_textureID waiting_mesh 0, 0, out)).
Proof.
  apply (LoadTextures_without_image (GL := counting_gl) files stack
           waiting_mesh 0); discriminate.
Defined.

(** X25: the buffer of [tri.obj]. *)
Lemma SetupBuffers_layout_witness :
  Z.of_nat (length (SetupBuffers_vertexData tri_mesh))
  = 33 * GetTriangleCount tri_mesh
  /\ gModelTriangles tri_mesh = Z.of_nat (length (drawn (m_triangles tri_mesh)))
  /\ forall (k : nat) (v : Vertex),
       drawn (m_triangles tri_mesh) !! k = Some v ->
       (fun a => fetch a (SetupBuffers_vertexData tri_mesh) (Z.of_nat k))
         <$> vertex_attributes
       = [Some [x v; y v; z v]; Some [r v; g v; b v];
          Some [nx v; ny v; nz v]; Some [s v; t v]].
Proof.
  apply (SetupBuffers_layout tri_mesh). vm_compute. reflexivity.
Defined.

(** X26: a floor of two triangles. *)
Lemma floor_buffer_is_misread_witness :
  gFloorTriangles [tri_triangle; tri_triangle]
  = Z.of_nat (length (drawn [tri_triangle; tri_triangle]))
  /\ Z.of_nat (length (vertexDataFloor [tri_triangle; tri_triangle]))
     = 27 * Z.of_nat (length [tri_triangle; tri_triangle])
  /\ (forall a, a ∈ vertex_attributes ->
        fetch a (vertexDataFloor [tri_triangle; tri_triangle])
          (gFloorTriangles [tri_triangle; tri_triangle] - 1) = None)
  /\ (forall v, drawn [tri_triangle; tri_triangle] !! 1%nat = Some v ->
        fetch (mk_attribute 0 3 (sizeof_GL_FLOAT * 11) 0)
          (vertexDataFloor [tri_triangle; tri_triangle]) 1
        = Some [z v; r v; g v]).
Proof.
  apply (floor_buffer_is_misread [tri_triangle; tri_triangle]). simpl. lia.
Defined.

(** X29: [bad.obj] decoded into a mesh that has a material and a texture. *)
Lemma LoadOBJ_keeps_texture_state_witness :
  m_textureID (mesh_of (LoadOBJ files junk waiting_mesh "bad.obj"))
  = m_textureID waiting_mesh
  /\ (match files "bad.obj" with
      | Some text =>
          Forall (fun line => line_type line <> "mtllib") (getlines text)
      | None => True
      end ->
      m_material (mesh_of (LoadOBJ files junk waiting_mesh "bad.obj"))
      = m_material waiting_mesh
      /\ m_pendingTexturePath (mesh_of (LoadOBJ files junk waiting_mesh "bad.obj"))
         = m_pendingTexturePath waiting_mesh).
Proof.
  apply (LoadOBJ_keeps_texture_state files junk waiting_mesh
           (mesh_of (LoadOBJ files junk waiting_mesh "bad.obj")) "bad.obj" true
           (log_of (LoadOBJ files junk waiting_mesh "bad.obj"))).
  vm_compute. reflexivity.
Defined.

(** X30: texture coordinate 7 of a pool of one, in a face. *)
Lemma face_texcoord_tolerated_witness :
  exists c0 c1 c2,
    LoadOBJ_line files "tri.obj" (junk 0) "f 1/7/1 1/1/1 1/1/1"
      (at_line one_of_each)
    = Ret (mk_loop_state
             (with_triangles one_of_each [mk_Triangle (c0, c1, c2)])
             EmptyString 0 0 (0 + 1) ([] ++ [cerr_invalid_texcoord 6] ++ [] ++ [])).
Proof.
  apply (face_texcoord_tolerated files "tri.obj" (junk 0) "f 1/7/1 1/1/1 1/1/1"
           (at_line one_of_each) "1/7/1" "1/1/1" "1/1/1"
           0 0 0 [cerr_invalid_texcoord 6] 0 0 0 [] 0 0 0 []);
    try reflexivity.
  - discriminate.
  - unfold unresolved. rewrite !Exists_cons, Exists_nil. simpl. lia.
Defined.

End MoreExamples.

Section PlaneExamples.

#[local] Existing Instance SymbolicPlane.plane_floating.
#[local] Existing Instance SymbolicPlane.plane_arithmetic.

(** X27, X28: a plane of 2 x 2 cells. *)
Lemma generatePlane_grid_witness :
  exists result,
    generatePlane 2 = Ret result
    /\ Z.of_nat (length result) = 2 * 2 * 2
    /\ forall i j, 0 <= i < 2 -> 0 <= j < 2 ->
         take 2 (drop (Z.to_nat (2 * (i * 2 + j))) result)
         = cell_triangles 2 i j.
Proof.
  apply (generatePlane_grid 2); [vm_compute; discriminate | vm_compute; reflexivity].
Defined.

Lemma gFloorTriangles_counts_vertices_witness :
  exists mesh,
    generatePlane 2 = Ret mesh
    /\ gFloorTriangles mesh = 6 * 2 * 2
    /\ gFloorTriangles mesh = 3 * Z.of_nat (length mesh).
Proof.
  apply (gFloorTriangles_counts_vertices 2);
    [vm_compute; discriminate | vm_compute; reflexivity].
Defined.

Example plane_of_one_cell :
  generatePlane 1 = Ret (cell_triangles 1 0 0).
Proof. reflexivity. Qed.

End PlaneExamples.
